(** * The element validator of ui-manual-validator

    A shallow embedding of [src/validators/element_validator.py]: the issue
    taxonomy, the nine rule methods of [ElementValidator], the per-element
    engine [validate_element] and the aggregator [get_validation_summary],
    followed by the properties of the specification that concern them.

    Modelling conventions.
    - An element is a Python [Dict[str, Any]].  Its values are dynamically
      typed, so the embedding has a small universe [value] of Python values
      (None, bool, int, str, dict) and every operation that Python can
      reject ([.lower()] on a non-string, [<] between None and an int, ...)
      returns an [outcome]: a result or a raised exception.
    - A Python dict keeps insertion order, and [attributes.items()] is
      iterated in that order, so a dict is an association list; a lookup
      takes the first binding of a key.
    - A str is a sequence of code points below 256; [lower], [strip] and
      [isspace] follow Python's tables on that range.
    - Numbers are Python ints (geometry in whole layout pixels).
    - The two histograms of the summary are only ever read by key, so they
      are finite maps ([gmap]).
    - [logger.error] writes to the logging subsystem and has no influence on
      any returned value; it is left out. *)

From Stdlib Require Import ssreflect ZArith QArith String Ascii List Lia.
From stdpp Require Import base option list strings gmap fin_maps.

Set Warnings "-rewrite-rw".

Local Open Scope string_scope.
Local Open Scope list_scope.

(** ** Strings *)

Definition chr_lower (c : ascii) : ascii :=
  let n := N_of_ascii c in
  if ((65 <=? n) && (n <=? 90) || (192 <=? n) && (n <=? 222) && negb (n =? 215))%N
  then ascii_of_N (n + 32)
  else c.

Fixpoint str_lower (s : string) : string :=
  match s with
  | EmptyString => EmptyString
  | String c r => String (chr_lower c) (str_lower r)
  end.

Definition chr_isspace (c : ascii) : bool :=
  let n := N_of_ascii c in
  ((9 <=? n) && (n <=? 13) || (28 <=? n) && (n <=? 32) || (n =? 133) || (n =? 160))%N.

Fixpoint str_lstrip (s : string) : string :=
  match s with
  | EmptyString => EmptyString
  | String c r => if chr_isspace c then str_lstrip r else s
  end.

Fixpoint str_rstrip (s : string) : string :=
  match s with
  | EmptyString => EmptyString
  | String c r =>
      match str_rstrip r with
      | EmptyString => if chr_isspace c then EmptyString else String c EmptyString
      | r' => String c r'
      end
  end.

Definition str_strip (s : string) : string := str_rstrip (str_lstrip s).

Definition str_startswith (s p : string) : bool := String.prefix p s.

(** [sub in s] for two strings. *)
Fixpoint str_contains (sub s : string) : bool :=
  String.prefix sub s
  || match s with
     | EmptyString => false
     | String _ r => str_contains sub r
     end.

(** Truth value of a str: non-empty. *)
Definition str_bool (s : string) : bool :=
  match s with EmptyString => false | _ => true end.

Definition newline : string := String "010"%char EmptyString.

Definition dquote : string := String "034"%char EmptyString.

(** ** Python values and faults *)

#[warnings="-register-all"]
Inductive value : Type :=
| VNone
| VBool (b : bool)
| VNum (n : Z)
| VStr (s : string)
| VDict (d : list (string * value)).

Definition dict : Type := list (string * value).

(** Instances of [Exception], which is what [except Exception] catches. *)
Inductive exn : Type :=
| AttributeError
| TypeError
| KeyError
| OtherError (name : string).

Inductive outcome (A : Type) : Type :=
| Ok (a : A)
| Raise (e : exn).

Arguments Ok {A} a.
Arguments Raise {A} e.

#[global] Instance outcome_ret : MRet outcome := fun A a => Ok a.

#[global] Instance outcome_bind : MBind outcome := fun A B f m =>
  match m with
  | Ok a => f a
  | Raise e => Raise e
  end.

Fixpoint assoc_get {A : Type} (l : list (string * A)) (k : string) : option A :=
  match l with
  | [] => None
  | (k', v) :: r => if String.eqb k' k then Some v else assoc_get r k
  end.

(** [d.get(k)] as an option; [d.get(k, dflt)] is [default dflt (dict_get d k)]. *)
Definition dict_get (d : dict) (k : string) : option value := assoc_get d k.

(** [v == 'lit'] for a string literal. *)
Definition value_is_str (v : value) (lit : string) : bool :=
  match v with
  | VStr s => String.eqb s lit
  | _ => false
  end.

(** [bool(v)]. *)
Definition py_bool (v : value) : bool :=
  match v with
  | VNone => false
  | VBool b => b
  | VNum n => negb (n =? 0)%Z
  | VStr s => str_bool s
  | VDict d => match d with [] => false | _ => true end
  end.

Definition py_lower (v : value) : outcome string :=
  match v with
  | VStr s => Ok (str_lower s)
  | _ => Raise AttributeError
  end.

Definition py_strip (v : value) : outcome string :=
  match v with
  | VStr s => Ok (str_strip s)
  | _ => Raise AttributeError
  end.

Definition py_startswith (v : value) (p : string) : outcome bool :=
  match v with
  | VStr s => Ok (str_startswith s p)
  | _ => Raise AttributeError
  end.

(** [v.get(k)], [None] standing for the absent key. *)
Definition py_get (v : value) (k : string) : outcome (option value) :=
  match v with
  | VDict d => Ok (dict_get d k)
  | _ => Raise AttributeError
  end.

Definition py_items (v : value) : outcome dict :=
  match v with
  | VDict d => Ok d
  | _ => Raise AttributeError
  end.

(** ['k' in v]: key membership in a dict, substring test in a str. *)
Definition py_in (k : string) (v : value) : outcome bool :=
  match v with
  | VDict d => Ok (bool_decide (is_Some (dict_get d k)))
  | VStr s => Ok (str_contains k s)
  | _ => Raise TypeError
  end.

(** [v['k']]. *)
Definition py_getitem (v : value) (k : string) : outcome value :=
  match v with
  | VDict d =>
      match dict_get d k with
      | Some x => Ok x
      | None => Raise KeyError
      end
  | _ => Raise TypeError
  end.

Definition py_len (v : value) : outcome nat :=
  match v with
  | VStr s => Ok (String.length s)
  | VDict d => Ok (length d)
  | _ => Raise TypeError
  end.

(** [v < n] for an int literal [n]; a bool compares as 0 or 1. *)
Definition py_lt (v : value) (n : Z) : outcome bool :=
  match v with
  | VNum z => Ok (z <? n)%Z
  | VBool b => Ok (Z.b2z b <? n)%Z
  | _ => Raise TypeError
  end.

(** ** Issue taxonomy and result records *)

Inductive ValidationSeverity : Type := CRITICAL | HIGH | MEDIUM | LOW | INFO.

Definition ValidationSeverity_value (s : ValidationSeverity) : string :=
  match s with
  | CRITICAL => "critical"
  | HIGH => "high"
  | MEDIUM => "medium"
  | LOW => "low"
  | INFO => "info"
  end.

Inductive ValidationCategory : Type :=
| ACCESSIBILITY | FUNCTIONALITY | VISUAL | PERFORMANCE | USABILITY | COMPLIANCE.

Definition ValidationCategory_value (c : ValidationCategory) : string :=
  match c with
  | ACCESSIBILITY => "accessibility"
  | FUNCTIONALITY => "functionality"
  | VISUAL => "visual"
  | PERFORMANCE => "performance"
  | USABILITY => "usability"
  | COMPLIANCE => "compliance"
  end.

(** An f-string is kept as its literal parts and the values interpolated
    between them; rendering a value through [str()] is not modelled. *)
Inductive piece : Type :=
| Lit (s : string)
| Interp (v : value).

Definition text : Type := list piece.

Record ValidationIssue : Type := {
  element_selector : value;
  issue_type : string;
  severity : ValidationSeverity;
  category : ValidationCategory;
  message : text;
  description : string;
  recommendation : text;
  wcag_guideline : option string;
  element_info : option dict
}.

(** [validation_time] is a difference of two wall-clock readings; the engine
    below takes it as an input.  The selector field is called
    [result_selector] because [element_selector] names the issue's field. *)
Record ValidationResult : Type := {
  result_selector : value;
  passed : bool;
  issues : list ValidationIssue;
  checks_performed : list string;
  metadata : dict;
  validation_time : Q
}.

Definition rule : Type := dict -> outcome (list ValidationIssue).

Record ElementValidator : Type := {
  config : dict;
  validation_rules : list (string * rule)
}.

(** ** Short-circuit connectives and small helpers *)

(** [a or b] and [a and b] on conditions that may raise: the right operand
    is evaluated only when the left one does not decide. *)
Definition or_else (a b : outcome bool) : outcome bool :=
  x ← a; if (x : bool) then mret true else b.

Definition and_then (a b : outcome bool) : outcome bool :=
  x ← a; if (x : bool) then b else mret false.

Definition not_ (a : outcome bool) : outcome bool :=
  x ← a; mret (negb x).

(** [s in [l0, l1, ...]] for a str and a list of string literals. *)
Definition str_in (s : string) (l : list string) : bool :=
  existsb (String.eqb s) l.

(** [v in [l0, l1, ...]] for an arbitrary value. *)
Definition value_in (v : value) (l : list string) : bool :=
  existsb (value_is_str v) l.

Definition lit (s : string) : text := [Lit s].

(** ** The rule methods

    Every method receives [self]; the only part of [self] a rule could
    consult is the configuration, passed here as [self_config]. *)

Definition _check_accessibility_basic (self_config : dict) (element_info : dict)
  : outcome (list ValidationIssue) :=
  let issues : list ValidationIssue := [] in
  tag_name ← py_lower (default (VStr "") (dict_get element_info "tag_name"));
  let attributes := default (VDict []) (dict_get element_info "attributes") in
  let selector := default (VStr "unknown") (dict_get element_info "css_selector") in
  issues ←
    (if String.eqb tag_name "img" then
       c ← or_else (not_ (py_in "alt" attributes))
                   (alt ← py_getitem attributes "alt";
                    s ← py_strip alt;
                    mret (negb (str_bool s)));
       mret (if (c : bool) then
               issues ++ [ {| element_selector := selector;
                              issue_type := "missing_alt_text";
                              severity := HIGH;
                              category := ACCESSIBILITY;
                              message := lit "Image missing alt text";
                              description := "Image elements must have alt text for screen readers";
                              recommendation := lit "Add descriptive alt text to the image";
                              wcag_guideline := Some "WCAG 2.1 - 1.1.1 Non-text Content";
                              element_info := None |} ]
             else issues)
     else mret issues);
  issues ←
    (c ← and_then (mret (String.eqb tag_name "input"))
                  (t ← py_get attributes "type";
                   mret (negb (value_in (default VNone t) ["submit"; "button"; "hidden"])));
     if (c : bool) then
       has_id ← py_in "id" attributes;
       mret (if (has_id : bool) then issues
             else
               issues ++ [ {| element_selector := selector;
                              issue_type := "missing_input_id";
                              severity := MEDIUM;
                              category := ACCESSIBILITY;
                              message := lit "Form input missing ID for label association";
                              description := "Input elements should have IDs for proper label association";
                              recommendation := lit "Add an id attribute to enable label association";
                              wcag_guideline := Some "WCAG 2.1 - 3.3.2 Labels or Instructions";
                              element_info := None |} ])
     else mret issues);
  issues ←
    (c ← or_else (mret (String.eqb tag_name "button"))
                 (and_then (mret (String.eqb tag_name "input"))
                           (t ← py_get attributes "type";
                            mret (value_is_str (default VNone t) "button")));
     if (c : bool) then
       text_content ← py_strip (default (VStr "") (dict_get element_info "text_content"));
       c ← and_then (mret (negb (str_bool text_content)))
                    (and_then (not_ (py_in "aria-label" attributes))
                              (not_ (py_in "title" attributes)));
       mret (if (c : bool) then
               issues ++ [ {| element_selector := selector;
                              issue_type := "button_no_accessible_name";
                              severity := HIGH;
                              category := ACCESSIBILITY;
                              message := lit "Button has no accessible name";
                              description := "Buttons must have accessible names for screen readers";
                              recommendation := lit "Add text content, aria-label, or title attribute";
                              wcag_guideline := Some "WCAG 2.1 - 4.1.2 Name, Role, Value";
                              element_info := None |} ]
             else issues)
     else mret issues);
  mret issues.

(** The loop over [attributes.items()] of the advanced accessibility rule. *)
Fixpoint aria_loop (selector : value) (items : dict) (issues : list ValidationIssue)
  : outcome (list ValidationIssue) :=
  match items with
  | [] => mret issues
  | (attr_name, attr_value) :: rest =>
      if str_startswith attr_name "aria-" then
        s ← py_strip attr_value;
        aria_loop selector rest
          (if negb (str_bool s) then
             issues ++ [ {| element_selector := selector;
                            issue_type := "empty_aria_attribute";
                            severity := MEDIUM;
                            category := ACCESSIBILITY;
                            message := [Lit "Empty ARIA attribute: "; Interp (VStr attr_name)];
                            description := "ARIA attributes should have meaningful values";
                            recommendation :=
                              [Lit "Provide a value for "; Interp (VStr attr_name);
                               Lit " or remove the attribute"];
                            wcag_guideline := Some "WCAG 2.1 - 4.1.2 Name, Role, Value";
                            element_info := None |} ]
           else issues)
      else aria_loop selector rest issues
  end.

Definition _check_accessibility_advanced (self_config : dict) (element_info : dict)
  : outcome (list ValidationIssue) :=
  let issues : list ValidationIssue := [] in
  let attributes := default (VDict []) (dict_get element_info "attributes") in
  let selector := default (VStr "unknown") (dict_get element_info "css_selector") in
  tag_name ← py_lower (default (VStr "") (dict_get element_info "tag_name"));
  issues ←
    (if str_in tag_name ["h1"; "h2"; "h3"; "h4"; "h5"; "h6"] then
       text_content ← py_strip (default (VStr "") (dict_get element_info "text_content"));
       mret (if negb (str_bool text_content) then
               issues ++ [ {| element_selector := selector;
                              issue_type := "empty_heading";
                              severity := MEDIUM;
                              category := ACCESSIBILITY;
                              message := lit "Heading element is empty";
                              description := "Heading elements should contain descriptive text";
                              recommendation := lit "Add meaningful text content to the heading";
                              wcag_guideline := Some "WCAG 2.1 - 2.4.6 Headings and Labels";
                              element_info := None |} ]
             else issues)
     else mret issues);
  items ← py_items attributes;
  aria_loop selector items issues.

Definition _check_form_elements (self_config : dict) (element_info : dict)
  : outcome (list ValidationIssue) :=
  let issues : list ValidationIssue := [] in
  tag_name ← py_lower (default (VStr "") (dict_get element_info "tag_name"));
  let attributes := default (VDict []) (dict_get element_info "attributes") in
  let selector := default (VStr "unknown") (dict_get element_info "css_selector") in
  if str_in tag_name ["input"; "textarea"; "select"] then
    issues ←
      (req ← py_in "required" attributes;
       if (req : bool) then
         aria ← py_in "aria-required" attributes;
         mret (if (aria : bool) then issues
               else
                 issues ++ [ {| element_selector := selector;
                                issue_type := "missing_aria_required";
                                severity := LOW;
                                category := ACCESSIBILITY;
                                message := lit "Required field missing aria-required attribute";
                                description := "Required form fields should have aria-required=" +:+ dquote +:+ "true" +:+ dquote;
                                recommendation := lit ("Add aria-required=" +:+ dquote +:+ "true" +:+ dquote +:+ " to the element");
                                wcag_guideline := Some "WCAG 2.1 - 3.3.2 Labels or Instructions";
                                element_info := None |} ])
       else mret issues);
    issues ←
      (if String.eqb tag_name "input" then
         t ← py_get attributes "type";
         let input_type := default (VStr "text") t in
         c ← and_then (mret (value_is_str input_type "email"))
                      (not_ (py_in "pattern" attributes));
         mret (if (c : bool) then
                 issues ++ [ {| element_selector := selector;
                                issue_type := "email_input_no_validation";
                                severity := LOW;
                                category := FUNCTIONALITY;
                                message := lit "Email input without pattern validation";
                                description := "Email inputs should have pattern validation for better UX";
                                recommendation := lit "Consider adding a pattern attribute for email validation";
                                wcag_guideline := None;
                                element_info := None |} ]
               else issues)
       else mret issues);
    mret issues
  else mret issues.

Definition _check_links (self_config : dict) (element_info : dict)
  : outcome (list ValidationIssue) :=
  let issues : list ValidationIssue := [] in
  tag_name ← py_lower (default (VStr "") (dict_get element_info "tag_name"));
  let attributes := default (VDict []) (dict_get element_info "attributes") in
  let selector := default (VStr "unknown") (dict_get element_info "css_selector") in
  if String.eqb tag_name "a" then
    h ← py_get attributes "href";
    let href := default (VStr "") h in
    text_content ← py_strip (default (VStr "") (dict_get element_info "text_content"));
    issues ←
      (c ← and_then (mret (negb (str_bool text_content)))
                    (not_ (py_in "aria-label" attributes));
       mret (if (c : bool) then
               issues ++ [ {| element_selector := selector;
                              issue_type := "empty_link";
                              severity := HIGH;
                              category := ACCESSIBILITY;
                              message := lit "Link has no accessible text";
                              description := "Links must have accessible text for screen readers";
                              recommendation := lit "Add text content or aria-label to the link";
                              wcag_guideline := Some "WCAG 2.1 - 2.4.4 Link Purpose";
                              element_info := None |} ]
             else issues));
    let generic_texts := ["click here"; "read more"; "more"; "link"; "here"] in
    let issues :=
      if str_in (str_lower text_content) generic_texts then
        issues ++ [ {| element_selector := selector;
                       issue_type := "generic_link_text";
                       severity := MEDIUM;
                       category := USABILITY;
                       message := lit "Link uses generic text";
                       description := "Link text should be descriptive of the destination";
                       recommendation := lit "Use more descriptive link text";
                       wcag_guideline := Some "WCAG 2.1 - 2.4.4 Link Purpose";
                       element_info := None |} ]
      else issues in
    issues ←
      (c ← and_then (py_startswith href "http")
                    (and_then (py_in "target" attributes)
                              (t ← py_getitem attributes "target";
                               mret (value_is_str t "_blank")));
       if (c : bool) then
         c ← or_else (not_ (py_in "rel" attributes))
                     (rel ← py_getitem attributes "rel";
                      not_ (py_in "noopener" rel));
         mret (if (c : bool) then
                 issues ++ [ {| element_selector := selector;
                                issue_type := "external_link_security";
                                severity := MEDIUM;
                                category := COMPLIANCE;
                                message := lit "External link missing security attributes";
                                description :=
                                  "External links should include rel=" +:+ dquote
                                  +:+ "noopener" +:+ dquote +:+ " for security";
                                recommendation :=
                                  lit ("Add rel=" +:+ dquote +:+ "noopener noreferrer"
                                       +:+ dquote +:+ " to external links");
                                wcag_guideline := None;
                                element_info := None |} ]
               else issues)
       else mret issues);
    mret issues
  else mret issues.

Definition _check_images (self_config : dict) (element_info : dict)
  : outcome (list ValidationIssue) :=
  let issues : list ValidationIssue := [] in
  tag_name ← py_lower (default (VStr "") (dict_get element_info "tag_name"));
  let attributes := default (VDict []) (dict_get element_info "attributes") in
  let selector := default (VStr "unknown") (dict_get element_info "css_selector") in
  if String.eqb tag_name "img" then
    issues ←
      (has_loading ← py_in "loading" attributes;
       mret (if (has_loading : bool) then issues
             else
               issues ++ [ {| element_selector := selector;
                              issue_type := "missing_loading_attribute";
                              severity := LOW;
                              category := PERFORMANCE;
                              message := lit "Image missing loading attribute";
                              description :=
                                "Images should use loading=" +:+ dquote +:+ "lazy" +:+ dquote
                                +:+ " for better performance";
                              recommendation :=
                                lit ("Add loading=" +:+ dquote +:+ "lazy" +:+ dquote
                                     +:+ " for non-critical images");
                              wcag_guideline := None;
                              element_info := None |} ]));
    issues ←
      (c ← or_else (not_ (py_in "width" attributes)) (not_ (py_in "height" attributes));
       mret (if (c : bool) then
               issues ++ [ {| element_selector := selector;
                              issue_type := "missing_image_dimensions";
                              severity := LOW;
                              category := PERFORMANCE;
                              message := lit "Image missing width/height attributes";
                              description := "Images should have width and height to prevent layout shift";
                              recommendation := lit "Add width and height attributes to prevent CLS";
                              wcag_guideline := None;
                              element_info := None |} ]
             else issues));
    mret issues
  else mret issues.

Definition _check_interactive_elements (self_config : dict) (element_info : dict)
  : outcome (list ValidationIssue) :=
  let issues : list ValidationIssue := [] in
  tag_name ← py_lower (default (VStr "") (dict_get element_info "tag_name"));
  let bounding_rect := default (VDict []) (dict_get element_info "bounding_rect") in
  let selector := default (VStr "unknown") (dict_get element_info "css_selector") in
  let interactive_tags := ["button"; "a"; "input"; "select"; "textarea"] in
  if str_in tag_name interactive_tags then
    w ← py_get bounding_rect "width";
    let width := default (VNum 0) w in
    h ← py_get bounding_rect "height";
    let height := default (VNum 0) h in
    let min_size := 44%Z in
    c ← or_else (py_lt width min_size) (py_lt height min_size);
    mret (if (c : bool) then
            issues ++ [ {| element_selector := selector;
                           issue_type := "small_touch_target";
                           severity := MEDIUM;
                           category := USABILITY;
                           message :=
                             [Lit "Touch target too small ("; Interp width; Lit "x";
                              Interp height; Lit "px)"];
                           description := "Interactive elements should be at least 44x44px for accessibility";
                           recommendation := lit "Increase the size of the interactive element";
                           wcag_guideline := Some "WCAG 2.1 - 2.5.5 Target Size";
                           element_info := None |} ]
          else issues)
  else mret issues.

Definition _check_text_content (self_config : dict) (element_info : dict)
  : outcome (list ValidationIssue) :=
  let issues : list ValidationIssue := [] in
  let text_content := default (VStr "") (dict_get element_info "text_content") in
  let selector := default (VStr "unknown") (dict_get element_info "css_selector") in
  c ← and_then (n ← py_len text_content; mret (500 <? n)%nat)
               (not_ (py_in newline text_content));
  mret (if (c : bool) then
          issues ++ [ {| element_selector := selector;
                         issue_type := "long_text_no_breaks";
                         severity := LOW;
                         category := USABILITY;
                         message := lit "Very long text without line breaks";
                         description := "Long text should be broken into paragraphs for readability";
                         recommendation := lit "Consider breaking long text into smaller sections";
                         wcag_guideline := None;
                         element_info := None |} ]
        else issues).

Definition _check_visual_layout (self_config : dict) (element_info : dict)
  : outcome (list ValidationIssue) :=
  let issues : list ValidationIssue := [] in
  let bounding_rect := default (VDict []) (dict_get element_info "bounding_rect") in
  let selector := default (VStr "unknown") (dict_get element_info "css_selector") in
  let is_visible := default (VBool true) (dict_get element_info "is_visible") in
  x ← py_get bounding_rect "x";
  let x := default (VNum 0) x in
  y ← py_get bounding_rect "y";
  let y := default (VNum 0) y in
  c ← and_then (mret (py_bool is_visible))
               (or_else (py_lt x (-100)) (py_lt y (-100)));
  mret (if (c : bool) then
          issues ++ [ {| element_selector := selector;
                         issue_type := "element_outside_viewport";
                         severity := LOW;
                         category := VISUAL;
                         message := lit "Element positioned outside typical viewport";
                         description := "Element may not be visible to users";
                         recommendation := lit "Check element positioning and layout";
                         wcag_guideline := None;
                         element_info := None |} ]
        else issues).

Definition _check_performance_indicators (self_config : dict) (element_info : dict)
  : outcome (list ValidationIssue) :=
  let issues : list ValidationIssue := [] in
  tag_name ← py_lower (default (VStr "") (dict_get element_info "tag_name"));
  let attributes := default (VDict []) (dict_get element_info "attributes") in
  let selector := default (VStr "unknown") (dict_get element_info "css_selector") in
  c ← and_then (py_in "style" attributes)
               (style ← py_getitem attributes "style";
                s ← py_strip style;
                mret (str_bool s));
  mret (if (c : bool) then
          issues ++ [ {| element_selector := selector;
                         issue_type := "inline_styles";
                         severity := LOW;
                         category := PERFORMANCE;
                         message := lit "Element uses inline styles";
                         description := "Inline styles can impact performance and maintainability";
                         recommendation := lit "Consider moving styles to CSS files";
                         wcag_guideline := None;
                         element_info := None |} ]
        else issues).

(** ** Construction of the validator *)

Definition _get_default_config : dict :=
  [ ("accessibility_level", VStr "AA");
    ("check_performance", VBool true);
    ("check_usability", VBool true);
    ("check_visual", VBool true);
    ("minimum_touch_target", VNum 44);
    ("check_security", VBool true) ].

Definition _load_validation_rules (self_config : dict) : list (string * rule) :=
  [ ("accessibility_basic", _check_accessibility_basic self_config);
    ("accessibility_advanced", _check_accessibility_advanced self_config);
    ("form_validation", _check_form_elements self_config);
    ("link_validation", _check_links self_config);
    ("image_validation", _check_images self_config);
    ("interactive_elements", _check_interactive_elements self_config);
    ("text_content", _check_text_content self_config);
    ("visual_layout", _check_visual_layout self_config);
    ("performance", _check_performance_indicators self_config) ].

(** [ElementValidator(config)]: [config or self._get_default_config()], so a
    missing and an empty configuration both give the default one. *)
Definition __init__ (config : option dict) : ElementValidator :=
  let self_config :=
    match config with
    | Some c => if py_bool (VDict c) then c else _get_default_config
    | None => _get_default_config
    end in
  {| config := self_config;
     validation_rules := _load_validation_rules self_config |}.

(** ** The engine *)

#[global] Instance ValidationSeverity_eq_dec : EqDecision ValidationSeverity.
Proof. solve_decision. Defined.

(** One turn of the loop over [checks]; the state is the pair of the two
    lists the loop appends to. *)
Definition check_step (self : ElementValidator) (element_info : dict)
    (st : list ValidationIssue * list string) (check_name : string)
  : list ValidationIssue * list string :=
  let '(issues, checks_performed) := st in
  match assoc_get (validation_rules self) check_name with
  | Some check =>
      match check element_info with
      | Ok check_issues => (issues ++ check_issues, checks_performed ++ [check_name])
      | Raise e => (issues, checks_performed)
      end
  | None => (issues, checks_performed)
  end.

Definition run_checks (self : ElementValidator) (element_info : dict)
    (checks : list string) : list ValidationIssue * list string :=
  foldl (check_step self element_info) ([], []) checks.

(** [validation_time] is the measured [time.time() - start_time]. *)
Definition validate_element (self : ElementValidator) (element_info : dict)
    (checks : option (list string)) (validation_time : Q) : outcome ValidationResult :=
  let checks :=
    match checks with
    | None => map fst (validation_rules self)
    | Some checks => checks
    end in
  let '(issues, checks_performed) := run_checks self element_info checks in
  let passed :=
    Nat.eqb (length (filter (fun issue => severity issue ∈ [CRITICAL; HIGH]) issues)) 0 in
  let attributes := default (VDict []) (dict_get element_info "attributes") in
  element_id ← py_get attributes "id";
  element_classes ← py_get attributes "class";
  mret {| result_selector := default (VStr "unknown") (dict_get element_info "css_selector");
          passed := passed;
          issues := issues;
          checks_performed := checks_performed;
          metadata :=
            [ ("element_tag", default VNone (dict_get element_info "tag_name"));
              ("element_id", default VNone element_id);
              ("element_classes", default VNone element_classes) ];
          validation_time := validation_time |}.

(** ** The aggregator *)

(** The dict returned by [get_validation_summary].  [pass_rate] is the exact
    quotient that Python computes in floating point. *)
Record Summary : Type := {
  total_elements : Z;
  passed_elements : Z;
  failed_elements : Z;
  pass_rate : Q;
  total_issues : Z;
  issues_by_severity : gmap string Z;
  issues_by_category : gmap string Z;
  critical_issues : Z;
  high_issues : Z
}.

(** One turn of the loop over [all_issues]. *)
Definition count_issue (acc : gmap string Z * gmap string Z) (issue : ValidationIssue)
  : gmap string Z * gmap string Z :=
  let '(issues_by_severity, issues_by_category) := acc in
  let severity := ValidationSeverity_value (severity issue) in
  let issues_by_severity :=
    <[severity := (default 0 (issues_by_severity !! severity) + 1)%Z]> issues_by_severity in
  let category := ValidationCategory_value (category issue) in
  let issues_by_category :=
    <[category := (default 0 (issues_by_category !! category) + 1)%Z]> issues_by_category in
  (issues_by_severity, issues_by_category).

Definition get_validation_summary (results : list ValidationResult) : Summary :=
  let total_elements := Z.of_nat (length results) in
  let passed_elements := Z.of_nat (length (filter (fun r => passed r = true) results)) in
  let failed_elements := (total_elements - passed_elements)%Z in
  let all_issues := foldl (fun all_issues result => all_issues ++ issues result) [] results in
  let '(issues_by_severity, issues_by_category) := foldl count_issue (∅, ∅) all_issues in
  {| total_elements := total_elements;
     passed_elements := passed_elements;
     failed_elements := failed_elements;
     pass_rate :=
       if (0 <? total_elements)%Z
       then (inject_Z passed_elements / inject_Z total_elements * 100)%Q
       else 0%Q;
     total_issues := Z.of_nat (length all_issues);
     issues_by_severity := issues_by_severity;
     issues_by_category := issues_by_category;
     critical_issues := default 0%Z (issues_by_severity !! "critical");
     high_issues := default 0%Z (issues_by_severity !! "high") |}.

(** Sum of the cells of a histogram. *)
Definition histogram_total (h : gmap string Z) : Z :=
  map_fold (fun _ n acc => (n + acc)%Z) 0%Z h.

(** ** Notions used in the statements *)

(** The list the loop of [validate_element] runs over. *)
Definition effective_checks (self : ElementValidator) (checks : option (list string))
  : list string :=
  match checks with
  | None => map fst (validation_rules self)
  | Some checks => checks
  end.

(** [check_name] is registered and its rule returns on [element_info]. *)
Definition check_succeeds (self : ElementValidator) (element_info : dict)
    (check_name : string) : bool :=
  match assoc_get (validation_rules self) check_name with
  | Some check =>
      match check element_info with
      | Ok _ => true
      | Raise _ => false
      end
  | None => false
  end.

(** What one requested name adds to [issues]. *)
Definition check_issues (self : ElementValidator) (element_info : dict)
    (check_name : string) : list ValidationIssue :=
  match assoc_get (validation_rules self) check_name with
  | Some check =>
      match check element_info with
      | Ok check_issues => check_issues
      | Raise _ => []
      end
  | None => []
  end.

(** The [attributes] field is absent or holds a dict: the condition under
    which the metadata of the result can be built. *)
Definition attributes_is_mapping (element_info : dict) : bool :=
  match dict_get element_info "attributes" with
  | None => true
  | Some (VDict _) => true
  | Some _ => false
  end.

Definition blocking (issue : ValidationIssue) : Prop :=
  severity issue = CRITICAL \/ severity issue = HIGH.

(** Some issue of type [ty] is in [l]. *)
Definition emits (ty : string) (l : list ValidationIssue) : Prop :=
  exists issue, issue ∈ l /\ issue_type issue = ty.

(** Number of times [n] occurs in a list of rule names. *)
Definition occurrences (n : string) (l : list string) : nat :=
  length (filter (fun m => m = n) l).

(** The type, severity and category of an issue, for reading results. *)
Definition issue_summary (issue : ValidationIssue)
  : string * ValidationSeverity * ValidationCategory :=
  (issue_type issue, severity issue, category issue).

Definition default_check_names : list string :=
  [ "accessibility_basic"; "accessibility_advanced"; "form_validation";
    "link_validation"; "image_validation"; "interactive_elements";
    "text_content"; "visual_layout"; "performance" ].

(** ** Records with absent fields

    The shape of an element record: each of the fields the rules read is
    absent or holds a value of its declared type (tag and text a str, the
    attributes a dict of str, the bounding rectangle a dict whose
    coordinates, where present, are numbers).  Nothing is asked of the
    other fields. *)

Definition is_str (v : value) : bool :=
  match v with VStr _ => true | _ => false end.

Definition is_num (v : value) : bool :=
  match v with VNum _ => true | _ => false end.

Definition field_ok (P : value -> bool) (d : dict) (k : string) : bool :=
  match dict_get d k with
  | None => true
  | Some v => P v
  end.

Definition is_attribute_map (v : value) : bool :=
  match v with
  | VDict a => forallb (fun kv => is_str kv.2) a
  | _ => false
  end.

Definition is_rect (v : value) : bool :=
  match v with
  | VDict b =>
      field_ok is_num b "x" && field_ok is_num b "y"
      && field_ok is_num b "width" && field_ok is_num b "height"
  | _ => false
  end.

Definition record_shape_ok (e : dict) : bool :=
  field_ok is_str e "tag_name"
  && field_ok is_attribute_map e "attributes"
  && field_ok is_str e "text_content"
  && field_ok is_rect e "bounding_rect".

(** A rectangle with every absent coordinate filled in with 0. *)
Definition rect_with_defaults (v : value) : value :=
  match v with
  | VDict b =>
      VDict ([ ("x", default (VNum 0) (dict_get b "x"));
               ("y", default (VNum 0) (dict_get b "y"));
               ("width", default (VNum 0) (dict_get b "width"));
               ("height", default (VNum 0) (dict_get b "height")) ] ++ b)
  | _ => v
  end.

(** The record with every absent field filled in with the default the
    specification names: empty tag, no attributes, empty text, a zero
    rectangle, visible.  Fields that are present keep their value. *)
Definition with_defaults (e : dict) : dict :=
  [ ("tag_name", default (VStr "") (dict_get e "tag_name"));
    ("attributes", default (VDict []) (dict_get e "attributes"));
    ("text_content", default (VStr "") (dict_get e "text_content"));
    ("bounding_rect",
       rect_with_defaults (default (VDict []) (dict_get e "bounding_rect")));
    ("is_visible", default (VBool true) (dict_get e "is_visible")) ] ++ e.

(** A call returned. *)
Definition returns {A : Type} (o : outcome A) : Prop := exists a, o = Ok a.

(** ** Postconditions and the kinds of issue of each rule *)

(** Whenever the call returns, its result satisfies [P]. *)
Definition ensures {A : Type} (P : A -> Prop) (o : outcome A) : Prop :=
  forall a, o = Ok a -> P a.

Definition issue_kind : Type := string * ValidationSeverity * ValidationCategory.

(** The issues each registered rule can append, as its source constructs
    them. *)
Definition rule_issue_kinds : list (string * list issue_kind) :=
  [ ("accessibility_basic",
       [ ("missing_alt_text", HIGH, ACCESSIBILITY);
         ("missing_input_id", MEDIUM, ACCESSIBILITY);
         ("button_no_accessible_name", HIGH, ACCESSIBILITY) ]);
    ("accessibility_advanced",
       [ ("empty_heading", MEDIUM, ACCESSIBILITY);
         ("empty_aria_attribute", MEDIUM, ACCESSIBILITY) ]);
    ("form_validation",
       [ ("missing_aria_required", LOW, ACCESSIBILITY);
         ("email_input_no_validation", LOW, FUNCTIONALITY) ]);
    ("link_validation",
       [ ("empty_link", HIGH, ACCESSIBILITY);
         ("generic_link_text", MEDIUM, USABILITY);
         ("external_link_security", MEDIUM, COMPLIANCE) ]);
    ("image_validation",
       [ ("missing_loading_attribute", LOW, PERFORMANCE);
         ("missing_image_dimensions", LOW, PERFORMANCE) ]);
    ("interactive_elements", [ ("small_touch_target", MEDIUM, USABILITY) ]);
    ("text_content", [ ("long_text_no_breaks", LOW, USABILITY) ]);
    ("visual_layout", [ ("element_outside_viewport", LOW, VISUAL) ]);
    ("performance", [ ("inline_styles", LOW, PERFORMANCE) ]) ].

Definition kinds_of (name : string) : list issue_kind :=
  default [] (assoc_get rule_issue_kinds name).

Definition of_kinds (kinds : list issue_kind) (found : list ValidationIssue) : Prop :=
  Forall (fun issue => issue_summary issue ∈ kinds) found.

(** ** Sample inputs *)

(** [{tag_name: "img", attributes: {}}]. *)
Definition img_without_attributes : dict :=
  [ ("tag_name", VStr "img"); ("attributes", VDict []) ].

(** A configuration that switches the four rule groups off. *)
Definition all_groups_disabled : dict :=
  [ ("check_performance", VBool false);
    ("check_usability", VBool false);
    ("check_visual", VBool false);
    ("check_security", VBool false) ].

(** A visible link placed far to the left of the viewport, with generic
    text, an inline style and an unprotected external target. *)
Definition offscreen_external_link : dict :=
  [ ("tag_name", VStr "a");
    ("text_content", VStr "click here");
    ("attributes",
       VDict [ ("href", VStr "http://example.org");
               ("target", VStr "_blank");
               ("style", VStr "color: red") ]);
    ("bounding_rect",
       VDict [ ("x", VNum (-200)); ("y", VNum 0);
               ("width", VNum 100); ("height", VNum 50) ]);
    ("is_visible", VBool true) ].

(** A configuration asking for 48 pixel touch targets, and a 46 by 46
    pixel button. *)
Definition touch_target_48 : dict := [ ("minimum_touch_target", VNum 48) ].

Definition button_46 : dict :=
  [ ("tag_name", VStr "button");
    ("text_content", VStr "OK");
    ("bounding_rect", VDict [ ("width", VNum 46); ("height", VNum 46) ]) ].

(** An element whose tag is None: every rule that lower-cases the tag
    raises on it. *)
Definition element_with_tag_None : dict := [ ("tag_name", VNone) ].

(** A button given only by its tag and a partial rectangle. *)
Definition partial_button : dict :=
  [ ("tag_name", VStr "BUTTON");
    ("bounding_rect", VDict [ ("width", VNum 10) ]) ].

(** ** Batch validation *)

(** The loop of [validate_page_elements]: [results] is the list built so
    far, [i] the index of the next element, and [validation_times i] the
    time measured for the call on the element at index [i].  A call that
    raises ends the loop: nothing catches it. *)
Fixpoint validate_page_elements_from (self : ElementValidator) (elements : list dict)
    (checks : option (list string)) (validation_times : nat -> Q) (i : nat)
    (results : list ValidationResult) : outcome (list ValidationResult) :=
  match elements with
  | [] => mret results
  | element :: rest =>
      result ← validate_element self element checks (validation_times i);
      validate_page_elements_from self rest checks validation_times (S i)
        (results ++ [result])
  end.

Definition validate_page_elements (self : ElementValidator) (elements : list dict)
    (checks : option (list string)) (validation_times : nat -> Q)
  : outcome (list ValidationResult) :=
  validate_page_elements_from self elements checks validation_times 0 [].

(** ** Assignment to a key

    [d[k] = v]: the binding of [k] is replaced where it stands, or added at
    the end when [k] is new. *)
Fixpoint assoc_set {A : Type} (l : list (string * A)) (k : string) (v : A)
  : list (string * A) :=
  match l with
  | [] => [(k, v)]
  | (k', v') :: r =>
      if String.eqb k' k then (k, v) :: r else (k', v') :: assoc_set r k v
  end.

Definition dict_set (d : dict) (k : string) (v : value) : dict := assoc_set d k v.

(** ** Further notions used in the statements *)

(** The keys of an element that [validate_element] and the rules read. *)
Definition read_fields : list string :=
  [ "tag_name"; "attributes"; "text_content"; "css_selector";
    "bounding_rect"; "is_visible" ].

Definition agree_on (keys : list string) (e e' : dict) : Prop :=
  Forall (fun k => dict_get e k = dict_get e' k) keys.

(** The sixteen kinds of issue of the registered rules. *)
Definition all_issue_kinds : list issue_kind :=
  flat_map snd rule_issue_kinds.

(** An issue as the rules construct it for an element whose selector is
    [selector]: it carries that selector, no element info, and is of one of
    the [kinds]. *)
Definition issue_built_for (selector : value) (kinds : list issue_kind)
    (issue : ValidationIssue) : Prop :=
  element_selector issue = selector
  /\ element_info issue = None
  /\ issue_summary issue ∈ kinds.

(** Number of issues of a list whose severity, or category, has the string
    value [k]. *)
Definition count_severity (k : string) (l : list ValidationIssue) : Z :=
  Z.of_nat (length (filter (fun i => ValidationSeverity_value (severity i) = k) l)).

Definition count_category (k : string) (l : list ValidationIssue) : Z :=
  Z.of_nat (length (filter (fun i => ValidationCategory_value (category i) = k) l)).

#[global] Instance ValidationCategory_eq_dec : EqDecision ValidationCategory.
Proof. solve_decision. Defined.

(** Every cell of a histogram that exists holds a positive count. *)
Definition positive_cells (h : gmap string Z) : Prop :=
  forall k n, h !! k = Some n -> (0 < n)%Z.

(** The [passed] flag of a result agrees with its issues, as it does in
    every result of [validate_element]. *)
Definition passed_consistent (r : ValidationResult) : Prop :=
  passed r = true <-> forall issue, issue ∈ issues r -> ~ blocking issue.

(** Two results written by hand: one that passed without issues, one that
    failed on a single high issue. *)
Definition sample_passed_result : ValidationResult :=
  {| result_selector := VStr "p";
     passed := true;
     issues := [];
     checks_performed := ["text_content"];
     metadata := [];
     validation_time := 0 |}.

Definition sample_failed_result : ValidationResult :=
  {| result_selector := VStr "img";
     passed := false;
     issues :=
       [ {| element_selector := VStr "img";
            issue_type := "missing_alt_text";
            severity := HIGH;
            category := ACCESSIBILITY;
            message := lit "Image missing alt text";
            description := "Image elements must have alt text for screen readers";
            recommendation := lit "Add descriptive alt text to the image";
            wcag_guideline := Some "WCAG 2.1 - 1.1.1 Non-text Content";
            element_info := None |} ];
     checks_performed := ["accessibility_basic"];
     metadata := [];
     validation_time := 0 |}.

(** An element with many findings, none of them on an image, button, input
    or link. *)
Definition cluttered_div : dict :=
  [ ("tag_name", VStr "DIV");
    ("css_selector", VStr "div.banner");
    ("attributes", VDict [ ("style", VStr "top: 0"); ("aria-hidden", VStr " ") ]);
    ("bounding_rect", VDict [ ("x", VNum (-500)) ]);
    ("inner_html", VStr "<b>x</b>");
    ("children_count", VNum 1) ].

(** * The XML parser

    [src/parsers/xml_parser.py], from the element tree onwards: reading a
    file or a string into a tree is the work of [xml.etree.ElementTree] and
    is not modelled.  An [Element] is a tree node with its tag (a namespaced
    tag is the string [{uri}name]), its attributes, its text and its
    children.  The parser only uses the search paths [.//tag]: [find] gives
    the first element with that tag among all the elements below the node,
    in document order, and [findall] gives all of them.

    The three dataclasses have fields of the same name ([id], [name],
    [description]); the fields of a test case and of a suite carry a
    prefix. *)

Module XMLParser.

#[warnings="-register-all"]
Inductive Element : Type :=
| Node (tag : string) (attrib : list (string * string)) (text : option string)
       (children : list Element).

Definition tag (e : Element) : string :=
  match e with Node t _ _ _ => t end.

Definition attrib (e : Element) : list (string * string) :=
  match e with Node _ a _ _ => a end.

Definition text (e : Element) : option string :=
  match e with Node _ _ x _ => x end.

Definition children (e : Element) : list Element :=
  match e with Node _ _ _ c => c end.

(** [e.iter()]: the element and everything below it, in document order. *)
Fixpoint iter (e : Element) : list Element :=
  match e with
  | Node _ _ _ c =>
      e :: (fix iter_all (l : list Element) : list Element :=
              match l with
              | [] => []
              | x :: r => iter x ++ iter_all r
              end) c
  end.

(** The elements below [e], on all levels, in document order. *)
Definition descendants (e : Element) : list Element :=
  flat_map iter (children e).

(** [e.findall('.//t')] and [e.find('.//t')]. *)
Definition findall (e : Element) (t : string) : list Element :=
  filter (fun d => tag d = t) (descendants e).

Definition find (e : Element) (t : string) : option Element :=
  head (findall e t).

(** [e.get(key, dflt)]. *)
Definition get (e : Element) (key dflt : string) : string :=
  default dflt (assoc_get (attrib e) key).

(** [bool(e)]: an element without children is false. *)
Definition truth (e : Element) : bool :=
  match children e with [] => false | _ => true end.

Record TestCase : Type := {
  case_id : string;
  case_name : string;
  case_description : string;
  priority : string;
  steps : list (list (string * string));
  expected_result : string;
  selectors : list (list (string * string))
}.

Record TestSuite : Type := {
  suite_id : string;
  suite_name : string;
  suite_description : string;
  test_cases : list TestCase
}.

Record ManualTestConfig : Type := {
  version : string;
  title : string;
  config_description : string;
  author : string;
  created : string;
  tags : list string;
  test_suites : list TestSuite
}.

Definition _get_namespace : string := "http://ui-manual-validator.com/schema".

(** The tag [{namespace}name] built by the f-strings of the parser. *)
Definition qualified (name : string) : string :=
  "{" +:+ _get_namespace +:+ "}" +:+ name.

Definition _get_element_text (parent : option Element) (tag_name dflt : string)
  : string :=
  match parent with
  | None => dflt
  | Some parent =>
      let element :=
        match find parent (qualified tag_name) with
        | Some element => Some element
        | None => find parent tag_name
        end in
      match element with
      | Some element =>
          match text element with
          | Some t => if str_bool t then t else dflt
          | None => dflt
          end
      | None => dflt
      end
  end.

Definition _parse_step (step_element : option Element)
  : option (list (string * string)) :=
  match step_element with
  | None => None
  | Some step_element =>
      Some [ ("number", get step_element "number" "1");
             ("action", _get_element_text (Some step_element) "action" "");
             ("target", _get_element_text (Some step_element) "target" "");
             ("data", _get_element_text (Some step_element) "data" "") ]
  end.

Definition _parse_selector (selector_element : option Element)
  : option (list (string * string)) :=
  match selector_element with
  | None => None
  | Some selector_element =>
      Some [ ("type", _get_element_text (Some selector_element) "type" "css");
             ("value", _get_element_text (Some selector_element) "value" "");
             ("description", _get_element_text (Some selector_element) "description" "") ]
  end.

(** The loops of the parser: every element found is parsed, and what the
    parse returns is appended when it is true.  A dict with keys and a
    dataclass instance are always true. *)
Definition parse_each {A : Type} (parse : option Element -> option A)
    (found : list Element) : list A :=
  omap (fun element => parse (Some element)) found.

(** The element under [parent] that a loop runs over: the namespaced one,
    or else the plain one. *)
Definition find_container (parent : Element) (name : string) : option Element :=
  match find parent (qualified name) with
  | Some element => Some element
  | None => find parent name
  end.

Definition _parse_test_case (case_element : option Element) : option TestCase :=
  match case_element with
  | None => None
  | Some case_element =>
      let case_id := get case_element "id" "" in
      let name := _get_element_text (Some case_element) "name" "Unnamed Test Case" in
      let description := _get_element_text (Some case_element) "description" "" in
      let priority := _get_element_text (Some case_element) "priority" "medium" in
      let expected_result := _get_element_text (Some case_element) "expectedResult" "" in
      let steps :=
        match find_container case_element "steps" with
        | Some steps_element =>
            parse_each _parse_step (findall steps_element (qualified "step"))
        | None => []
        end in
      let selectors :=
        match find_container case_element "selectors" with
        | Some selectors_element =>
            parse_each _parse_selector (findall selectors_element (qualified "selector"))
        | None => []
        end in
      Some {| case_id := case_id;
              case_name := name;
              case_description := description;
              priority := priority;
              steps := steps;
              expected_result := expected_result;
              selectors := selectors |}
  end.

Definition _parse_test_suite (suite_element : option Element) : option TestSuite :=
  match suite_element with
  | None => None
  | Some suite_element =>
      let suite_id := get suite_element "id" "" in
      let name := _get_element_text (Some suite_element) "name" "Unnamed Suite" in
      let description := _get_element_text (Some suite_element) "description" "" in
      let test_cases :=
        match find_container suite_element "testCases" with
        | Some test_cases_element =>
            parse_each _parse_test_case (findall test_cases_element (qualified "testCase"))
        | None => []
        end in
      Some {| suite_id := suite_id;
              suite_name := name;
              suite_description := description;
              test_cases := test_cases |}
  end.

Definition _parse_root_element (root : Element) : ManualTestConfig :=
  let metadata := find_container root "metadata" in
  let title := _get_element_text metadata "title" "Untitled Test" in
  let description := _get_element_text metadata "description" "" in
  let author := _get_element_text metadata "author" "Unknown" in
  let created := _get_element_text metadata "created" "" in
  let tags_element :=
    match metadata with
    | Some m => if truth m then find m (qualified "tags") else None
    | None => None
    end in
  let tags_element :=
    match tags_element, metadata with
    | None, Some m => find m "tags"
    | _, _ => tags_element
    end in
  let tags :=
    match tags_element with
    | Some tags_element =>
        omap (fun tag => match text tag with
                         | Some t => if str_bool t then Some t else None
                         | None => None
                         end)
             (findall tags_element (qualified "tag"))
    | None => []
    end in
  let test_suites :=
    match find_container root "testSuites" with
    | Some test_suites_element =>
        parse_each _parse_test_suite (findall test_suites_element (qualified "testSuite"))
    | None => []
    end in
  {| version := get root "version" "1.0";
     title := title;
     config_description := description;
     author := author;
     created := created;
     tags := tags;
     test_suites := test_suites |}.

(** No element of the tree carries the namespace of the parser. *)
Definition plain (root : Element) : Prop :=
  Forall (fun e => forall name, tag e <> qualified name) (iter root).

(** A plain document with a title, a tag and a suite. *)
Definition plain_document : Element :=
  Node "manualTest" [("version", "2.0")] None
    [ Node "metadata" [] None
        [ Node "title" [] (Some "Checkout") [];
          Node "tags" [] None [ Node "tag" [] (Some "smoke") [] ] ];
      Node "testSuites" [] None
        [ Node "testSuite" [("id", "s1")] None
            [ Node "name" [] (Some "Cart") [] ] ] ].

End XMLParser.

(** * The core validator

    [src/ui_validator/core/validator.py].  Lines 7 and 22 of the file read
    [dataclass], without the [@]: the name is evaluated and dropped, and the
    class statements that follow define plain classes.  [ValidationRule] and
    [ValidationResult] therefore have no [__init__] and no [__post_init__]
    that is ever called: a call of the class with an argument raises
    [TypeError], a call without arguments gives an instance that has no
    attribute of its own.  An instance is modelled by the attributes it has
    been given, [None] standing for an attribute that is missing; the
    attributes are strings, as annotated.

    The file system is a function from a path to the JSON document that
    [json.load] reads there, or [None] where no file exists.  Writing the
    results to a file ([export_results]) is not modelled. *)

Module CoreValidator.

#[warnings="-register-all"]
Inductive json : Type :=
| JNull
| JBool (b : bool)
| JNum (n : Q)
| JStr (s : string)
| JList (l : list json)
| JDict (d : list (string * json)).

(** [for x in v]: a list gives its items, a dict its keys, a string its
    characters; nothing else is iterable. *)
Definition py_iter (v : json) : outcome (list json) :=
  match v with
  | JList l => Ok l
  | JDict d => Ok (map (fun kv => JStr kv.1) d)
  | JStr s => Ok (map (fun c => JStr (String c EmptyString)) (list_ascii_of_string s))
  | _ => Raise TypeError
  end.

(** [x.name]. *)
Definition getattr {A : Type} (attribute : option A) : outcome A :=
  match attribute with
  | Some a => Ok a
  | None => Raise AttributeError
  end.

(** A call of a class that has no [__init__] of its own: [object] takes no
    arguments, and gives the instance as the class statement describes it. *)
Definition construct {A : Type} (arguments : nat) (blank : A) : outcome A :=
  match arguments with
  | O => Ok blank
  | S _ => Raise TypeError
  end.

Record ValidationRule : Type := {
  id : option string;
  description : option string;
  category : option string;
  priority : option string;
  automated_check : option string;
  manual_steps : option (list string);
  expected_result : string
}.

Record ValidationResult : Type := {
  rule_id : option string;
  status : option string;
  timestamp : option Q;
  notes : string;
  evidence : option (list string);
  validator : string
}.

(** The instances that the class statements describe: the annotations
    without a value give no attribute, the others a class attribute. *)
Definition blank_rule : ValidationRule :=
  {| id := None; description := None; category := None; priority := None;
     automated_check := None; manual_steps := None; expected_result := EmptyString |}.

Definition blank_result : ValidationResult :=
  {| rule_id := None; status := None; timestamp := None;
     notes := EmptyString; evidence := None; validator := EmptyString |}.

Record UIValidator : Type := {
  config_path : string;
  rules : list (string * ValidationRule);
  results : list ValidationResult
}.

Definition with_rules (self : UIValidator) (rules : list (string * ValidationRule))
  : UIValidator :=
  {| config_path := config_path self; rules := rules; results := results self |}.

Definition with_results (self : UIValidator) (results : list ValidationResult)
  : UIValidator :=
  {| config_path := config_path self; rules := rules self; results := results |}.

(** [ValidationRule] called with [rule_data] unpacked: what is unpacked
    must be a mapping, and its items are the keyword arguments. *)
Definition ValidationRule_from (rule_data : json) : outcome ValidationRule :=
  match rule_data with
  | JDict kwargs => construct (length kwargs) blank_rule
  | _ => Raise TypeError
  end.

(** The loop of [load_config]. *)
Fixpoint load_rules (rules : list (string * ValidationRule)) (items : list json)
  : outcome (list (string * ValidationRule)) :=
  match items with
  | [] => Ok rules
  | rule_data :: items =>
      rule ← ValidationRule_from rule_data;
      rule_id ← getattr (id rule);
      load_rules (assoc_set rules rule_id rule) items
  end.

Definition load_config (self : UIValidator) (files : string -> option json)
  : outcome UIValidator :=
  match files (config_path self) with
  | None => Ok self
  | Some config =>
      match config with
      | JDict config =>
          items ← py_iter (default (JList []) (assoc_get config "rules"));
          rules ← load_rules (rules self) items;
          Ok (with_rules self rules)
      | _ => Raise AttributeError
      end
  end.

Definition __init__ (config_path : option string) (files : string -> option json)
  : outcome UIValidator :=
  let config_path :=
    match config_path with
    | Some path => if str_bool path then path else "validation_config.json"
    | None => "validation_config.json"
    end in
  load_config {| config_path := config_path; rules := []; results := [] |} files.

Definition add_rule (self : UIValidator) (rule : ValidationRule) : outcome UIValidator :=
  rule_id ← getattr (id rule);
  Ok (with_rules self (assoc_set (rules self) rule_id rule)).

(** [validate_rule] gives the result and the validator with the result
    appended.  The call of [ValidationResult] has six keyword arguments. *)
Definition validate_rule (self : UIValidator) (rule_id status notes : string)
    (evidence : option (list string)) (validator : string) (now : Q)
  : outcome (ValidationResult * UIValidator) :=
  if bool_decide (assoc_get (rules self) rule_id = None)
  then Raise (OtherError "ValueError")
  else
    result ← construct 6 blank_result;
    Ok (result, with_results self (results self ++ [result])).

(** The dict returned by [get_validation_summary]; the key [pass_rate] is
    missing when there is no result.  [pass_rate] is the exact quotient that
    Python computes in floating point. *)
Record Summary : Type := {
  total : Z;
  passed : Z;
  failed : Z;
  skipped : Z;
  pending : Z;
  pass_rate : option Q
}.

(** The loop of [get_validation_summary]. *)
Fixpoint count_statuses (status_counts : gmap string Z) (results : list ValidationResult)
  : outcome (gmap string Z) :=
  match results with
  | [] => Ok status_counts
  | result :: results =>
      status ← getattr (status result);
      count_statuses
        (<[status := (default 0 (status_counts !! status) + 1)%Z]> status_counts)
        results
  end.

Definition get_validation_summary (self : UIValidator) : outcome Summary :=
  let total := Z.of_nat (length (results self)) in
  if (total =? 0)%Z
  then Ok {| total := 0; passed := 0; failed := 0; skipped := 0; pending := 0;
             pass_rate := None |}
  else
    status_counts ← count_statuses ∅ (results self);
    Ok {| total := total;
          passed := default 0%Z (status_counts !! "pass");
          failed := default 0%Z (status_counts !! "fail");
          skipped := default 0%Z (status_counts !! "skip");
          pending := default 0%Z (status_counts !! "pending");
          pass_rate :=
            Some (inject_Z (default 0%Z (status_counts !! "pass")) / inject_Z total
                  * 100)%Q |}.

Fixpoint get_failed_validations_of (results : list ValidationResult)
  : outcome (list ValidationResult) :=
  match results with
  | [] => Ok []
  | result :: results =>
      status ← getattr (status result);
      failed ← get_failed_validations_of results;
      Ok (if String.eqb status "fail" then result :: failed else failed)
  end.

Definition get_failed_validations (self : UIValidator) : outcome (list ValidationResult) :=
  get_failed_validations_of (results self).

Fixpoint validated_rules_of (results : list ValidationResult) : outcome (list string) :=
  match results with
  | [] => Ok []
  | result :: results =>
      rule_id ← getattr (rule_id result);
      validated_rules ← validated_rules_of results;
      Ok (rule_id :: validated_rules)
  end.

Definition get_pending_validations (self : UIValidator) : outcome (list string) :=
  validated_rules ← validated_rules_of (results self);
  Ok (filter (fun rule_id => rule_id ∉ validated_rules) (map fst (rules self))).

(** ** Notions used in the statements *)

(** A client of the validator: the calls that change it, made in turn.  A
    call that raises leaves the validator as it was, and the client goes
    on. *)
Inductive call : Type :=
| AddRule (rule : ValidationRule)
| ValidateRule (rule_id status notes : string) (evidence : option (list string))
               (validator : string) (now : Q).

Definition step (self : UIValidator) (c : call) : UIValidator :=
  match c with
  | AddRule rule =>
      match add_rule self rule with
      | Ok self' => self'
      | Raise _ => self
      end
  | ValidateRule rule_id status notes evidence validator now =>
      match validate_rule self rule_id status notes evidence validator now with
      | Ok (_, self') => self'
      | Raise _ => self
      end
  end.

Definition run (self : UIValidator) (calls : list call) : UIValidator :=
  foldl step self calls.

(** The rules that the calls add: those that have an [id]. *)
Definition added_rules (calls : list call) : list (string * ValidationRule) :=
  omap (fun c => match c with
                 | AddRule rule => k ← id rule; Some (k, rule)
                 | _ => None
                 end) calls.

(** The path that [__init__] keeps. *)
Definition effective_path (config_path : option string) : string :=
  match config_path with
  | Some path => if str_bool path then path else "validation_config.json"
  | None => "validation_config.json"
  end.

(** The validator without rules and results. *)
Definition fresh (path : string) : UIValidator :=
  {| config_path := path; rules := []; results := [] |}.

(** The configurations whose rules are an empty list, dict or string, or
    are missing. *)
Definition without_rules (config : json) : bool :=
  match config with
  | JDict config =>
      match default (JList []) (assoc_get config "rules") with
      | JList [] | JDict [] | JStr EmptyString => true
      | _ => false
      end
  | _ => false
  end.

Definition summary_of_nothing : Summary :=
  {| total := 0; passed := 0; failed := 0; skipped := 0; pending := 0;
     pass_rate := None |}.


Definition rule_with_id (k : string) : ValidationRule :=
  {| id := Some k; description := None; category := None; priority := None;
     automated_check := None; manual_steps := None; expected_result := EmptyString |}.

Definition result_with (k s : string) : ValidationResult :=
  {| rule_id := Some k; status := Some s; timestamp := None;
     notes := EmptyString; evidence := None; validator := EmptyString |}.

End CoreValidator.

(** * The DOM scraper

    [src/scrapers/dom_scraper.py], from the element of the page to the
    record that is exported.  The scraper talks to a browser through a
    WebDriver; an element of the page is modelled by what its calls give:
    its tag, its attributes ([get_attribute] gives [None] for an attribute
    that the element does not have), its text, its rectangle, whether it is
    displayed and enabled, its parent, the number of elements below it, and
    what the XPath script of the scraper gives for it.  A call that the
    scraper guards with a [try] of its own may fail: the lookup of the
    parent and the script.  Navigation, waiting and the search for elements
    in the page are the work of the driver and are not modelled. *)

Module DOMScraper.

Module WebElement.

Record t : Type := {
  tag_name : string;
  get_attribute : string -> option string;
  text : string;
  (** [element.rect], a dict with the keys x, y, width and height *)
  rect_x : Z;
  rect_y : Z;
  rect_width : Z;
  rect_height : Z;
  is_displayed : bool;
  is_enabled : bool;
  (** [element.find_element("xpath", "..")]: the tag and the attributes of
      the parent, or [None] when the call raises *)
  parent : option (string * (string -> option string));
  (** [len(element.find_elements("css selector", "*"))] *)
  elements_below : nat;
  (** [driver.execute_script(xpath_script, element)], or [None] when the
      call raises *)
  scripted_xpath : option string
}.

End WebElement.

Record ElementInfo : Type := {
  tag_name : string;
  attributes : list (string * string);
  text_content : string;
  inner_html : string;
  xpath : string;
  css_selector : string;
  bounding_rect : list (string * Z);
  is_visible : bool;
  is_enabled : bool;
  parent_info : option (list (string * string));
  children_count : nat
}.

(** [v or ''] for what [get_attribute] gives. *)
Definition or_empty (v : option string) : string :=
  match v with
  | Some s => if str_bool s then s else EmptyString
  | None => EmptyString
  end.

(** [s.split()]: the words of [s] between runs of white space; [word] is
    the word being read. *)
Fixpoint split_from (s word : string) : list string :=
  match s with
  | EmptyString => if str_bool word then [word] else []
  | String c r =>
      if chr_isspace c
      then (if str_bool word then [word] else []) ++ split_from r EmptyString
      else split_from r (word +:+ String c EmptyString)
  end.

Definition str_split (s : string) : list string := split_from s EmptyString.

(** [sep.join(l)]. *)
Fixpoint str_join (sep : string) (l : list string) : string :=
  match l with
  | [] => EmptyString
  | [s] => s
  | s :: r => s +:+ sep +:+ str_join sep r
  end.

Definition common_attrs : list string :=
  ["id"; "class"; "name"; "type"; "value"; "href"; "src"; "alt"; "title"].

Definition _generate_xpath (element : WebElement.t) : string :=
  match WebElement.scripted_xpath element with
  | Some xpath => xpath
  | None => "//" +:+ WebElement.tag_name element
  end.

Definition _generate_css_selector (element : WebElement.t) : string :=
  let tag := str_lower (WebElement.tag_name element) in
  let element_id := WebElement.get_attribute element "id" in
  if str_bool (or_empty element_id) then tag +:+ "#" +:+ or_empty element_id
  else
    let class_name := WebElement.get_attribute element "class" in
    if str_bool (or_empty class_name) then
      let classes := str_split (str_strip (or_empty class_name)) in
      match classes with
      | [] => tag
      | _ => tag +:+ "." +:+ str_join "." classes
      end
    else tag.

Definition _get_parent_info (element : WebElement.t) : option (list (string * string)) :=
  match WebElement.parent element with
  | Some (parent_tag_name, parent_get_attribute) =>
      Some [ ("tag_name", parent_tag_name);
             ("id", or_empty (parent_get_attribute "id"));
             ("class", or_empty (parent_get_attribute "class")) ]
  | None => None
  end.

(** One turn of the loop over [common_attrs]. *)
Definition collect_attribute (element : WebElement.t)
    (attributes : list (string * string)) (attr : string) : list (string * string) :=
  match WebElement.get_attribute element attr with
  | Some value => if str_bool value then assoc_set attributes attr value else attributes
  | None => attributes
  end.

Definition _extract_element_info (element : WebElement.t) : ElementInfo :=
  {| tag_name := WebElement.tag_name element;
     attributes := foldl (collect_attribute element) [] common_attrs;
     text_content :=
       if str_bool (WebElement.text element) then WebElement.text element else EmptyString;
     inner_html := or_empty (WebElement.get_attribute element "innerHTML");
     xpath := _generate_xpath element;
     css_selector := _generate_css_selector element;
     bounding_rect :=
       [ ("x", WebElement.rect_x element);
         ("y", WebElement.rect_y element);
         ("width", WebElement.rect_width element);
         ("height", WebElement.rect_height element) ];
     is_visible := WebElement.is_displayed element;
     is_enabled := WebElement.is_enabled element;
     parent_info := _get_parent_info element;
     children_count := WebElement.elements_below element |}.

(** A dict of strs as a value. *)
Definition str_dict (d : list (string * string)) : value :=
  VDict (map (fun kv => (kv.1, VStr kv.2)) d).

Definition _element_to_dict (element : ElementInfo) : dict :=
  [ ("tag_name", VStr (tag_name element));
    ("attributes", str_dict (attributes element));
    ("text_content", VStr (text_content element));
    ("inner_html",
       VStr (if (500 <? String.length (inner_html element))%nat
             then substring 0 500 (inner_html element) +:+ "..."
             else inner_html element));
    ("xpath", VStr (xpath element));
    ("css_selector", VStr (css_selector element));
    ("bounding_rect", VDict (map (fun kv => (kv.1, VNum kv.2)) (bounding_rect element)));
    ("is_visible", VBool (is_visible element));
    ("is_enabled", VBool (is_enabled element));
    ("parent_info",
       match parent_info element with
       | Some parent_info => str_dict parent_info
       | None => VNone
       end);
    ("children_count", VNum (Z.of_nat (children_count element))) ].

(** ** Notions used in the statements *)

(** The record of an element of the page, as the scraper exports it. *)
Definition scraped_record (element : WebElement.t) : dict :=
  _element_to_dict (_extract_element_info element).

(** The issue types that need an attribute the scraper does not collect. *)
Definition unreachable_issue_types : list string :=
  ["empty_aria_attribute"; "missing_aria_required"; "external_link_security";
   "inline_styles"].

(** What one turn of the loop over [common_attrs] adds. *)
Definition collected (element : WebElement.t) (attr : string) : option (string * string) :=
  match WebElement.get_attribute element attr with
  | Some value => if str_bool value then Some (attr, value) else None
  | None => None
  end.

Definition allowed (issue : ValidationIssue) : Prop :=
  issue_type issue ∉ unreachable_issue_types.

(** The element with another inner HTML. *)
Definition with_inner_html (element : ElementInfo) (inner_html : string) : ElementInfo :=
  {| tag_name := tag_name element;
     attributes := attributes element;
     text_content := text_content element;
     inner_html := inner_html;
     xpath := xpath element;
     css_selector := css_selector element;
     bounding_rect := bounding_rect element;
     is_visible := is_visible element;
     is_enabled := is_enabled element;
     parent_info := parent_info element;
     children_count := children_count element |}.

(** An image with a source, an alternative text and, in the page, a style
    and a loading attribute. *)
Definition styled_image : WebElement.t :=
  {| WebElement.tag_name := "IMG";
     WebElement.get_attribute := fun attr =>
       if String.eqb attr "src" then Some "logo.png"
       else if String.eqb attr "alt" then Some "Logo"
       else if String.eqb attr "style" then Some "border: 0"
       else if String.eqb attr "loading" then Some "lazy"
       else if String.eqb attr "width" then Some "10"
       else if String.eqb attr "height" then Some "10"
       else if String.eqb attr "name" then Some EmptyString
       else None;
     WebElement.text := EmptyString;
     WebElement.rect_x := 0;
     WebElement.rect_y := 0;
     WebElement.rect_width := 10;
     WebElement.rect_height := 10;
     WebElement.is_displayed := true;
     WebElement.is_enabled := true;
     WebElement.parent := None;
     WebElement.elements_below := 0;
     WebElement.scripted_xpath := None |}.

(** A link without text that has a label for assistive technology in the
    page. *)
Definition labelled_link : WebElement.t :=
  {| WebElement.tag_name := "a";
     WebElement.get_attribute := fun attr =>
       if String.eqb attr "href" then Some "/cart"
       else if String.eqb attr "aria-label" then Some "Cart"
       else if String.eqb attr "class" then Some " icon  cart "
       else None;
     WebElement.text := EmptyString;
     WebElement.rect_x := 0;
     WebElement.rect_y := 0;
     WebElement.rect_width := 48;
     WebElement.rect_height := 48;
     WebElement.is_displayed := true;
     WebElement.is_enabled := true;
     WebElement.parent := None;
     WebElement.elements_below := 1;
     WebElement.scripted_xpath := Some "/html/body/a[1]" |}.

End DOMScraper.

(** * Properties *)

(** ** The loop of [validate_element] *)

Lemma foldl_check_step self e cs acc_issues acc_performed :
  foldl (check_step self e) (acc_issues, acc_performed) cs =
  (acc_issues ++ flat_map (check_issues self e) cs,
   acc_performed ++ filter (fun n => check_succeeds self e n = true) cs).
Proof.
  revert acc_issues acc_performed.
  induction cs as [|c cs IH]; intros acc_issues acc_performed.
  - by rewrite /= !app_nil_r.
  - rewrite /= filter_cons /check_step /check_succeeds /check_issues.
    destruct (assoc_get (validation_rules self) c) as [check|];
      [destruct (check e) as [found|x]|];
      rewrite IH /=; try by rewrite ?app_nil_l.
    by rewrite -!app_assoc.
Qed.

Lemma run_checks_eq self e cs :
  run_checks self e cs =
  (flat_map (check_issues self e) cs,
   filter (fun n => check_succeeds self e n = true) cs).
Proof. by rewrite /run_checks foldl_check_step. Qed.

Lemma validate_element_Ok self e checks t r :
  validate_element self e checks t = Ok r ->
  attributes_is_mapping e = true
  /\ issues r = flat_map (check_issues self e) (effective_checks self checks)
  /\ checks_performed r =
       filter (fun n => check_succeeds self e n = true) (effective_checks self checks)
  /\ passed r =
       Nat.eqb (length (filter (fun i => severity i ∈ [CRITICAL; HIGH]) (issues r))) 0.
Proof.
  rewrite /validate_element /attributes_is_mapping.
  fold (effective_checks self checks). rewrite run_checks_eq.
  destruct (dict_get e "attributes") as [[]|]; simpl; intros H;
    by inversion H.
Qed.

Lemma validate_element_Raise self e checks t x :
  validate_element self e checks t = Raise x -> attributes_is_mapping e = false.
Proof.
  rewrite /validate_element /attributes_is_mapping.
  fold (effective_checks self checks). rewrite run_checks_eq.
  by destruct (dict_get e "attributes") as [[]|].
Qed.

Lemma validate_element_returns self e checks t :
  attributes_is_mapping e = true ->
  exists r, validate_element self e checks t = Ok r.
Proof.
  intros Hm. destruct (validate_element self e checks t) as [r|x] eqn:E; [by exists r|].
  apply validate_element_Raise in E. congruence.
Qed.

(** Dropping one requested name that adds nothing leaves the call unchanged. *)
Lemma validate_element_drop self e pre n post t :
  check_succeeds self e n = false ->
  validate_element self e (Some (pre ++ n :: post)) t =
  validate_element self e (Some (pre ++ post)) t.
Proof.
  intros Hn. rewrite /validate_element !run_checks_eq.
  assert (check_issues self e n = []) as Hi.
  { revert Hn. rewrite /check_succeeds /check_issues.
    destruct (assoc_get _ n) as [check|]; [|done]. by destruct (check e). }
  by rewrite !flat_map_app !filter_app /= Hi filter_cons_False ?Hn.
Qed.

Lemma blocking_iff issue : blocking issue <-> severity issue ∈ [CRITICAL; HIGH].
Proof. rewrite /blocking !elem_of_cons elem_of_nil. tauto. Qed.

(** ** Generic list facts *)

Lemma filter_nil_iff {A} (P : A -> Prop) `{!forall x, Decision (P x)} (l : list A) :
  filter P l = [] <-> forall x, x ∈ l -> ~ P x.
Proof.
  split.
  - intros Hnil x Hx HP. by apply (filter_nil_not_elem_of P l x).
  - induction l as [|a l IH]; intros Hall; [done|].
    rewrite filter_cons_False.
    + apply Hall. by left.
    + apply IH. intros x Hx. apply Hall. by right.
Qed.

Lemma flat_map_elem_sublist {A B} (f : A -> list B) (l : list A) (a : A) :
  a ∈ l -> f a `sublist_of` flat_map f l.
Proof.
  induction 1 as [a l|a b l _ IH]; simpl.
  - by apply sublist_inserts_r.
  - by apply sublist_inserts_l.
Qed.

Lemma occurrences_filter (Q : string -> Prop) `{!forall x, Decision (Q x)} n l :
  occurrences n (filter Q l) <= occurrences n l.
Proof.
  rewrite /occurrences. induction l as [|a l IH]; [done|].
  rewrite (filter_cons Q). destruct (decide (Q a)).
  - rewrite !(filter_cons (fun m => m = n)). destruct (decide (a = n)); simpl; lia.
  - rewrite (filter_cons (fun m => m = n)). destruct (decide (a = n)); simpl; lia.
Qed.

(** ** Pass status, faults and the list of performed checks *)

(** C1. Whenever [validate_element] returns a result, for any registry
    and any requested checks, [passed] is true exactly when no issue of the
    result has severity critical or high; a result all of whose issues are
    medium, low or info has passed.  (The call returns unless the
    [attributes] field holds something that is not a dict.) *)
Theorem passed_iff_no_critical_or_high self e checks t :
  match validate_element self e checks t with
  | Ok r =>
      (passed r = true <-> forall issue, issue ∈ issues r -> ~ blocking issue)
      /\ (Forall (fun issue => severity issue ∈ [MEDIUM; LOW; INFO]) (issues r) ->
          passed r = true)
  | Raise _ => attributes_is_mapping e = false
  end.
Proof.
  destruct (validate_element self e checks t) as [r|x] eqn:E;
    [|by eapply validate_element_Raise].
  apply validate_element_Ok in E as (_ & _ & _ & ->).
  assert (Nat.eqb (length (filter (fun i => severity i ∈ [CRITICAL; HIGH]) (issues r))) 0
          = true <-> forall issue, issue ∈ issues r -> ~ blocking issue) as Hiff.
  { rewrite Nat.eqb_eq length_zero_iff_nil filter_nil_iff.
    split; intros H issue Hin Hb; apply (H issue Hin); by apply blocking_iff. }
  split; [exact Hiff|].
  intros Hall. apply Hiff. intros issue Hin Hb.
  rewrite Forall_forall in Hall. specialize (Hall issue Hin).
  rewrite !elem_of_cons elem_of_nil in Hall.
  destruct Hb as [Hs|Hs]; rewrite Hs in Hall; intuition discriminate.
Qed.

(** C2. A requested rule that raises on the element contributes nothing:
    the call behaves as if its name had not been requested, the name is
    absent from [checks_performed], every later requested rule that returns
    is performed and its issues are in the result, and the call itself
    returns unless the [attributes] field is not a dict, which does not
    depend on the rule. *)
Theorem faulting_rule_is_skipped self e pre name post t check x :
  assoc_get (validation_rules self) name = Some check ->
  check e = Raise x ->
  (validate_element self e (Some (pre ++ name :: post)) t =
     validate_element self e (Some (pre ++ post)) t)
  /\ match validate_element self e (Some (pre ++ name :: post)) t with
     | Ok r =>
         (name ∉ checks_performed r)
         /\ forall n c found,
              n ∈ post ->
              assoc_get (validation_rules self) n = Some c ->
              c e = Ok found ->
              n ∈ checks_performed r /\ (found `sublist_of` issues r)
     | Raise _ => attributes_is_mapping e = false
     end.
Proof.
  intros Hreg Hraise.
  assert (check_succeeds self e name = false) as Hfail.
  { by rewrite /check_succeeds Hreg Hraise. }
  split; [by apply validate_element_drop|].
  destruct (validate_element _ _ _ _) as [r|y] eqn:E;
    [|by eapply validate_element_Raise].
  apply validate_element_Ok in E as (_ & Hi & Hp & _). simpl in Hi, Hp.
  split.
  - rewrite Hp list_elem_of_filter Hfail. by intros [? _].
  - intros n c found Hn Hc Hok. split.
    + rewrite Hp list_elem_of_filter /check_succeeds Hc Hok.
      split; [done|]. apply elem_of_app. right. by right.
    + rewrite Hi flat_map_app /=. apply sublist_inserts_l, sublist_inserts_l.
      replace found with (check_issues self e n)
        by by rewrite /check_issues Hc Hok.
      by apply flat_map_elem_sublist.
Qed.

(** C2 at the element whose tag is None, on which the basic accessibility
    rule raises AttributeError. *)
Lemma faulting_rule_is_skipped_witness :
  assoc_get (validation_rules (__init__ None)) "accessibility_basic"
    = Some (_check_accessibility_basic _get_default_config)
  /\ _check_accessibility_basic _get_default_config element_with_tag_None
     = Raise AttributeError
  /\ validate_element (__init__ None) element_with_tag_None
       (Some (["text_content"] ++ "accessibility_basic" :: ["visual_layout"])) 0
     = validate_element (__init__ None) element_with_tag_None
         (Some (["text_content"] ++ ["visual_layout"])) 0.
Proof.
  split; [reflexivity|]. split; [reflexivity|].
  apply (faulting_rule_is_skipped (__init__ None) element_with_tag_None
           ["text_content"] "accessibility_basic" ["visual_layout"] 0
           (_check_accessibility_basic _get_default_config) AttributeError);
    reflexivity.
Defined.

(** C8. A requested name that is not registered is skipped without any
    effect on the call, and [checks_performed] is the requested list
    restricted to the registered rules that returned: it is a sublist of the
    request and holds exactly those names. *)
Theorem unregistered_skipped_performed_subset self e cs t :
  (forall pre n post,
      assoc_get (validation_rules self) n = None ->
      validate_element self e (Some (pre ++ n :: post)) t =
        validate_element self e (Some (pre ++ post)) t)
  /\ match validate_element self e (Some cs) t with
     | Ok r =>
         (checks_performed r `sublist_of` cs)
         /\ forall n, n ∈ checks_performed r <->
              n ∈ cs /\ exists check found,
                assoc_get (validation_rules self) n = Some check /\ check e = Ok found
     | Raise _ => attributes_is_mapping e = false
     end.
Proof.
  split.
  - intros pre n post Hn. apply validate_element_drop.
    by rewrite /check_succeeds Hn.
  - destruct (validate_element _ _ _ _) as [r|y] eqn:E;
      [|by eapply validate_element_Raise].
    apply validate_element_Ok in E as (_ & _ & Hp & _). simpl in Hp.
    rewrite Hp. split; [apply sublist_filter|].
    intros n. rewrite list_elem_of_filter /check_succeeds.
    destruct (assoc_get (validation_rules self) n) as [check|];
      [destruct (check e) as [found|y] eqn:Ec|].
    + split; [intros [_ ?]; eauto|by intros [? _]].
    + split; [by intros [? _]|]. intros (_ & c & f & Hc & Hf). congruence.
    + split; [by intros [? _]|]. by intros (_ & c & f & Hc & _).
Qed.

(** C9 counterexample. A name requested twice is performed twice: on the
    request [performance, performance] the identifier occurs twice in
    [checks_performed]. *)
Lemma repeated_name_performed_twice :
  exists r,
    validate_element (__init__ None) [] (Some ["performance"; "performance"]) 0 = Ok r
    /\ checks_performed r = ["performance"; "performance"]
    /\ ~ NoDup (checks_performed r).
Proof.
  eexists. split; [reflexivity|]. split; [reflexivity|].
  simpl. intros Hnd. apply NoDup_cons in Hnd as [Hnotin _].
  apply Hnotin. by left.
Qed.

Lemma default_check_names_NoDup : NoDup default_check_names.
Proof. by apply (bool_decide_unpack _); vm_compute. Qed.

Lemma validation_rules_any_config cfg :
  validation_rules (__init__ cfg) = _load_validation_rules _get_default_config.
Proof. destruct cfg as [[|kv c]|]; reflexivity. Qed.

Lemma validate_element_same_rules self self' e checks t :
  validation_rules self = validation_rules self' ->
  validate_element self e checks t = validate_element self' e checks t.
Proof.
  intros Heq.
  rewrite /validate_element /run_checks /check_step. by rewrite Heq.
Qed.

(** C9 (amended). Every rule identifier occurs in [checks_performed] at
    most as often as in the requested list; when the requested list has no
    repeated name each identifier occurs at most once, and the default list
    (the keys of the registry) has none, whatever the configuration. *)
Theorem checks_performed_occurrences self e checks t :
  match validate_element self e checks t with
  | Ok r =>
      (forall n, occurrences n (checks_performed r)
                 <= occurrences n (effective_checks self checks))
      /\ (NoDup (effective_checks self checks) -> NoDup (checks_performed r))
  | Raise _ => attributes_is_mapping e = false
  end
  /\ forall cfg, NoDup (effective_checks (__init__ cfg) None).
Proof.
  split.
  - destruct (validate_element self e checks t) as [r|x] eqn:E;
      [|by eapply validate_element_Raise].
    apply validate_element_Ok in E as (_ & _ & -> & _). split.
    + intros n. apply occurrences_filter.
    + intros Hnd. by apply NoDup_filter.
  - intros cfg. rewrite /effective_checks validation_rules_any_config.
    apply default_check_names_NoDup.
Qed.

(** ** The configuration *)

(** C3 counterexample. With the four group flags set to false, a call with
    the rule names omitted still runs all nine rules and reports issues of
    the usability, security, visual and performance groups. *)
Lemma disabled_groups_still_run :
  exists r,
    validate_element (__init__ (Some all_groups_disabled)) offscreen_external_link None 0
      = Ok r
    /\ checks_performed r = default_check_names
    /\ map issue_summary (issues r) =
         [ ("generic_link_text", MEDIUM, USABILITY);
           ("external_link_security", MEDIUM, COMPLIANCE);
           ("element_outside_viewport", LOW, VISUAL);
           ("inline_styles", LOW, PERFORMANCE) ].
Proof. eexists. split; [vm_compute; reflexivity|]. split; reflexivity. Qed.

(** C3 (amended). The configuration is not consulted when the registry is
    built: whatever configuration the validator is constructed with, the
    registry holds the same nine rules, the default check set is all nine,
    and every call gives the result it gives under the default
    configuration. *)
Theorem registry_independent_of_config cfg e checks t :
  effective_checks (__init__ cfg) None = default_check_names
  /\ validation_rules (__init__ cfg) = validation_rules (__init__ None)
  /\ validate_element (__init__ cfg) e checks t
     = validate_element (__init__ None) e checks t.
Proof.
  split; [|split].
  - by rewrite /effective_checks validation_rules_any_config.
  - by rewrite !validation_rules_any_config.
  - apply validate_element_same_rules. by rewrite !validation_rules_any_config.
Qed.

(** ** The nine registered rules and the issues they construct *)

(** A property of the nine rule methods, each under its name, holds of
    every registered rule. *)
Lemma named_rule_ind (P : string -> rule -> Prop) cfg :
  P "accessibility_basic" (_check_accessibility_basic cfg) ->
  P "accessibility_advanced" (_check_accessibility_advanced cfg) ->
  P "form_validation" (_check_form_elements cfg) ->
  P "link_validation" (_check_links cfg) ->
  P "image_validation" (_check_images cfg) ->
  P "interactive_elements" (_check_interactive_elements cfg) ->
  P "text_content" (_check_text_content cfg) ->
  P "visual_layout" (_check_visual_layout cfg) ->
  P "performance" (_check_performance_indicators cfg) ->
  forall name check,
    assoc_get (_load_validation_rules cfg) name = Some check -> P name check.
Proof.
  intros ????????? name check. rewrite /_load_validation_rules /assoc_get.
  repeat (case: (String.eqb_spec _ name); [by intros <- [= <-]|intros _]). done.
Qed.

Section ensures.
Context {A B : Type}.

Lemma ensures_Ok (P : A -> Prop) (a : A) : P a -> ensures P (Ok a).
Proof. by intros HP a' [= <-]. Qed.

Lemma ensures_bind (Q : A -> Prop) (P : B -> Prop) (m : outcome A) (f : A -> outcome B) :
  ensures Q m -> (forall a, Q a -> ensures P (f a)) -> ensures P (m ≫= f).
Proof.
  intros Hm Hf b. destruct m as [a|x]; [|done]. simpl. apply Hf. by apply Hm.
Qed.

Lemma ensures_any (m : outcome A) : ensures (fun _ => True) m.
Proof. done. Qed.
End ensures.

Lemma of_kinds_snoc kinds found issue :
  of_kinds kinds found -> issue_summary issue ∈ kinds ->
  of_kinds kinds (found ++ [issue]).
Proof. intros Hf Hi. apply Forall_app. split; [done|]. by constructor. Qed.

Lemma aria_loop_kinds kinds sel items found :
  ("empty_aria_attribute", MEDIUM, ACCESSIBILITY) ∈ kinds ->
  of_kinds kinds found -> ensures (of_kinds kinds) (aria_loop sel items found).
Proof.
  intros Hty. revert found.
  induction items as [|[k v] items IH]; intros found Hf; simpl.
  - by apply ensures_Ok.
  - destruct (str_startswith k "aria-"); [|by apply IH].
    apply (ensures_bind (fun _ => True)); [apply ensures_any|intros s _].
    apply IH. destruct (negb (str_bool s)); [|done]. by apply of_kinds_snoc.
Qed.

(** One step through the body of a rule, carrying the kinds of the issues
    collected so far. *)
Ltac ensures_step :=
  match goal with
  | |- ensures _ (mret _) => apply ensures_Ok
  | |- ensures _ (Ok _) => apply ensures_Ok
  | |- ensures _ (if ?c then _ else _) => destruct c
  | |- ensures (of_kinds ?ks) (aria_loop _ _ _) =>
      apply aria_loop_kinds; [by repeat constructor|]
  | |- ensures (of_kinds ?ks) (@mbind _ _ (list ValidationIssue) _ _ _) =>
      apply (ensures_bind (of_kinds ks)); [|intros ? ?]
  | |- ensures _ (mbind _ _) =>
      apply (ensures_bind (fun _ => True)); [apply ensures_any|intros ? _]
  | |- of_kinds _ (if ?c then _ else _) => destruct c
  | |- of_kinds _ (_ ++ [_]) => apply of_kinds_snoc; [|by repeat constructor]
  | |- of_kinds _ [] => by constructor
  | |- of_kinds _ _ => assumption
  end.

Ltac rule_kinds r :=
  match goal with
  | |- context [kinds_of ?n] =>
      let ks := eval vm_compute in (kinds_of n) in change (kinds_of n) with ks
  end;
  rewrite /r; cbv zeta; repeat ensures_step.

(** Every issue a registered rule returns is of one of the kinds listed for
    the rule in [rule_issue_kinds]. *)
Lemma registered_rule_kinds cfg e name check :
  assoc_get (_load_validation_rules cfg) name = Some check ->
  ensures (of_kinds (kinds_of name)) (check e).
Proof.
  revert name check.
  apply (named_rule_ind (fun name check => ensures (of_kinds (kinds_of name)) (check e))).
  - rule_kinds _check_accessibility_basic.
  - rule_kinds _check_accessibility_advanced.
  - rule_kinds _check_form_elements.
  - rule_kinds _check_links.
  - rule_kinds _check_images.
  - rule_kinds _check_interactive_elements.
  - rule_kinds _check_text_content.
  - rule_kinds _check_visual_layout.
  - rule_kinds _check_performance_indicators.
Qed.

Lemma small_touch_target_only_interactive cfg e name check found :
  assoc_get (_load_validation_rules cfg) name = Some check ->
  check e = Ok found ->
  emits "small_touch_target" found ->
  name = "interactive_elements".
Proof.
  intros Hreg Hok (issue & Hin & Hty).
  pose proof (registered_rule_kinds cfg e name check Hreg found Hok) as Hk.
  rewrite /of_kinds Forall_forall in Hk. specialize (Hk issue Hin).
  revert Hk. rewrite /issue_summary Hty. clear -Hreg.
  revert name check Hreg.
  apply (named_rule_ind
           (fun name _ => _ ∈ kinds_of name -> name = "interactive_elements"));
    rewrite /kinds_of /= ?elem_of_cons elem_of_nil; intros H; try done;
    by repeat (destruct H as [[=]|H]).
Qed.

Lemma emits_flat_map {A} ty (f : A -> list ValidationIssue) l :
  emits ty (flat_map f l) <-> exists a, a ∈ l /\ emits ty (f a).
Proof.
  rewrite /emits. split.
  - intros (issue & Hin & Hty).
    apply list_elem_of_In, in_flat_map in Hin as (a & Ha & Hi).
    exists a. split; [by apply list_elem_of_In|].
    exists issue. split; [by apply list_elem_of_In|done].
  - intros (a & Ha & issue & Hin & Hty). exists issue. split; [|done].
    apply list_elem_of_In, in_flat_map. exists a. split; by apply list_elem_of_In.
Qed.

(** ** The touch-target threshold *)

(** C4 counterexample. Under a configuration asking for 48 pixel touch
    targets a 46 by 46 pixel button is below the configured threshold, yet
    no small_touch_target issue is emitted: the threshold of a
    configuration is not the one the rule compares with. *)
Lemma configured_threshold_not_used :
  dict_get touch_target_48 "minimum_touch_target" = Some (VNum 48)
  /\ (46 < 48)%Z
  /\ _check_interactive_elements touch_target_48 button_46 = Ok []
  /\ exists r,
       validate_element (__init__ (Some touch_target_48)) button_46 None 0 = Ok r
       /\ issues r = [].
Proof.
  split; [reflexivity|]. split; [lia|]. split; [reflexivity|].
  eexists. split; [vm_compute; reflexivity|reflexivity].
Qed.

Lemma interactive_rule_threshold cfg e tag b w h :
  py_lower (default (VStr "") (dict_get e "tag_name")) = Ok tag ->
  str_in tag ["button"; "a"; "input"; "select"; "textarea"] = true ->
  default (VDict []) (dict_get e "bounding_rect") = VDict b ->
  default (VNum 0) (dict_get b "width") = VNum w ->
  default (VNum 0) (dict_get b "height") = VNum h ->
  exists found,
    _check_interactive_elements cfg e = Ok found
    /\ (emits "small_touch_target" found <-> (w < 44 \/ h < 44)%Z).
Proof.
  intros Htag Hin Hb Hw Hh.
  rewrite /_check_interactive_elements Htag Hb.
  cbn [mbind outcome_bind]. rewrite Hin.
  cbn [py_get mbind outcome_bind]. rewrite Hw Hh.
  cbn [or_else py_lt mbind outcome_bind mret outcome_ret].
  destruct (Z.ltb_spec w 44) as [Hw44|Hw44]; simpl;
    [|destruct (Z.ltb_spec h 44) as [Hh44|Hh44]; simpl];
    eexists; (split; [reflexivity|]); rewrite /emits.
  - split; [auto|]. intros _. eexists. split; [by left|reflexivity].
  - split; [auto|]. intros _. eexists. split; [by left|reflexivity].
  - split; [|lia]. intros (issue & Hnil & _). by apply elem_of_nil in Hnil.
Qed.

(** C4 (amended). Whatever the configuration (in particular whatever
    [minimum_touch_target] it supplies), for an element whose lower-cased
    tag is button, a, input, select or textarea and whose bounding width and
    height (0 when absent) are numbers, the interactive-elements rule emits
    small_touch_target exactly when the width or the height is below 44;
    and a result of [validate_element] holds a small_touch_target issue
    exactly when that rule was among the checks and the width or the height
    is below 44. *)
Theorem small_touch_target_iff_below_44 cfg e checks t tag b w h :
  py_lower (default (VStr "") (dict_get e "tag_name")) = Ok tag ->
  str_in tag ["button"; "a"; "input"; "select"; "textarea"] = true ->
  default (VDict []) (dict_get e "bounding_rect") = VDict b ->
  default (VNum 0) (dict_get b "width") = VNum w ->
  default (VNum 0) (dict_get b "height") = VNum h ->
  (exists found,
     _check_interactive_elements (config (__init__ cfg)) e = Ok found
     /\ (emits "small_touch_target" found <-> (w < 44 \/ h < 44)%Z))
  /\ match validate_element (__init__ cfg) e checks t with
     | Ok r =>
         emits "small_touch_target" (issues r) <->
         "interactive_elements" ∈ effective_checks (__init__ cfg) checks
         /\ (w < 44 \/ h < 44)%Z
     | Raise _ => attributes_is_mapping e = false
     end.
Proof.
  intros Htag Hin Hb Hw Hh.
  split; [by eapply interactive_rule_threshold|].
  destruct (interactive_rule_threshold _get_default_config e tag b w h)
    as (found & Hrule & Hiff); [done..|].
  destruct (validate_element _ _ _ _) as [r|x] eqn:E;
    [|by eapply validate_element_Raise].
  apply validate_element_Ok in E as (_ & -> & _ & _).
  rewrite emits_flat_map. split.
  - intros (n & Hn & Hem). revert Hem.
    rewrite /check_issues validation_rules_any_config.
    destruct (assoc_get _ n) as [check|] eqn:Hreg;
      [destruct (check e) as [found'|y] eqn:Hok|];
      try by intros (? & ?%elem_of_nil & _).
    intros Hem.
    pose proof (small_touch_target_only_interactive _ _ _ _ _ Hreg Hok Hem) as ->.
    injection Hreg as <-. split; [done|].
    apply Hiff. congruence.
  - intros [Hn Hlt]. exists "interactive_elements". split; [done|].
    rewrite /check_issues validation_rules_any_config.
    change (assoc_get _ "interactive_elements")
      with (Some (_check_interactive_elements _get_default_config)).
    cbv iota beta. rewrite Hrule. by apply Hiff.
Qed.

(** C4 (amended) at the 46 by 46 pixel button, under the configuration
    asking for 48 pixels. *)
Lemma small_touch_target_iff_below_44_witness :
  (exists found,
     _check_interactive_elements (config (__init__ (Some touch_target_48))) button_46
       = Ok found
     /\ (emits "small_touch_target" found <-> (46 < 44 \/ 46 < 44)%Z))
  /\ match validate_element (__init__ (Some touch_target_48)) button_46 None 0 with
     | Ok r =>
         emits "small_touch_target" (issues r) <->
         "interactive_elements" ∈ effective_checks (__init__ (Some touch_target_48)) None
         /\ (46 < 44 \/ 46 < 44)%Z
     | Raise _ => attributes_is_mapping button_46 = false
     end.
Proof.
  apply (small_touch_target_iff_below_44 (Some touch_target_48) button_46 None 0
           "button" [("width", VNum 46); ("height", VNum 46)] 46 46); reflexivity.
Defined.

(** ** The scenario of an image without attributes *)

(** C5 counterexample. On [{tag_name: "img", attributes: {}}] the default
    rule set reports three issues, not one. *)
Lemma img_without_attributes_not_one_issue :
  exists r,
    validate_element (__init__ None) img_without_attributes None 0 = Ok r
    /\ length (issues r) = 3
    /\ length (issues r) <> 1.
Proof. eexists. split; [vm_compute; reflexivity|]. split; [reflexivity|]. simpl. lia. Qed.

(** C5 (amended). On [{tag_name: "img", attributes: {}}] the default rule
    set yields exactly three issues, in this order: missing_alt_text (high,
    accessibility), missing_loading_attribute and missing_image_dimensions
    (both low, performance); the result has passed = false.  With only the
    rule accessibility_basic requested the result holds exactly the one
    issue missing_alt_text, and passed = false. *)
Theorem img_without_attributes_issues cfg t :
  (exists r,
     validate_element (__init__ cfg) img_without_attributes None t = Ok r
     /\ map issue_summary (issues r) =
          [ ("missing_alt_text", HIGH, ACCESSIBILITY);
            ("missing_loading_attribute", LOW, PERFORMANCE);
            ("missing_image_dimensions", LOW, PERFORMANCE) ]
     /\ passed r = false)
  /\ (exists r,
        validate_element (__init__ cfg) img_without_attributes
          (Some ["accessibility_basic"]) t = Ok r
        /\ map issue_summary (issues r) = [ ("missing_alt_text", HIGH, ACCESSIBILITY) ]
        /\ passed r = false).
Proof.
  rewrite !(validate_element_same_rules (__init__ cfg) (__init__ None));
    [by rewrite !validation_rules_any_config..|].
  split; eexists; (split; [vm_compute; reflexivity|]); split; reflexivity.
Qed.

(** ** The aggregator *)

Section histograms.
Implicit Types (h : gmap string Z) (k : string).

Lemma histogram_total_empty : histogram_total ∅ = 0%Z.
Proof. by rewrite /histogram_total map_fold_empty. Qed.

Lemma histogram_total_insert h k n :
  h !! k = None -> histogram_total (<[k:=n]> h) = (n + histogram_total h)%Z.
Proof.
  intros Hk. rewrite /histogram_total map_fold_insert_L; [|done..].
  intros; lia.
Qed.

Lemma histogram_total_delete h k n :
  h !! k = Some n -> histogram_total h = (n + histogram_total (delete k h))%Z.
Proof.
  intros Hk. rewrite /histogram_total (map_fold_delete_L _ _ k n h); [|done..].
  intros; lia.
Qed.

(** [h[k] = h.get(k, 0) + 1] adds one to the total. *)
Lemma histogram_total_incr h k :
  histogram_total (<[k := (default 0 (h !! k) + 1)%Z]> h)
  = (histogram_total h + 1)%Z.
Proof.
  destruct (h !! k) as [n|] eqn:Hk; simpl.
  - rewrite (histogram_total_delete h k n) // -insert_delete_eq.
    rewrite histogram_total_insert; [by rewrite lookup_delete_eq|]. lia.
  - rewrite histogram_total_insert //. lia.
Qed.

(** ... and changes the cell of [k] only. *)
Lemma histogram_incr_lookup h k k' :
  default 0%Z (<[k := (default 0 (h !! k) + 1)%Z]> h !! k')
  = (default 0 (h !! k') + (if bool_decide (k = k') then 1 else 0))%Z.
Proof.
  destruct (decide (k = k')) as [->|Hne].
  - by rewrite lookup_insert_eq bool_decide_eq_true_2.
  - rewrite lookup_insert_ne // bool_decide_eq_false_2 //. lia.
Qed.
End histograms.

Lemma foldl_count_issue l sev cat :
  histogram_total (foldl count_issue (sev, cat) l).1
    = (histogram_total sev + Z.of_nat (length l))%Z
  /\ histogram_total (foldl count_issue (sev, cat) l).2
    = (histogram_total cat + Z.of_nat (length l))%Z.
Proof.
  revert sev cat. induction l as [|issue l IH]; intros sev cat.
  - simpl. lia.
  - cbn [foldl count_issue].
    destruct (IH (<[ValidationSeverity_value (severity issue) :=
                     (default 0 (sev !! ValidationSeverity_value (severity issue)) + 1)%Z]> sev)
                 (<[ValidationCategory_value (category issue) :=
                     (default 0 (cat !! ValidationCategory_value (category issue)) + 1)%Z]> cat))
      as [-> ->].
    rewrite !histogram_total_incr /=. lia.
Qed.

Lemma foldl_extend_issues results acc :
  foldl (fun all_issues result => all_issues ++ issues result) acc results
  = acc ++ flat_map issues results.
Proof.
  revert acc. induction results as [|r results IH]; intros acc; simpl.
  - by rewrite app_nil_r.
  - by rewrite IH app_assoc.
Qed.

(** C6. The summary of an empty list of results has every count at zero,
    pass rate 0 and two empty histograms. *)
Theorem summary_of_no_results :
  get_validation_summary [] =
  {| total_elements := 0;
     passed_elements := 0;
     failed_elements := 0;
     pass_rate := 0;
     total_issues := 0;
     issues_by_severity := ∅;
     issues_by_category := ∅;
     critical_issues := 0;
     high_issues := 0 |}.
Proof. reflexivity. Qed.

(** C7. For every list of results: [total_elements] is the length of the
    list; passed and failed elements add up to it (and neither is
    negative); [total_issues] is the number of issues of all results, and
    equals the sum of the cells of the severity histogram and the sum of the
    cells of the category histogram.  One turn of the counting loop adds one
    to the cell of the issue's severity and to the cell of its category and
    leaves every other cell as it was. *)
Theorem summary_counts_consistent results :
  let s := get_validation_summary results in
  total_elements s = Z.of_nat (length results)
  /\ (passed_elements s + failed_elements s = total_elements s)%Z
  /\ (0 <= passed_elements s)%Z
  /\ (0 <= failed_elements s)%Z
  /\ total_issues s = Z.of_nat (length (flat_map issues results))
  /\ total_issues s = histogram_total (issues_by_severity s)
  /\ total_issues s = histogram_total (issues_by_category s)
  /\ forall sev cat issue k,
       let acc := count_issue (sev, cat) issue in
       default 0%Z (acc.1 !! k)
         = (default 0 (sev !! k)
            + (if bool_decide (ValidationSeverity_value (severity issue) = k) then 1 else 0))%Z
       /\ default 0%Z (acc.2 !! k)
         = (default 0 (cat !! k)
            + (if bool_decide (ValidationCategory_value (category issue) = k) then 1 else 0))%Z.
Proof.
  rewrite /get_validation_summary foldl_extend_issues app_nil_l.
  pose proof (foldl_count_issue (flat_map issues results) ∅ ∅) as [Hsev Hcat].
  destruct (foldl count_issue (∅, ∅) (flat_map issues results)) as [sev cat].
  simpl in Hsev, Hcat. rewrite histogram_total_empty in Hsev, Hcat.
  pose proof (length_filter (fun r => passed r = true) results) as Hle.
  cbn [total_elements passed_elements failed_elements total_issues
       issues_by_severity issues_by_category].
  repeat split; try lia.
  - apply histogram_incr_lookup.
  - apply histogram_incr_lookup.
Qed.

(** ** Records with absent fields: no rule faults *)

Section returns.
Context {A B : Type}.

Lemma returns_Ok (a : A) : returns (Ok a).
Proof. by exists a. Qed.

Lemma returns_bind (m : outcome A) (f : A -> outcome B) :
  returns m -> (forall a, m = Ok a -> returns (f a)) -> returns (m ≫= f).
Proof. intros [a ->] Hf. by apply Hf. Qed.
End returns.

Lemma returns_or_else a b :
  returns a -> (a = Ok false -> returns b) -> returns (or_else a b).
Proof. intros [[] ->] Hb; [apply returns_Ok|by apply Hb]. Qed.

Lemma returns_and_then a b :
  returns a -> (a = Ok true -> returns b) -> returns (and_then a b).
Proof. intros [[] ->] Hb; [by apply Hb|apply returns_Ok]. Qed.

Lemma returns_not a : returns a -> returns (not_ a).
Proof. intros [x ->]. apply returns_Ok. Qed.

Lemma not_Ok a x : not_ a = Ok x -> a = Ok (negb x).
Proof. destruct a as [y|]; [|done]. intros [= <-]. by rewrite negb_involutive. Qed.

Lemma field_ok_str d k :
  field_ok is_str d k = true -> exists s, default (VStr "") (dict_get d k) = VStr s.
Proof.
  rewrite /field_ok. destruct (dict_get d k) as [[]|]; simpl; try done; eauto.
Qed.

Lemma field_ok_num d k :
  field_ok is_num d k = true -> exists n, default (VNum 0) (dict_get d k) = VNum n.
Proof.
  rewrite /field_ok. destruct (dict_get d k) as [[]|]; simpl; try done; eauto.
Qed.

Lemma attribute_map_get a k v :
  forallb (fun kv : string * value => is_str kv.2) a = true ->
  dict_get a k = Some v -> exists s, v = VStr s.
Proof.
  rewrite /dict_get. induction a as [|[k' v'] a IH]; simpl; [done|].
  intros [Hv Ha]%andb_prop. destruct (String.eqb k' k).
  - intros [= <-]. destruct v'; try done. eauto.
  - by apply IH.
Qed.

Lemma field_ok_attributes e :
  field_ok is_attribute_map e "attributes" = true ->
  exists a, default (VDict []) (dict_get e "attributes") = VDict a
            /\ forallb (fun kv : string * value => is_str kv.2) a = true.
Proof.
  rewrite /field_ok. destruct (dict_get e "attributes") as [[]|]; simpl; try done; eauto.
Qed.

Lemma field_ok_rect e :
  field_ok is_rect e "bounding_rect" = true ->
  exists b, default (VDict []) (dict_get e "bounding_rect") = VDict b
            /\ field_ok is_num b "x" = true /\ field_ok is_num b "y" = true
            /\ field_ok is_num b "width" = true /\ field_ok is_num b "height" = true.
Proof.
  rewrite /field_ok. destruct (dict_get e "bounding_rect") as [[]|]; simpl; try done.
  - intros [[[??]%andb_prop ?]%andb_prop ?]%andb_prop. eauto 10.
  - by exists [].
Qed.

Lemma getitem_after_in a k :
  py_in k (VDict a) = Ok true ->
  exists v, py_getitem (VDict a) k = Ok v /\ dict_get a k = Some v.
Proof.
  rewrite /py_in /py_getitem. intros [= Hin%bool_decide_eq_true_1].
  destruct Hin as [v Hv]. rewrite Hv. eauto.
Qed.

Lemma aria_loop_returns sel items found :
  forallb (fun kv : string * value => is_str kv.2) items = true ->
  returns (aria_loop sel items found).
Proof.
  revert found. induction items as [|[k v] items IH]; intros found; simpl.
  - intros _. apply returns_Ok.
  - intros [Hv Hall]%andb_prop. destruct v; try done.
    destruct (str_startswith k "aria-"); by apply IH.
Qed.

(** What is known about a value read from a dict of str. *)
Ltac attr_facts :=
  repeat match goal with
  | H : not_ _ = Ok _ |- _ => apply not_Ok in H; cbn [negb] in H
  | H : py_get (VDict ?a) ?k = Ok ?o |- _ => injection H as <-
  | H : py_items (VDict ?a) = Ok ?o |- _ => injection H as <-
  | H : py_getitem (VDict ?a) ?k = Ok ?v, Hall : forallb _ ?a = true |- _ =>
      let Hv := fresh in
      assert (exists s, v = VStr s) as [? ->];
      [ revert H; rewrite /py_getitem;
        destruct (dict_get a k) as [?|] eqn:Hv; [|done];
        intros [= <-]; by eapply attribute_map_get
      | clear H ]
  end.

(** One step through the body of a rule. *)
Ltac returns_step :=
  attr_facts;
  match goal with
  | |- returns (mret _) => apply returns_Ok
  | |- returns (Ok _) => apply returns_Ok
  | |- returns (mbind _ _) => apply returns_bind; [|intros ? ?]
  | |- returns (or_else _ _) => apply returns_or_else; [|intros ?]
  | |- returns (and_then _ _) => apply returns_and_then; [|intros ?]
  | |- returns (not_ _) => apply returns_not
  | |- returns (if ?b then _ else _) => destruct b
  | |- returns (py_in _ (VDict _)) => apply returns_Ok
  | |- returns (py_in _ (VStr _)) => apply returns_Ok
  | |- returns (py_get (VDict _) _) => apply returns_Ok
  | |- returns (py_items (VDict _)) => apply returns_Ok
  | |- returns (py_strip (VStr _)) => apply returns_Ok
  | |- returns (py_lower (VStr _)) => apply returns_Ok
  | |- returns (py_len (VStr _)) => apply returns_Ok
  | |- returns (py_lt (VNum _) _) => apply returns_Ok
  | |- returns (py_startswith (VStr _) _) => apply returns_Ok
  | Hall : forallb _ ?a = true |- returns (aria_loop _ ?a _) =>
      by apply aria_loop_returns
  | H : py_in ?k (VDict ?a) = Ok true |- returns (py_getitem (VDict ?a) ?k) =>
      destruct (getitem_after_in a k H) as (? & -> & _); apply returns_Ok
  | Hall : forallb _ ?a = true
    |- returns (py_startswith (default (VStr ?d) (dict_get ?a ?k)) _) =>
      let E := fresh in
      destruct (dict_get a k) as [?|] eqn:E; cbn [default];
      [destruct (attribute_map_get a k _ Hall E) as [? ->]|]; apply returns_Ok
  end.

(** The fields of a well-shaped record, as the rules read them. *)
Ltac shape_intro :=
  rewrite /record_shape_ok;
  intros [[[Ht Ha]%andb_prop Hx]%andb_prop Hr]%andb_prop;
  apply field_ok_str in Ht as [tag Ht]; apply field_ok_str in Hx as [txt Hx];
  apply field_ok_attributes in Ha as (a & Ha & Hall);
  apply field_ok_rect in Hr as (b & Hb & [x Hbx]%field_ok_num & [y Hby]%field_ok_num
                                  & [w Hbw]%field_ok_num & [h Hbh]%field_ok_num).

Ltac rewrite_fields :=
  repeat match goal with
  | H : default _ (dict_get _ _) = _ |- _ => rewrite H
  end.

Ltac rule_returns r :=
  shape_intro; rewrite /r; rewrite_fields;
  cbn [py_get mbind outcome_bind py_lower]; rewrite_fields;
  repeat returns_step.

Section rules_return.
Variables (cfg e : dict).
Hypothesis Hshape : record_shape_ok e = true.

Lemma accessibility_basic_returns : returns (_check_accessibility_basic cfg e).
Proof. revert Hshape. rule_returns _check_accessibility_basic. Qed.

Lemma accessibility_advanced_returns : returns (_check_accessibility_advanced cfg e).
Proof. revert Hshape. rule_returns _check_accessibility_advanced. Qed.

Lemma form_elements_returns : returns (_check_form_elements cfg e).
Proof. revert Hshape. rule_returns _check_form_elements. Qed.

Lemma links_returns : returns (_check_links cfg e).
Proof. revert Hshape. rule_returns _check_links. Qed.

Lemma images_returns : returns (_check_images cfg e).
Proof. revert Hshape. rule_returns _check_images. Qed.

Lemma interactive_elements_returns : returns (_check_interactive_elements cfg e).
Proof. revert Hshape. rule_returns _check_interactive_elements. Qed.

Lemma text_content_returns : returns (_check_text_content cfg e).
Proof. revert Hshape. rule_returns _check_text_content. Qed.

Lemma visual_layout_returns : returns (_check_visual_layout cfg e).
Proof. revert Hshape. rule_returns _check_visual_layout. Qed.

Lemma performance_indicators_returns : returns (_check_performance_indicators cfg e).
Proof. revert Hshape. rule_returns _check_performance_indicators. Qed.
End rules_return.

Lemma registered_rule_returns cfg e name check :
  record_shape_ok e = true ->
  assoc_get (_load_validation_rules cfg) name = Some check ->
  returns (check e).
Proof.
  intros Hshape.   revert name check.
  apply (named_rule_ind (fun _ check => returns (check e)));
    auto using accessibility_basic_returns, accessibility_advanced_returns,
      form_elements_returns, links_returns, images_returns,
      interactive_elements_returns, text_content_returns, visual_layout_returns,
      performance_indicators_returns.
Qed.

(** ** Records with absent fields: the defaults *)

Section defaults.
Variables (cfg e : dict).

Lemma with_defaults_tag :
  dict_get (with_defaults e) "tag_name"
  = Some (default (VStr "") (dict_get e "tag_name")).
Proof. reflexivity. Qed.

Lemma with_defaults_attributes :
  dict_get (with_defaults e) "attributes"
  = Some (default (VDict []) (dict_get e "attributes")).
Proof. reflexivity. Qed.

Lemma with_defaults_text :
  dict_get (with_defaults e) "text_content"
  = Some (default (VStr "") (dict_get e "text_content")).
Proof. reflexivity. Qed.

Lemma with_defaults_rect :
  dict_get (with_defaults e) "bounding_rect"
  = Some (rect_with_defaults (default (VDict []) (dict_get e "bounding_rect"))).
Proof. reflexivity. Qed.

Lemma with_defaults_visible :
  dict_get (with_defaults e) "is_visible"
  = Some (default (VBool true) (dict_get e "is_visible")).
Proof. reflexivity. Qed.

Lemma with_defaults_selector :
  dict_get (with_defaults e) "css_selector" = dict_get e "css_selector".
Proof. reflexivity. Qed.

Ltac same_on_defaults r :=
  rewrite /r ?with_defaults_tag ?with_defaults_attributes ?with_defaults_text
    ?with_defaults_rect ?with_defaults_visible ?with_defaults_selector;
  cbn [default]; try reflexivity;
  by destruct (default (VDict []) (dict_get e "bounding_rect")).

Lemma registered_rule_with_defaults name check :
  assoc_get (_load_validation_rules cfg) name = Some check ->
  check (with_defaults e) = check e.
Proof.
  revert name check.
  apply (named_rule_ind (fun _ check => check (with_defaults e) = check e)).
  - same_on_defaults _check_accessibility_basic.
  - same_on_defaults _check_accessibility_advanced.
  - same_on_defaults _check_form_elements.
  - same_on_defaults _check_links.
  - same_on_defaults _check_images.
  - same_on_defaults _check_interactive_elements.
  - same_on_defaults _check_text_content.
  - same_on_defaults _check_visual_layout.
  - same_on_defaults _check_performance_indicators.
Qed.
End defaults.

Lemma record_shape_attributes e :
  record_shape_ok e = true -> attributes_is_mapping e = true.
Proof.
  rewrite /record_shape_ok /attributes_is_mapping /field_ok.
  intros [[[_ Ha]%andb_prop _]%andb_prop _]%andb_prop.
  by destruct (dict_get e "attributes") as [[]|].
Qed.

Lemma run_checks_with_defaults cfg e cs :
  run_checks (__init__ cfg) (with_defaults e) cs = run_checks (__init__ cfg) e cs.
Proof.
  rewrite !run_checks_eq. f_equal.
  - apply flat_map_ext. intros n. rewrite /check_issues validation_rules_any_config.
    destruct (assoc_get _ n) as [check|] eqn:E; [|done].
    by rewrite (registered_rule_with_defaults _ _ _ _ E).
  - apply list_filter_iff. intros n. rewrite /check_succeeds validation_rules_any_config.
    destruct (assoc_get _ n) as [check|] eqn:E; [|done].
    by rewrite (registered_rule_with_defaults _ _ _ _ E).
Qed.

(** C10 (amended). [validate_element] returns a result on every record whose
    [attributes] field is absent or a dict, whatever the other fields hold:
    a fault in a rule does not escape the call.  On a record whose fields
    are absent, partial or of their declared type no registered rule raises
    at all, so every requested registered rule is performed.  Absent fields
    are read as their defaults (empty tag, no attributes, empty text, zero
    geometry, visible): every registered rule, and so the whole loop, gives
    on a record what it gives on the record with the defaults filled in. *)
Theorem absent_fields_never_fault cfg e checks t :
  (attributes_is_mapping e = true ->
   exists r, validate_element (__init__ cfg) e checks t = Ok r)
  /\ (record_shape_ok e = true ->
      (forall name check,
          assoc_get (validation_rules (__init__ cfg)) name = Some check ->
          returns (check e))
      /\ exists r,
           validate_element (__init__ cfg) e checks t = Ok r
           /\ checks_performed r =
                filter (fun n => is_Some (assoc_get (validation_rules (__init__ cfg)) n))
                       (effective_checks (__init__ cfg) checks))
  /\ (forall name check,
        assoc_get (validation_rules (__init__ cfg)) name = Some check ->
        check (with_defaults e) = check e)
  /\ (forall cs,
        run_checks (__init__ cfg) (with_defaults e) cs = run_checks (__init__ cfg) e cs).
Proof.
  rewrite validation_rules_any_config.
  split; [|split; [|split]].
  - apply validate_element_returns.
  - intros Hshape. split.
    + intros name check. by apply registered_rule_returns.
    + destruct (validate_element_returns (__init__ cfg) e checks t) as [r Hr];
        [by apply record_shape_attributes|].
      exists r. split; [done|].
      apply validate_element_Ok in Hr as (_ & _ & -> & _).
      apply list_filter_iff. intros n.
      rewrite /check_succeeds validation_rules_any_config.
      destruct (assoc_get _ n) as [check|] eqn:E.
      * destruct (registered_rule_returns _ _ _ _ Hshape E) as [found ->].
        split; eauto.
      * split; [done|]. by intros [? ?].
  - intros name check. apply registered_rule_with_defaults.
  - apply run_checks_with_defaults.
Qed.

(** C10 (amended) at a button given by its tag and the width of its
    rectangle only. *)
Lemma absent_fields_never_fault_witness :
  record_shape_ok partial_button = true
  /\ exists r,
       validate_element (__init__ None) partial_button None 0 = Ok r
       /\ checks_performed r =
            filter (fun n => is_Some (assoc_get (validation_rules (__init__ None)) n))
                   (effective_checks (__init__ None) None).
Proof.
  split; [reflexivity|].
  apply (absent_fields_never_fault None partial_button None 0). reflexivity.
Defined.

(** C10 counterexample. The call does not return on every record: a field
    that is present with a value of another type is not an absent field.
    On the record whose [attributes] is None the rules that read it raise
    and are skipped, and building the metadata of the result raises
    AttributeError out of [validate_element]. *)
Lemma attributes_None_raises :
  record_shape_ok [("attributes", VNone)] = false
  /\ validate_element (__init__ None) [("attributes", VNone)] None 0
     = Raise AttributeError.
Proof. split; reflexivity. Qed.

(** * Further properties of the engine *)

(** ** Batches *)

Lemma validate_page_elements_from_spec self checks times elements i results :
  match validate_page_elements_from self elements checks times i results with
  | Ok out =>
      Forall (fun e => attributes_is_mapping e = true) elements
      /\ exists new,
           out = results ++ new
           /\ length new = length elements
           /\ forall j e, elements !! j = Some e ->
                exists r, new !! j = Some r
                          /\ validate_element self e checks (times (i + j)) = Ok r
  | Raise _ => Exists (fun e => attributes_is_mapping e = false) elements
  end.
Proof.
  revert i results. induction elements as [|e elements IH]; intros i results.
  - simpl. split; [constructor|]. exists []. by rewrite app_nil_r.
  - cbn [validate_page_elements_from].
    destruct (validate_element self e checks (times i)) as [r|x] eqn:E; simpl.
    + specialize (IH (S i) (results ++ [r])).
      destruct (validate_page_elements_from _ _ _ _ _ _) as [out|y].
      * destruct IH as (Hall & new & -> & Hlen & Hnth). split.
        { constructor; [|done]. by apply validate_element_Ok in E as (? & _). }
        exists (r :: new). split; [by rewrite -app_assoc|]. split; [by rewrite /= Hlen|].
        intros [|j] e' He'; simpl in *.
        { injection He' as <-. exists r. by rewrite Nat.add_0_r. }
        destruct (Hnth j e' He') as (r' & Hr' & Hv). exists r'.
        split; [done|]. by rewrite Nat.add_succ_r.
      * by apply Exists_cons_tl.
    + apply Exists_cons_hd. by eapply validate_element_Raise.
Qed.

(** X1. A batch returns exactly when the [attributes] field of every element
    is absent or a dict; it then holds one result per element, in the order
    of the elements, each the result of [validate_element] on its element.
    One element whose [attributes] is not a dict makes the whole batch
    raise. *)
Theorem validate_page_elements_all_or_nothing self elements checks times :
  match validate_page_elements self elements checks times with
  | Ok results =>
      Forall (fun e => attributes_is_mapping e = true) elements
      /\ length results = length elements
      /\ forall j e, elements !! j = Some e ->
           exists r, results !! j = Some r
                     /\ validate_element self e checks (times j) = Ok r
  | Raise _ => Exists (fun e => attributes_is_mapping e = false) elements
  end.
Proof.
  rewrite /validate_page_elements.
  pose proof (validate_page_elements_from_spec self checks times elements 0 []) as H.
  destruct (validate_page_elements_from _ _ _ _ _ _) as [out|x]; [|done].
  destruct H as (Hall & new & -> & Hlen & Hnth). by rewrite app_nil_l.
Qed.

(** ** Assignment and lookup *)

Lemma assoc_get_set_eq {A} (l : list (string * A)) k v :
  assoc_get (assoc_set l k v) k = Some v.
Proof.
  induction l as [|[k' v'] l IH]; simpl.
  - by rewrite String.eqb_refl.
  - destruct (String.eqb k' k) eqn:E; simpl; by rewrite ?String.eqb_refl ?E.
Qed.

Lemma assoc_get_set_ne {A} (l : list (string * A)) k k' v :
  k <> k' -> assoc_get (assoc_set l k v) k' = assoc_get l k'.
Proof.
  intros Hne. induction l as [|[k0 v0] l IH]; simpl.
  - by apply String.eqb_neq in Hne as ->.
  - destruct (String.eqb_spec k0 k) as [->|Hk0]; simpl.
    + by apply String.eqb_neq in Hne as ->.
    + by rewrite IH.
Qed.

(** ** Requests made of several lists of checks *)

Lemma validate_element_selector self e checks t r :
  validate_element self e checks t = Ok r ->
  result_selector r = default (VStr "unknown") (dict_get e "css_selector").
Proof.
  rewrite /validate_element. destruct (run_checks _ _ _) as [found performed].
  destruct (dict_get e "attributes") as [[]|]; simpl; intros H; by inversion H.
Qed.

(** X2. Requesting the checks [l1 ++ l2] gives the issues and the performed
    checks of the request [l1] followed by those of the request [l2], and
    the result passes exactly when both parts pass. *)
Theorem validate_element_concat self e l1 l2 t r1 r2 :
  validate_element self e (Some l1) t = Ok r1 ->
  validate_element self e (Some l2) t = Ok r2 ->
  exists r,
    validate_element self e (Some (l1 ++ l2)) t = Ok r
    /\ issues r = issues r1 ++ issues r2
    /\ checks_performed r = checks_performed r1 ++ checks_performed r2
    /\ passed r = passed r1 && passed r2.
Proof.
  intros H1 H2.
  apply validate_element_Ok in H1 as (Hm & Hi1 & Hp1 & Hpass1).
  apply validate_element_Ok in H2 as (_ & Hi2 & Hp2 & Hpass2).
  destruct (validate_element_returns self e (Some (l1 ++ l2)) t Hm) as [r Hr].
  exists r. split; [done|].
  apply validate_element_Ok in Hr as (_ & Hi & Hp & Hpass). simpl in *.
  rewrite flat_map_app -Hi1 -Hi2 in Hi. rewrite filter_app -Hp1 -Hp2 in Hp.
  split; [done|]. split; [done|].
  rewrite Hpass Hpass1 Hpass2 Hi filter_app length_app.
  by destruct (length _), (length _).
Qed.

Lemma validate_element_concat_witness :
  exists r,
    validate_element (__init__ None) img_without_attributes
      (Some (["accessibility_basic"] ++ ["image_validation"])) 0 = Ok r
    /\ length (issues r) = 3.
Proof.
  destruct (validate_element_concat (__init__ None) img_without_attributes
              ["accessibility_basic"] ["image_validation"] 0 _ _ eq_refl eq_refl)
    as (r & Hr & Hi & _).
  exists r. split; [exact Hr|]. by rewrite Hi.
Defined.

(** ** What the issues of a result look like *)

Lemma Forall_built_snoc selector kinds found issue :
  Forall (issue_built_for selector kinds) found ->
  issue_built_for selector kinds issue ->
  Forall (issue_built_for selector kinds) (found ++ [issue]).
Proof. intros Hf Hi. apply Forall_app. split; [done|]. by constructor. Qed.

Lemma aria_loop_built kinds selector items found :
  ("empty_aria_attribute", MEDIUM, ACCESSIBILITY) ∈ kinds ->
  Forall (issue_built_for selector kinds) found ->
  ensures (Forall (issue_built_for selector kinds)) (aria_loop selector items found).
Proof.
  intros Hty. revert found.
  induction items as [|[k v] items IH]; intros found Hf; simpl.
  - by apply ensures_Ok.
  - destruct (str_startswith k "aria-"); [|by apply IH].
    apply (ensures_bind (fun _ => True)); [apply ensures_any|intros s _].
    apply IH. destruct (negb (str_bool s)); [|done].
    by apply Forall_built_snoc.
Qed.

(** One step through the body of a rule, carrying what is known of the
    issues collected so far. *)
Ltac built_step :=
  match goal with
  | |- ensures _ (mret _) => apply ensures_Ok
  | |- ensures _ (Ok _) => apply ensures_Ok
  | |- ensures _ (if ?c then _ else _) => destruct c
  | |- ensures (Forall (issue_built_for _ _)) (aria_loop _ _ _) =>
      apply aria_loop_built; [by repeat constructor|]
  | |- ensures (Forall ?P) (@mbind _ _ (list ValidationIssue) _ _ _) =>
      apply (ensures_bind (Forall P)); [|intros ? ?]
  | |- ensures _ (mbind _ _) =>
      apply (ensures_bind (fun _ => True)); [apply ensures_any|intros ? _]
  | |- Forall _ (if ?c then _ else _) => destruct c
  | |- Forall (issue_built_for _ _) (_ ++ [_]) =>
      apply Forall_built_snoc;
      [|split; [reflexivity|split; [reflexivity|by repeat constructor]]]
  | |- Forall _ [] => by constructor
  | |- Forall _ _ => assumption
  end.

Ltac rule_built r :=
  match goal with
  | |- context [kinds_of ?n] =>
      let ks := eval vm_compute in (kinds_of n) in change (kinds_of n) with ks
  end;
  rewrite /r; cbv zeta; repeat built_step.

Lemma registered_rule_built cfg e name check :
  assoc_get (_load_validation_rules cfg) name = Some check ->
  ensures (Forall (issue_built_for (default (VStr "unknown") (dict_get e "css_selector"))
                                   (kinds_of name)))
          (check e).
Proof.
  revert name check.
  apply (named_rule_ind
           (fun name check =>
              ensures (Forall (issue_built_for
                                 (default (VStr "unknown") (dict_get e "css_selector"))
                                 (kinds_of name))) (check e))).
  - rule_built _check_accessibility_basic.
  - rule_built _check_accessibility_advanced.
  - rule_built _check_form_elements.
  - rule_built _check_links.
  - rule_built _check_images.
  - rule_built _check_interactive_elements.
  - rule_built _check_text_content.
  - rule_built _check_visual_layout.
  - rule_built _check_performance_indicators.
Qed.

(** The issues one requested name adds, for the registered rules. *)
Lemma check_issues_built cfg e name :
  Forall (issue_built_for (default (VStr "unknown") (dict_get e "css_selector"))
                          (kinds_of name))
         (check_issues (__init__ cfg) e name).
Proof.
  rewrite /check_issues validation_rules_any_config.
  destruct (assoc_get _ name) as [check|] eqn:Hreg; [|by constructor].
  destruct (check e) as [found|x] eqn:Hok; [|by constructor].
  by eapply registered_rule_built.
Qed.

Lemma Forall_flat_map {A B} (P : B -> Prop) (f : A -> list B) (l : list A) :
  (forall a, a ∈ l -> Forall P (f a)) -> Forall P (flat_map f l).
Proof.
  induction l as [|a l IH]; intros H; simpl; [constructor|].
  apply Forall_app. split; [apply H; by left|].
  apply IH. intros a' Ha'. apply H. by right.
Qed.

Lemma kinds_of_all name : kinds_of name ⊆ all_issue_kinds.
Proof.
  intros kind. rewrite /kinds_of.
  destruct (assoc_get rule_issue_kinds name) as [ks|] eqn:Hks;
    [|by intros ?%elem_of_nil].
  simpl. intros Hin. rewrite /all_issue_kinds.
  apply list_elem_of_In, in_flat_map. exists (name, ks). split.
  - clear -Hks. revert Hks. rewrite /rule_issue_kinds /assoc_get.
    repeat (case: (String.eqb_spec _ name);
            [intros <- [= <-]; by repeat (first [left; reflexivity | right])|intros _]).
    done.
  - by apply list_elem_of_In.
Qed.

Lemma result_issues_built cfg e checks t r :
  validate_element (__init__ cfg) e checks t = Ok r ->
  Forall (issue_built_for (result_selector r) all_issue_kinds) (issues r).
Proof.
  intros E. pose proof (validate_element_selector _ _ _ _ _ E) as ->.
  apply validate_element_Ok in E as (_ & -> & _ & _).
  apply Forall_flat_map. intros name _.
  eapply Forall_impl; [apply check_issues_built|].
  intros issue (Hs & Hi & Hk). split; [done|]. split; [done|].
  by apply (kinds_of_all name).
Qed.

(** X3. Every issue in a result of the validator carries the selector of
    the result, carries no element info, and its type, severity and category
    are one of the sixteen combinations the rules construct; so no issue is
    ever critical or info. *)
Theorem issues_are_of_the_sixteen_kinds cfg e checks t :
  match validate_element (__init__ cfg) e checks t with
  | Ok r =>
      Forall (issue_built_for (result_selector r) all_issue_kinds) (issues r)
      /\ Forall (fun issue => severity issue ∈ [HIGH; MEDIUM; LOW]) (issues r)
  | Raise _ => attributes_is_mapping e = false
  end.
Proof.
  destruct (validate_element _ _ _ _) as [r|x] eqn:E;
    [|by eapply validate_element_Raise].
  pose proof (result_issues_built _ _ _ _ _ E) as Hall.
  split; [done|].
  eapply Forall_impl; [exact Hall|]. intros issue (_ & _ & Hk). revert Hk.
  rewrite /all_issue_kinds /issue_summary /= !elem_of_cons elem_of_nil.
  intros H. repeat (destruct H as [[= _ -> _]|H]; [by repeat constructor|]). done.
Qed.

(** ** Which elements can fail *)

Lemma validate_element_passed_consistent self e checks t r :
  validate_element self e checks t = Ok r -> passed_consistent r.
Proof.
  intros (_ & _ & _ & Hp)%validate_element_Ok.
  rewrite /passed_consistent Hp Nat.eqb_eq length_zero_iff_nil filter_nil_iff.
  split; intros H issue Hin Hb; apply (H issue Hin); by apply blocking_iff.
Qed.

Lemma passed_false_iff r :
  passed_consistent r ->
  passed r = false <-> exists issue, issue ∈ issues r /\ blocking issue.
Proof.
  intros Hc. split.
  - intros Hf.
    destruct (decide (Exists (fun i => severity i ∈ [CRITICAL; HIGH]) (issues r)))
      as [Hex|Hnex].
    + apply Exists_exists in Hex as (issue & Hin & Hb).
      exists issue. split; [done|]. by apply blocking_iff.
    + assert (passed r = true) as Ht; [|congruence].
      apply Hc. intros issue Hin Hb. apply Hnex, Exists_exists.
      exists issue. split; [done|]. by apply blocking_iff.
  - intros (issue & Hin & Hb). destruct (passed r) eqn:Hp; [|done].
    exfalso. by apply (proj1 Hc Hp issue Hin).
Qed.

Lemma kind_blocking issue :
  issue_summary issue ∈ all_issue_kinds ->
  blocking issue <->
  issue_type issue = "missing_alt_text"
  \/ issue_type issue = "button_no_accessible_name"
  \/ issue_type issue = "empty_link".
Proof.
  rewrite /all_issue_kinds /issue_summary /blocking /= !elem_of_cons elem_of_nil.
  intros H.
  repeat (destruct H as [[= -> -> _]|H];
          [split; [intros [[=]|[=]]|intros [[=]|[[=]|[=]]]]; auto|]).
  done.
Qed.

(** X4. A result of the validator fails exactly when it holds an issue of
    one of three types: missing_alt_text, button_no_accessible_name or
    empty_link. *)
Theorem fails_iff_one_of_three_issues cfg e checks t :
  match validate_element (__init__ cfg) e checks t with
  | Ok r =>
      passed r = false <->
      emits "missing_alt_text" (issues r)
      \/ emits "button_no_accessible_name" (issues r)
      \/ emits "empty_link" (issues r)
  | Raise _ => attributes_is_mapping e = false
  end.
Proof.
  destruct (validate_element _ _ _ _) as [r|x] eqn:E;
    [|by eapply validate_element_Raise].
  pose proof (validate_element_passed_consistent _ _ _ _ _ E) as Hc.
  apply passed_false_iff in Hc. rewrite Hc. clear Hc.
  assert (forall issue, issue ∈ issues r -> issue_summary issue ∈ all_issue_kinds) as Hk.
  { pose proof (result_issues_built _ _ _ _ _ E) as Hall.
    rewrite Forall_forall in Hall. intros issue Hin. by apply Hall. }
  rewrite /emits. split.
  - intros (issue & Hin & Hb). apply kind_blocking in Hb; [|by apply Hk].
    destruct Hb as [Hty|[Hty|Hty]]; eauto 6.
  - intros [(issue & Hin & Hty)|[(issue & Hin & Hty)|(issue & Hin & Hty)]];
      exists issue; (split; [done|]); apply kind_blocking; auto.
Qed.

Lemma not_four_tags tag :
  str_in tag ["img"; "button"; "input"; "a"] = false ->
  String.eqb tag "img" = false /\ String.eqb tag "button" = false
  /\ String.eqb tag "input" = false /\ String.eqb tag "a" = false.
Proof.
  rewrite /str_in /=.
  intros [? [? [? [? _]%orb_false_elim]%orb_false_elim]%orb_false_elim]%orb_false_elim.
  done.
Qed.

Lemma other_tags_no_blocking cfg e name check found :
  (forall tag,
      py_lower (default (VStr "") (dict_get e "tag_name")) = Ok tag ->
      str_in tag ["img"; "button"; "input"; "a"] = false) ->
  assoc_get (_load_validation_rules cfg) name = Some check ->
  check e = Ok found ->
  forall issue, issue ∈ found -> ~ blocking issue.
Proof.
  intros Htag Hreg. revert found.
  assert (forall found,
             Forall (issue_built_for (default (VStr "unknown") (dict_get e "css_selector"))
                                     (kinds_of name)) found ->
             name <> "accessibility_basic" -> name <> "link_validation" ->
             forall issue, issue ∈ found -> ~ blocking issue) as Hkinds.
  { intros found Hall Hn1 Hn2 issue Hin. rewrite Forall_forall in Hall.
    destruct (Hall issue Hin) as (_ & _ & Hk). revert Hk. clear -Hreg Hn1 Hn2.
    revert name check Hreg Hn1 Hn2.
    apply (named_rule_ind
             (fun name _ => name <> "accessibility_basic" -> name <> "link_validation" ->
                            issue_summary issue ∈ kinds_of name -> ~ blocking issue));
      intros Hn1 Hn2; try done;
      rewrite /kinds_of /issue_summary /blocking /= !elem_of_cons elem_of_nil;
      intros H; repeat (destruct H as [[= _ -> _]|H]; [by intros [|]|]); done. }
  pose proof (registered_rule_built cfg e name check Hreg) as Hbuilt.
  revert name check Hreg Hkinds Hbuilt.
  apply (named_rule_ind
           (fun name check =>
              (forall found, Forall _ found -> name <> "accessibility_basic" ->
                             name <> "link_validation" -> _) ->
              ensures _ (check e) ->
              forall found, check e = Ok found ->
                            forall issue, issue ∈ found -> ~ blocking issue));
    intros Hkinds Hbuilt found Hok;
    try (apply Hkinds; [by apply Hbuilt|done|done]);
    clear Hkinds Hbuilt; revert Hok.
  - rewrite /_check_accessibility_basic.
    destruct (py_lower _) as [tag|x] eqn:Ht; [|done].
    destruct (not_four_tags tag (Htag tag eq_refl)) as (Himg & Hbutton & Hinput & _).
    rewrite /= Himg Hinput Hbutton /=. intros [= <-] issue Hin.
    by apply elem_of_nil in Hin.
  - rewrite /_check_links.
    destruct (py_lower _) as [tag|x] eqn:Ht; [|done].
    destruct (not_four_tags tag (Htag tag eq_refl)) as (_ & _ & _ & Ha).
    rewrite /= Ha. intros [= <-] issue Hin. by apply elem_of_nil in Hin.
Qed.

(** X5. Only an image, a button, an input or a link can fail: when the
    lower-cased tag of an element is none of img, button, input, a (or the
    tag is absent), every result for it has passed = true, whatever else the
    rules find. *)
Theorem only_four_tags_can_fail cfg e checks t :
  (forall tag,
      py_lower (default (VStr "") (dict_get e "tag_name")) = Ok tag ->
      str_in tag ["img"; "button"; "input"; "a"] = false) ->
  match validate_element (__init__ cfg) e checks t with
  | Ok r => passed r = true
  | Raise _ => attributes_is_mapping e = false
  end.
Proof.
  intros Htag.
  destruct (validate_element _ _ _ _) as [r|x] eqn:E;
    [|by eapply validate_element_Raise].
  apply (validate_element_passed_consistent _ _ _ _ _ E).
  apply validate_element_Ok in E as (_ & -> & _ & _).
  intros issue (name & _ & Hin)%list_elem_of_In%in_flat_map.
  apply list_elem_of_In in Hin. revert Hin.
  rewrite /check_issues validation_rules_any_config.
  destruct (assoc_get _ name) as [check|] eqn:Hreg; [|by intros ?%elem_of_nil].
  destruct (check e) as [found|x] eqn:Hok; [|by intros ?%elem_of_nil].
  intros Hin. by eapply other_tags_no_blocking.
Qed.

(** X5 at a div with an inline style, an empty aria attribute and a place
    far off screen: three issues, and passed. *)
Lemma only_four_tags_can_fail_witness :
  match validate_element (__init__ None) cluttered_div None 0 with
  | Ok r => passed r = true
  | Raise _ => attributes_is_mapping cluttered_div = false
  end.
Proof.
  apply (only_four_tags_can_fail None cluttered_div None 0).
  intros tag [= <-]. reflexivity.
Defined.

(** ** What the rules read of an element *)

Section read_fields.
Variables (cfg e e' : dict).
Hypothesis Hagree : agree_on read_fields e e'.

Lemma agree_on_read_fields :
  dict_get e "tag_name" = dict_get e' "tag_name"
  /\ dict_get e "attributes" = dict_get e' "attributes"
  /\ dict_get e "text_content" = dict_get e' "text_content"
  /\ dict_get e "css_selector" = dict_get e' "css_selector"
  /\ dict_get e "bounding_rect" = dict_get e' "bounding_rect"
  /\ dict_get e "is_visible" = dict_get e' "is_visible".
Proof.
  revert Hagree. rewrite /agree_on /read_fields !Forall_cons. tauto.
Qed.

Lemma registered_rule_agree name check :
  assoc_get (_load_validation_rules cfg) name = Some check ->
  check e = check e'.
Proof.
  destruct agree_on_read_fields as (Ht & Ha & Hx & Hs & Hb & Hv).
  revert name check.
  apply (named_rule_ind (fun _ check => check e = check e'));
    rewrite /_check_accessibility_basic /_check_accessibility_advanced
      /_check_form_elements /_check_links /_check_images
      /_check_interactive_elements /_check_text_content /_check_visual_layout
      /_check_performance_indicators ?Ht ?Ha ?Hx ?Hs ?Hb ?Hv; reflexivity.
Qed.
End read_fields.

(** X6. The engine and the rules read six keys of an element only: tag_name,
    attributes, text_content, css_selector, bounding_rect and is_visible.
    Two elements that agree on these six get the same result, whatever their
    other keys (inner_html, xpath, is_enabled, parent_info, ...) hold. *)
Theorem only_six_fields_are_read cfg e e' checks t :
  agree_on read_fields e e' ->
  validate_element (__init__ cfg) e checks t = validate_element (__init__ cfg) e' checks t.
Proof.
  intros Hagree.
  destruct (agree_on_read_fields e e' Hagree) as (Ht & Ha & _ & Hs & _ & _).
  assert (run_checks (__init__ cfg) e (effective_checks (__init__ cfg) checks)
          = run_checks (__init__ cfg) e' (effective_checks (__init__ cfg) checks)) as Hrun.
  { rewrite !run_checks_eq. f_equal.
    - apply flat_map_ext. intros n. rewrite /check_issues validation_rules_any_config.
      destruct (assoc_get _ n) as [check|] eqn:E; [|done].
      by rewrite (registered_rule_agree _ e e' Hagree _ _ E).
    - apply list_filter_iff. intros n. rewrite /check_succeeds validation_rules_any_config.
      destruct (assoc_get _ n) as [check|] eqn:E; [|done].
      by rewrite (registered_rule_agree _ e e' Hagree _ _ E). }
  rewrite /validate_element. fold (effective_checks (__init__ cfg) checks).
  by rewrite Hrun Ht Ha Hs.
Qed.

(** X6 at the cluttered div and the same div without its inner_html and
    children_count. *)
Lemma only_six_fields_are_read_witness :
  validate_element (__init__ None) cluttered_div None 0
  = validate_element (__init__ None)
      [ ("tag_name", VStr "DIV");
        ("css_selector", VStr "div.banner");
        ("attributes", VDict [ ("style", VStr "top: 0"); ("aria-hidden", VStr " ") ]);
        ("bounding_rect", VDict [ ("x", VNum (-500)) ]) ] None 0.
Proof.
  apply (only_six_fields_are_read None). rewrite /agree_on /read_fields.
  repeat (constructor; [reflexivity|]). constructor.
Defined.

(** ** The tag *)

Section tag_case.
Variables (cfg e : dict) (s s' : string).
Hypothesis Hlower : str_lower s = str_lower s'.

Lemma registered_rule_tag_case name check :
  assoc_get (_load_validation_rules cfg) name = Some check ->
  check (dict_set e "tag_name" (VStr s)) = check (dict_set e "tag_name" (VStr s')).
Proof.
  assert (forall v k, "tag_name" <> k ->
                      dict_get (dict_set e "tag_name" v) k = dict_get e k) as Hne.
  { intros v k Hk. by apply assoc_get_set_ne. }
  assert (forall v, dict_get (dict_set e "tag_name" v) "tag_name" = Some v) as Heq.
  { intros v. apply assoc_get_set_eq. }
  revert name check.
  apply (named_rule_ind
           (fun _ check => check (dict_set e "tag_name" (VStr s))
                           = check (dict_set e "tag_name" (VStr s'))));
    rewrite /_check_accessibility_basic /_check_accessibility_advanced
      /_check_form_elements /_check_links /_check_images
      /_check_interactive_elements /_check_text_content /_check_visual_layout
      /_check_performance_indicators ?Heq
      ?(Hne _ "attributes") ?(Hne _ "text_content") ?(Hne _ "css_selector")
      ?(Hne _ "bounding_rect") ?(Hne _ "is_visible") //;
    cbn [default from_option id py_lower mbind outcome_bind]; by rewrite ?Hlower.
Qed.
End tag_case.

(** X7. The rules see the tag through its lower-cased form only.  For
    two elements that differ in the letter case of the tag alone, every
    registered rule gives the same outcome, the loop over any checks gives
    the same issues and the same performed checks, and [validate_element]
    gives the same outcome: both calls raise the same exception, or both
    return, with the same issues, the same performed checks, the same
    [passed] flag and the same selector. *)
Theorem tag_case_is_ignored cfg e s s' checks t :
  str_lower s = str_lower s' ->
  let e1 := dict_set e "tag_name" (VStr s) in
  let e2 := dict_set e "tag_name" (VStr s') in
  (forall name check,
      assoc_get (validation_rules (__init__ cfg)) name = Some check ->
      check e1 = check e2)
  /\ (forall cs, run_checks (__init__ cfg) e1 cs = run_checks (__init__ cfg) e2 cs)
  /\ match validate_element (__init__ cfg) e1 checks t,
           validate_element (__init__ cfg) e2 checks t with
     | Ok r1, Ok r2 =>
         issues r1 = issues r2
         /\ checks_performed r1 = checks_performed r2
         /\ passed r1 = passed r2
         /\ result_selector r1 = result_selector r2
     | Raise x1, Raise x2 => x1 = x2
     | _, _ => False
     end.
Proof.
  intros Hlower e1 e2.
  assert (forall name check,
             assoc_get (validation_rules (__init__ cfg)) name = Some check ->
             check e1 = check e2) as Hrules.
  { rewrite validation_rules_any_config. intros name check.
    by apply registered_rule_tag_case. }
  assert (forall cs, run_checks (__init__ cfg) e1 cs = run_checks (__init__ cfg) e2 cs)
    as Hrun.
  { intros cs. rewrite !run_checks_eq. f_equal.
    - apply flat_map_ext. intros n. rewrite /check_issues.
      destruct (assoc_get _ n) as [check|] eqn:E; [|done].
      by rewrite (Hrules _ _ E).
    - apply list_filter_iff. intros n. rewrite /check_succeeds.
      destruct (assoc_get _ n) as [check|] eqn:E; [|done].
      by rewrite (Hrules _ _ E). }
  split; [exact Hrules|]. split; [exact Hrun|].
  assert (forall v k, "tag_name" <> k ->
                      dict_get (dict_set e "tag_name" v) k = dict_get e k) as Hne.
  { intros v k Hk. by apply assoc_get_set_ne. }
  rewrite /validate_element Hrun.
  destruct (run_checks _ e2 _) as [found performed].
  rewrite /e1 /e2 !(Hne _ "attributes") // !(Hne _ "css_selector") //.
  destruct (py_get _ "id") as [element_id|x]; simpl; [|done].
  by destruct (py_get _ "class") as [element_classes|x]; simpl.
Qed.

(** X7 at an image written IMG and written Img. *)
Lemma tag_case_is_ignored_witness :
  _check_images _get_default_config
    (dict_set img_without_attributes "tag_name" (VStr "IMG"))
  = _check_images _get_default_config
      (dict_set img_without_attributes "tag_name" (VStr "Img"))
  /\ run_checks (__init__ None) (dict_set img_without_attributes "tag_name" (VStr "IMG"))
       default_check_names
     = run_checks (__init__ None) (dict_set img_without_attributes "tag_name" (VStr "Img"))
         default_check_names.
Proof.
  destruct (tag_case_is_ignored None img_without_attributes "IMG" "Img" None 0 eq_refl)
    as (Hrules & Hrun & _).
  split; [|apply Hrun].
  by apply (Hrules "image_validation").
Defined.

Lemma non_string_tag_raises cfg e v name check :
  dict_get e "tag_name" = Some v ->
  is_str v = false ->
  assoc_get (_load_validation_rules cfg) name = Some check ->
  name <> "text_content" -> name <> "visual_layout" ->
  check e = Raise AttributeError.
Proof.
  intros Htag Hv. revert name check.
  apply (named_rule_ind
           (fun name check => name <> "text_content" -> name <> "visual_layout" ->
                              check e = Raise AttributeError));
    intros ? ?; try done;
    rewrite /_check_accessibility_basic /_check_accessibility_advanced
      /_check_form_elements /_check_links /_check_images
      /_check_interactive_elements /_check_performance_indicators Htag;
    by destruct v.
Qed.

(** X8. When the tag of an element is present but is not a str (None, a
    number, ...), the seven rules that lower-case the tag raise
    AttributeError and are skipped: only text_content and visual_layout can
    be performed, and the result has passed = true. *)
Theorem non_string_tag_leaves_two_rules cfg e v checks t :
  dict_get e "tag_name" = Some v ->
  is_str v = false ->
  (forall name check,
      assoc_get (validation_rules (__init__ cfg)) name = Some check ->
      name <> "text_content" -> name <> "visual_layout" ->
      check e = Raise AttributeError)
  /\ match validate_element (__init__ cfg) e checks t with
     | Ok r =>
         (forall n, n ∈ checks_performed r -> n = "text_content" \/ n = "visual_layout")
         /\ passed r = true
     | Raise _ => attributes_is_mapping e = false
     end.
Proof.
  intros Htag Hv. rewrite validation_rules_any_config.
  split; [intros name check; by eapply non_string_tag_raises|].
  destruct (validate_element _ _ _ _) as [r|x] eqn:E;
    [|by eapply validate_element_Raise].
  pose proof (validate_element_passed_consistent _ _ _ _ _ E) as Hc.
  apply validate_element_Ok in E as (_ & Hi & Hp & _). split.
  - intros n. rewrite Hp list_elem_of_filter /check_succeeds validation_rules_any_config.
    destruct (assoc_get _ n) as [check|] eqn:Hreg; [|by intros [? _]].
    destruct (decide (n = "text_content")) as [|Hn1]; [auto|].
    destruct (decide (n = "visual_layout")) as [|Hn2]; [auto|].
    by rewrite (non_string_tag_raises _ _ _ _ _ Htag Hv Hreg Hn1 Hn2); intros [? _].
  - apply Hc. rewrite Hi.
    intros issue (name & _ & Hin)%list_elem_of_In%in_flat_map.
    apply list_elem_of_In in Hin. revert Hin.
    rewrite /check_issues validation_rules_any_config.
    destruct (assoc_get _ name) as [check|] eqn:Hreg; [|by intros ?%elem_of_nil].
    destruct (check e) as [found|x] eqn:Hok; [|by intros ?%elem_of_nil].
    intros Hin. eapply other_tags_no_blocking; [|done..].
    intros tag. rewrite Htag /=. by destruct v.
Qed.

(** X8 at the element whose tag is None. *)
Lemma non_string_tag_leaves_two_rules_witness :
  match validate_element (__init__ None) element_with_tag_None None 0 with
  | Ok r =>
      (forall n, n ∈ checks_performed r -> n = "text_content" \/ n = "visual_layout")
      /\ passed r = true
  | Raise _ => attributes_is_mapping element_with_tag_None = false
  end.
Proof.
  apply (non_string_tag_leaves_two_rules None element_with_tag_None VNone None 0);
    reflexivity.
Defined.

(** * Further properties of the aggregator *)

(** ** The cells of the two histograms *)

Lemma count_severity_cons k issue l :
  count_severity k (issue :: l)
  = ((if bool_decide (ValidationSeverity_value (severity issue) = k) then 1 else 0)
     + count_severity k l)%Z.
Proof.
  rewrite /count_severity filter_cons.
  destruct (decide (ValidationSeverity_value (severity issue) = k)) as [H|H].
  - rewrite bool_decide_eq_true_2 //=. lia.
  - by rewrite bool_decide_eq_false_2.
Qed.

Lemma count_category_cons k issue l :
  count_category k (issue :: l)
  = ((if bool_decide (ValidationCategory_value (category issue) = k) then 1 else 0)
     + count_category k l)%Z.
Proof.
  rewrite /count_category filter_cons.
  destruct (decide (ValidationCategory_value (category issue) = k)) as [H|H].
  - rewrite bool_decide_eq_true_2 //=. lia.
  - by rewrite bool_decide_eq_false_2.
Qed.

Lemma count_severity_app k l1 l2 :
  count_severity k (l1 ++ l2) = (count_severity k l1 + count_severity k l2)%Z.
Proof. rewrite /count_severity filter_app length_app. lia. Qed.

Lemma count_category_app k l1 l2 :
  count_category k (l1 ++ l2) = (count_category k l1 + count_category k l2)%Z.
Proof. rewrite /count_category filter_app length_app. lia. Qed.

Lemma count_severity_nonneg k l : (0 <= count_severity k l)%Z.
Proof. rewrite /count_severity. lia. Qed.

Lemma count_category_nonneg k l : (0 <= count_category k l)%Z.
Proof. rewrite /count_category. lia. Qed.

Lemma foldl_count_issue_cells l sev cat k :
  default 0%Z ((foldl count_issue (sev, cat) l).1 !! k)
    = (default 0 (sev !! k) + count_severity k l)%Z
  /\ default 0%Z ((foldl count_issue (sev, cat) l).2 !! k)
    = (default 0 (cat !! k) + count_category k l)%Z.
Proof.
  revert sev cat. induction l as [|issue l IH]; intros sev cat.
  - rewrite /count_severity /count_category /=. lia.
  - cbn [foldl count_issue].
    destruct (IH (<[ValidationSeverity_value (severity issue) :=
                     (default 0 (sev !! ValidationSeverity_value (severity issue)) + 1)%Z]> sev)
                 (<[ValidationCategory_value (category issue) :=
                     (default 0 (cat !! ValidationCategory_value (category issue)) + 1)%Z]> cat))
      as [-> ->].
    rewrite !histogram_incr_lookup count_severity_cons count_category_cons. lia.
Qed.

Lemma positive_cells_incr h k :
  positive_cells h -> positive_cells (<[k := (default 0 (h !! k) + 1)%Z]> h).
Proof.
  intros Hpos k' n. destruct (decide (k = k')) as [<-|Hne].
  - rewrite lookup_insert_eq. intros [= <-].
    destruct (h !! k) as [m|] eqn:Hm; simpl; [|lia].
    specialize (Hpos k m Hm). lia.
  - rewrite lookup_insert_ne //. apply Hpos.
Qed.

Lemma foldl_count_issue_positive l sev cat :
  positive_cells sev -> positive_cells cat ->
  positive_cells (foldl count_issue (sev, cat) l).1
  /\ positive_cells (foldl count_issue (sev, cat) l).2.
Proof.
  revert sev cat. induction l as [|issue l IH]; intros sev cat Hs Hc; [done|].
  cbn [foldl count_issue]. apply IH; by apply positive_cells_incr.
Qed.

(** A cell exists exactly for a count that is not zero. *)
Lemma cell_of_count (h : gmap string Z) k (c : Z) :
  positive_cells h -> default 0%Z (h !! k) = c ->
  h !! k = if bool_decide (c = 0%Z) then None else Some c.
Proof.
  intros Hpos Hc. destruct (h !! k) as [n|] eqn:Hn; simpl in Hc; subst c.
  - specialize (Hpos k n Hn). rewrite bool_decide_eq_false_2 //. lia.
  - by rewrite bool_decide_eq_true_2.
Qed.

(** The summary, with the two loops written out. *)
Lemma get_validation_summary_eq results :
  let all_issues := flat_map issues results in
  let hists := foldl count_issue (∅, ∅) all_issues in
  get_validation_summary results =
  {| total_elements := Z.of_nat (length results);
     passed_elements := Z.of_nat (length (filter (fun r => passed r = true) results));
     failed_elements :=
       (Z.of_nat (length results)
        - Z.of_nat (length (filter (fun r => passed r = true) results)))%Z;
     pass_rate :=
       if (0 <? Z.of_nat (length results))%Z
       then (inject_Z (Z.of_nat (length (filter (fun r => passed r = true) results)))
             / inject_Z (Z.of_nat (length results)) * 100)%Q
       else 0%Q;
     total_issues := Z.of_nat (length all_issues);
     issues_by_severity := hists.1;
     issues_by_category := hists.2;
     critical_issues := default 0%Z (hists.1 !! "critical");
     high_issues := default 0%Z (hists.1 !! "high") |}.
Proof.
  rewrite /get_validation_summary foldl_extend_issues app_nil_l /=.
  by destruct (foldl count_issue (∅, ∅) (flat_map issues results)).
Qed.

Lemma summary_cells results k :
  let s := get_validation_summary results in
  let all_issues := flat_map issues results in
  issues_by_severity s !! k
    = (if bool_decide (count_severity k all_issues = 0%Z) then None
       else Some (count_severity k all_issues))
  /\ issues_by_category s !! k
    = (if bool_decide (count_category k all_issues = 0%Z) then None
       else Some (count_category k all_issues)).
Proof.
  rewrite get_validation_summary_eq /=.
  destruct (foldl_count_issue_positive (flat_map issues results) ∅ ∅) as [Hs Hc];
    [by intros ? ? ?%lookup_empty_Some..|].
  destruct (foldl_count_issue_cells (flat_map issues results) ∅ ∅ k) as [Hsk Hck].
  rewrite lookup_empty /= in Hsk, Hck.
  split; by apply cell_of_count.
Qed.

Lemma count_severity_value sv l :
  count_severity (ValidationSeverity_value sv) l
  = Z.of_nat (length (filter (fun i => severity i = sv) l)).
Proof.
  rewrite /count_severity. f_equal. f_equal. apply list_filter_iff.
  intros issue. split; [|by intros ->].
  by destruct (severity issue), sv.
Qed.

Lemma count_category_value c l :
  count_category (ValidationCategory_value c) l
  = Z.of_nat (length (filter (fun i => category i = c) l)).
Proof.
  rewrite /count_category. f_equal. f_equal. apply list_filter_iff.
  intros issue. split; [|by intros ->].
  by destruct (category issue), c.
Qed.

(** X9. A cell of the severity (category) histogram exists exactly for a
    severity (category) that some issue has, and holds the number of issues
    with it: no cell holds zero, and no cell exists under any other key.
    [critical_issues] and [high_issues] are the numbers of critical and of
    high issues, and [total_issues] is the number of all issues. *)
Theorem histogram_cells_count_issues results :
  let s := get_validation_summary results in
  let all_issues := flat_map issues results in
  (forall k n,
      issues_by_severity s !! k = Some n <->
      n <> 0%Z /\ exists sv, k = ValidationSeverity_value sv
                 /\ n = Z.of_nat (length (filter (fun i => severity i = sv) all_issues)))
  /\ (forall k n,
        issues_by_category s !! k = Some n <->
        n <> 0%Z /\ exists c, k = ValidationCategory_value c
                   /\ n = Z.of_nat (length (filter (fun i => category i = c) all_issues)))
  /\ critical_issues s
     = Z.of_nat (length (filter (fun i => severity i = CRITICAL) all_issues))
  /\ high_issues s
     = Z.of_nat (length (filter (fun i => severity i = HIGH) all_issues))
  /\ total_issues s = Z.of_nat (length all_issues).
Proof.
  intros s all_issues. subst s. split; [|split; [|split; [|split]]].
  - intros k n. destruct (summary_cells results k) as [-> _]. fold all_issues.
    case_bool_decide as Hz.
    + split; [done|]. intros (Hn & sv & -> & ->).
      by rewrite count_severity_value in Hz.
    + split.
      * intros [= <-]. split; [done|].
        assert (exists issue, ValidationSeverity_value (severity issue) = k
                              /\ issue ∈ all_issues)
          as (issue & <- & _).
        { destruct (filter (fun i => ValidationSeverity_value (severity i) = k) all_issues)
            as [|issue rest] eqn:Hf; [by rewrite /count_severity Hf in Hz|].
          exists issue.
          apply (proj1 (list_elem_of_filter
                          (fun i => ValidationSeverity_value (severity i) = k)
                          all_issues issue)).
          rewrite Hf. by left. }
        exists (severity issue). split; [done|]. apply count_severity_value.
      * intros (_ & sv & -> & ->). by rewrite count_severity_value.
  - intros k n. destruct (summary_cells results k) as [_ ->]. fold all_issues.
    case_bool_decide as Hz.
    + split; [done|]. intros (Hn & c & -> & ->).
      by rewrite count_category_value in Hz.
    + split.
      * intros [= <-]. split; [done|].
        assert (exists issue, ValidationCategory_value (category issue) = k
                              /\ issue ∈ all_issues)
          as (issue & <- & _).
        { destruct (filter (fun i => ValidationCategory_value (category i) = k) all_issues)
            as [|issue rest] eqn:Hf; [by rewrite /count_category Hf in Hz|].
          exists issue.
          apply (proj1 (list_elem_of_filter
                          (fun i => ValidationCategory_value (category i) = k)
                          all_issues issue)).
          rewrite Hf. by left. }
        exists (category issue). split; [done|]. apply count_category_value.
      * intros (_ & c & -> & ->). by rewrite count_category_value.
  - rewrite get_validation_summary_eq /=.
    destruct (foldl_count_issue_cells (flat_map issues results) ∅ ∅ "critical") as [-> _].
    rewrite lookup_empty /=. apply (count_severity_value CRITICAL).
  - rewrite get_validation_summary_eq /=.
    destruct (foldl_count_issue_cells (flat_map issues results) ∅ ∅ "high") as [-> _].
    rewrite lookup_empty /=. apply (count_severity_value HIGH).
  - by rewrite get_validation_summary_eq.
Qed.

(** ** Summaries of concatenated and of reordered lists *)

Lemma summary_cell_default results k :
  let s := get_validation_summary results in
  default 0%Z (issues_by_severity s !! k) = count_severity k (flat_map issues results)
  /\ default 0%Z (issues_by_category s !! k) = count_category k (flat_map issues results).
Proof.
  rewrite get_validation_summary_eq /=.
  destruct (foldl_count_issue_cells (flat_map issues results) ∅ ∅ k) as [-> ->].
  by rewrite lookup_empty.
Qed.

(** X10. The summary of two lists of results put together adds up: the
    element counts, the issue count, the critical and high counts and every
    cell of the two histograms (an absent cell counting as zero) are the
    sums of those of the two summaries. *)
Theorem summary_of_concatenation l1 l2 :
  let s := get_validation_summary (l1 ++ l2) in
  let s1 := get_validation_summary l1 in
  let s2 := get_validation_summary l2 in
  total_elements s = (total_elements s1 + total_elements s2)%Z
  /\ passed_elements s = (passed_elements s1 + passed_elements s2)%Z
  /\ failed_elements s = (failed_elements s1 + failed_elements s2)%Z
  /\ total_issues s = (total_issues s1 + total_issues s2)%Z
  /\ critical_issues s = (critical_issues s1 + critical_issues s2)%Z
  /\ high_issues s = (high_issues s1 + high_issues s2)%Z
  /\ forall k,
       default 0%Z (issues_by_severity s !! k)
         = (default 0 (issues_by_severity s1 !! k)
            + default 0 (issues_by_severity s2 !! k))%Z
       /\ default 0%Z (issues_by_category s !! k)
         = (default 0 (issues_by_category s1 !! k)
            + default 0 (issues_by_category s2 !! k))%Z.
Proof.
  cbv zeta.
  assert (forall k,
             default 0%Z (issues_by_severity (get_validation_summary (l1 ++ l2)) !! k)
             = (default 0 (issues_by_severity (get_validation_summary l1) !! k)
                + default 0 (issues_by_severity (get_validation_summary l2) !! k))%Z
             /\ default 0%Z (issues_by_category (get_validation_summary (l1 ++ l2)) !! k)
             = (default 0 (issues_by_category (get_validation_summary l1) !! k)
                + default 0 (issues_by_category (get_validation_summary l2) !! k))%Z)
    as Hcells.
  { intros k.
    destruct (summary_cell_default (l1 ++ l2) k) as [-> ->].
    destruct (summary_cell_default l1 k) as [-> ->].
    destruct (summary_cell_default l2 k) as [-> ->].
    by rewrite flat_map_app count_severity_app count_category_app. }
  assert (forall l, critical_issues (get_validation_summary l)
                    = default 0%Z (issues_by_severity (get_validation_summary l) !! "critical")
                    /\ high_issues (get_validation_summary l)
                    = default 0%Z (issues_by_severity (get_validation_summary l) !! "high"))
    as Hconv.
  { intros l. by rewrite get_validation_summary_eq. }
  split; [|split; [|split; [|split; [|split; [|split]]]]].
  - rewrite !get_validation_summary_eq /= length_app. lia.
  - rewrite !get_validation_summary_eq /= filter_app length_app. lia.
  - rewrite !get_validation_summary_eq /= filter_app !length_app. lia.
  - rewrite !get_validation_summary_eq /= flat_map_app length_app. lia.
  - rewrite !(proj1 (Hconv _)). apply Hcells.
  - rewrite !(proj2 (Hconv _)). apply Hcells.
  - exact Hcells.
Qed.

Lemma count_severity_Permutation k l1 l2 :
  l1 ≡ₚ l2 -> count_severity k l1 = count_severity k l2.
Proof. intros H. by rewrite /count_severity H. Qed.

Lemma count_category_Permutation k l1 l2 :
  l1 ≡ₚ l2 -> count_category k l1 = count_category k l2.
Proof. intros H. by rewrite /count_category H. Qed.

(** X11. The summary does not depend on the order of the results: two lists
    that are permutations of each other have the same summary. *)
Theorem summary_of_permutation l1 l2 :
  l1 ≡ₚ l2 -> get_validation_summary l1 = get_validation_summary l2.
Proof.
  intros Hperm.
  assert (flat_map issues l1 ≡ₚ flat_map issues l2) as Hall.
  { by apply Permutation_flat_map. }
  assert (issues_by_severity (get_validation_summary l1)
          = issues_by_severity (get_validation_summary l2)) as Hsev.
  { apply map_eq. intros k.
    destruct (summary_cells l1 k) as [-> _]. destruct (summary_cells l2 k) as [-> _].
    by rewrite (count_severity_Permutation k _ _ Hall). }
  assert (issues_by_category (get_validation_summary l1)
          = issues_by_category (get_validation_summary l2)) as Hcat.
  { apply map_eq. intros k.
    destruct (summary_cells l1 k) as [_ ->]. destruct (summary_cells l2 k) as [_ ->].
    by rewrite (count_category_Permutation k _ _ Hall). }
  revert Hsev Hcat. rewrite !get_validation_summary_eq /=. intros -> ->.
  by rewrite (Permutation_length Hperm) (Permutation_length Hall)
       (Permutation_length (filter_Permutation (fun r => passed r = true) _ _ Hperm)).
Qed.

(** X11 at a failed and a passed result, in both orders. *)
Lemma summary_of_permutation_witness :
  get_validation_summary [sample_failed_result; sample_passed_result]
  = get_validation_summary [sample_passed_result; sample_failed_result].
Proof. apply summary_of_permutation. apply perm_swap. Defined.

(** ** The pass rate *)



(** ** Failed elements and blocking issues *)

Lemma blocking_count l :
  (count_severity "critical" l + count_severity "high" l)%Z
  = Z.of_nat (length (filter (fun i => severity i ∈ [CRITICAL; HIGH]) l)).
Proof.
  rewrite (count_severity_value CRITICAL) (count_severity_value HIGH).
  induction l as [|issue l IH]; [done|].
  rewrite !filter_cons.
  assert (severity issue ∈ [CRITICAL; HIGH]
          <-> severity issue = CRITICAL \/ severity issue = HIGH) as Hin.
  { rewrite !elem_of_cons elem_of_nil. tauto. }
  destruct (decide (severity issue ∈ [CRITICAL; HIGH])) as [Hb|Hb];
    destruct (decide (severity issue = CRITICAL)) as [Hc|Hc];
    destruct (decide (severity issue = HIGH)) as [Hh|Hh];
    simpl; try lia; try congruence; tauto.
Qed.

Lemma consistent_blocking r :
  passed_consistent r ->
  if passed r
  then length (filter (fun i => severity i ∈ [CRITICAL; HIGH]) (issues r)) = 0
  else 1 <= length (filter (fun i => severity i ∈ [CRITICAL; HIGH]) (issues r)).
Proof.
  intros Hc. destruct (passed r) eqn:Hp.
  - apply length_zero_iff_nil, filter_nil_iff.
    intros issue Hin Hb. apply (proj1 Hc Hp issue Hin). by apply blocking_iff.
  - destruct (filter _ (issues r)) as [|x l] eqn:Hf; [|simpl; lia].
    assert (passed r = true) as Ht; [|congruence]. apply Hc.
    intros issue Hin Hb%blocking_iff.
    by apply (proj1 (filter_nil_iff _ _) Hf issue Hin).
Qed.

Lemma failed_le_blocking results :
  Forall passed_consistent results ->
  length results - length (filter (fun r => passed r = true) results)
  <= length (filter (fun i => severity i ∈ [CRITICAL; HIGH]) (flat_map issues results))
  /\ (length results - length (filter (fun r => passed r = true) results) = 0 ->
      length (filter (fun i => severity i ∈ [CRITICAL; HIGH]) (flat_map issues results)) = 0).
Proof.
  induction 1 as [|r results Hc _ [IHle IHz]]; [done|].
  pose proof (length_filter (fun r => passed r = true) results) as Hle.
  pose proof (consistent_blocking r Hc) as Hb.
  rewrite /= filter_app length_app filter_cons.
  destruct (decide (passed r = true)) as [Ht|Hf].
  - rewrite Ht in Hb. simpl. lia.
  - destruct (passed r); [done|]. simpl. lia.
Qed.

(** X13. When the [passed] flag of every result agrees with its issues (as
    in every result of [validate_element]), the summary has at most as many
    failed elements as critical and high issues together, and no element
    failed exactly when there is no critical and no high issue. *)
Theorem failed_elements_and_blocking_issues results :
  Forall passed_consistent results ->
  let s := get_validation_summary results in
  (failed_elements s <= critical_issues s + high_issues s)%Z
  /\ (failed_elements s = 0%Z <-> (critical_issues s + high_issues s)%Z = 0%Z).
Proof.
  intros Hc. destruct (failed_le_blocking results Hc) as [Hle Hz].
  pose proof (length_filter (fun r => passed r = true) results) as Hlen.
  rewrite get_validation_summary_eq /=.
  destruct (foldl_count_issue_cells (flat_map issues results) ∅ ∅ "critical") as [-> _].
  destruct (foldl_count_issue_cells (flat_map issues results) ∅ ∅ "high") as [-> _].
  rewrite !lookup_empty /= blocking_count. lia.
Qed.

(** X13 at a failed and a passed result. *)
Lemma failed_elements_and_blocking_issues_witness :
  let s := get_validation_summary [sample_failed_result; sample_passed_result] in
  (failed_elements s <= critical_issues s + high_issues s)%Z
  /\ (failed_elements s = 0%Z <-> (critical_issues s + high_issues s)%Z = 0%Z).
Proof.
  apply (failed_elements_and_blocking_issues [sample_failed_result; sample_passed_result]).
  repeat constructor; rewrite /passed_consistent /=; try done.
  - intros H. exfalso. apply (H _ (list_elem_of_here _ _)). by right.
  - intros _ issue Hin. by apply elem_of_nil in Hin.
Defined.

(** ** From a page to its summary *)

Lemma page_results_from_calls self elements checks times results :
  validate_page_elements self elements checks times = Ok results ->
  length results = length elements
  /\ Forall (fun r => exists e t, validate_element self e checks t = Ok r) results.
Proof.
  rewrite /validate_page_elements. intros Hok.
  pose proof (validate_page_elements_from_spec self checks times elements 0 []) as H.
  rewrite Hok in H. destruct H as (_ & new & -> & Hlen & Hnth).
  rewrite app_nil_l. split; [done|].
  apply Forall_lookup. intros j r Hr.
  destruct (lookup_lt_is_Some_2 elements j) as [e He].
  { rewrite -Hlen. by eapply lookup_lt_Some. }
  destruct (Hnth j e He) as (r' & Hr' & Hv).
  exists e, (times (0 + j)). congruence.
Qed.

Lemma kind_severity issue :
  issue_summary issue ∈ all_issue_kinds -> severity issue ∈ [HIGH; MEDIUM; LOW].
Proof.
  rewrite /all_issue_kinds /issue_summary /= !elem_of_cons elem_of_nil.
  intros H. repeat (destruct H as [[= _ -> _]|H]; [by repeat constructor|]). done.
Qed.

Lemma page_issue_severities cfg elements checks times results :
  validate_page_elements (__init__ cfg) elements checks times = Ok results ->
  Forall (fun issue => severity issue ∈ [HIGH; MEDIUM; LOW]) (flat_map issues results).
Proof.
  intros [_ Hcalls]%page_results_from_calls.
  apply Forall_flat_map. intros r Hr. rewrite Forall_forall in Hcalls.
  destruct (Hcalls r Hr) as (e & t & Hv).
  eapply Forall_impl; [by eapply result_issues_built|].
  intros issue (_ & _ & Hk). by apply kind_severity.
Qed.

(** X14. The summary of a page validated by the validator: it counts one
    element per element of the page; it never has a critical issue; no
    severity cell exists but high, medium and low; there are at most as many
    failed elements as high issues, and no element failed exactly when there
    is no high issue. *)
Theorem summary_of_a_validated_page cfg elements checks times results :
  validate_page_elements (__init__ cfg) elements checks times = Ok results ->
  total_elements (get_validation_summary results) = Z.of_nat (length elements)
  /\ critical_issues (get_validation_summary results) = 0%Z
  /\ (forall k n,
        issues_by_severity (get_validation_summary results) !! k = Some n ->
        k ∈ ["high"; "medium"; "low"])
  /\ (failed_elements (get_validation_summary results)
      <= high_issues (get_validation_summary results))%Z
  /\ (failed_elements (get_validation_summary results) = 0%Z
      <-> high_issues (get_validation_summary results) = 0%Z).
Proof.
  intros Hok.
  pose proof (page_issue_severities _ _ _ _ _ Hok) as Hsev.
  destruct (page_results_from_calls _ _ _ _ _ Hok) as [Hlen Hcalls].
  assert (forall k, k ∉ ["high"; "medium"; "low"] ->
                    count_severity k (flat_map issues results) = 0%Z) as Hzero.
  { intros k Hk. rewrite /count_severity.
    replace (filter _ (flat_map issues results)) with (@nil ValidationIssue); [done|].
    symmetry. apply filter_nil_iff. intros issue Hin Hv. apply Hk.
    rewrite Forall_forall in Hsev. specialize (Hsev issue Hin). rewrite -Hv.
    revert Hsev. rewrite !elem_of_cons !elem_of_nil.
    intros [->|[->|[->|[]]]]; simpl; auto. }
  assert (critical_issues (get_validation_summary results) = 0%Z) as Hcrit.
  { rewrite get_validation_summary_eq /=.
    destruct (foldl_count_issue_cells (flat_map issues results) ∅ ∅ "critical") as [-> _].
    rewrite lookup_empty /=. apply Hzero.
    rewrite !elem_of_cons elem_of_nil. intuition discriminate. }
  assert (Forall passed_consistent results) as Hcons.
  { eapply Forall_impl; [exact Hcalls|]. intros r (e & t & Hv).
    by eapply validate_element_passed_consistent. }
  destruct (failed_le_blocking results Hcons) as [Hle Hz].
  pose proof (length_filter (fun r => passed r = true) results) as Hlenf.
  split; [by rewrite get_validation_summary_eq /= Hlen|].
  split; [done|]. split.
  - intros k n. destruct (summary_cells results k) as [-> _].
    case_bool_decide as Hc; [done|]. intros _.
    destruct (decide (k ∈ ["high"; "medium"; "low"])) as [|Hk]; [done|].
    by rewrite (Hzero k Hk) in Hc.
  - revert Hcrit. rewrite get_validation_summary_eq /=.
    destruct (foldl_count_issue_cells (flat_map issues results) ∅ ∅ "critical") as [-> _].
    destruct (foldl_count_issue_cells (flat_map issues results) ∅ ∅ "high") as [-> _].
    rewrite !lookup_empty /=. intros Hcrit.
    pose proof (blocking_count (flat_map issues results)) as Hbc.
    pose proof (count_severity_nonneg "high" (flat_map issues results)).
    lia.
Qed.

(** X14 at a page of two elements: the image without attributes and the
    cluttered div. *)
Lemma summary_of_a_validated_page_witness :
  exists results,
    validate_page_elements (__init__ None) [img_without_attributes; cluttered_div]
      None (fun _ => 0%Q) = Ok results
    /\ total_elements (get_validation_summary results) = 2%Z.
Proof.
  eexists. split; [reflexivity|].
  apply (summary_of_a_validated_page None [img_without_attributes; cluttered_div]
           None (fun _ => 0%Q)).
  reflexivity.
Defined.

(** * Properties of the XML parser *)

Module XMLParserProps.
Import XMLParser.

(** Induction on a tree, with the property known of all the children. *)
Lemma Element_tree_ind (P : Element -> Prop) :
  (forall t a x c, Forall P c -> P (Node t a x c)) -> forall e, P e.
Proof.
  intros H. fix IH 1. intros [t a x c]. apply H.
  induction c as [|e c IHc]; constructor; [apply IH|exact IHc].
Qed.

Lemma iter_unfold e : iter e = e :: descendants e.
Proof.
  by destruct e.
Qed.

(** What lies below an element of a tree lies in the tree. *)
Lemma iter_trans root e :
  e ∈ iter root -> forall d, d ∈ iter e -> d ∈ iter root.
Proof.
  induction root as [t a x c IH] using Element_tree_ind.
  rewrite (iter_unfold (Node t a x c)) /descendants /=.
  intros [->|Hin]%elem_of_cons d Hd.
  - by rewrite iter_unfold /descendants /= in Hd.
  - right. apply list_elem_of_In, in_flat_map in Hin as (child & Hchild & He).
    apply list_elem_of_In, in_flat_map. exists child. split; [done|].
    apply list_elem_of_In. rewrite Forall_forall in IH.
    apply (IH child); [by apply list_elem_of_In|by apply list_elem_of_In|done].
Qed.

Lemma descendants_in_iter e d : d ∈ descendants e -> d ∈ iter e.
Proof. rewrite iter_unfold. by right. Qed.

Lemma find_in_descendants e t found :
  find e t = Some found -> found ∈ descendants e /\ tag found = t.
Proof.
  rewrite /find /findall. intros Hhead.
  assert (found ∈ filter (fun d => tag d = t) (descendants e)) as Hin.
  { destruct (filter _ _) as [|x l]; [done|]. injection Hhead as ->. by left. }
  apply list_elem_of_filter in Hin. tauto.
Qed.

Lemma find_container_in_descendants e name found :
  find_container e name = Some found -> found ∈ descendants e.
Proof.
  rewrite /find_container. destruct (find e (qualified name)) as [x|] eqn:E.
  - intros [= <-]. by apply find_in_descendants in E as [? _].
  - by intros [? _]%find_in_descendants.
Qed.

(** Below an element of a plain tree nothing is found under a namespaced
    tag. *)
Lemma plain_findall root e name :
  plain root -> e ∈ iter root -> findall e (qualified name) = [].
Proof.
  intros Hplain He. apply filter_nil_iff. intros d Hd Htag.
  rewrite /plain Forall_forall in Hplain.
  apply (Hplain d (iter_trans root e He d (descendants_in_iter e d Hd)) name Htag).
Qed.

(** X15. In a document none of whose elements carries the namespace of the
    parser, the fallback to plain tags applies to the metadata texts and to
    the container elements only: the loops over tag, testSuite, testCase,
    step and selector elements search under the namespace alone, so the
    parsed configuration has no tags and no test suites, whatever the
    document holds. *)
Theorem plain_document_has_no_suites root :
  plain root ->
  tags (_parse_root_element root) = []
  /\ test_suites (_parse_root_element root) = [].
Proof.
  intros Hplain. rewrite /_parse_root_element /=. split.
  - destruct (find_container root "metadata") as [m|] eqn:Hm; [|done].
    assert (m ∈ iter root) as Hmin.
    { by apply descendants_in_iter, (find_container_in_descendants _ "metadata"). }
    assert (forall te, te ∈ descendants m ->
                       omap (fun tag => match text tag with
                                        | Some t => if str_bool t then Some t else None
                                        | None => None
                                        end) (findall te (qualified "tag")) = []) as Hno.
    { intros te Hte. rewrite (plain_findall root) //.
      apply (iter_trans root m Hmin). by apply descendants_in_iter. }
    destruct (truth m).
    + destruct (find m (qualified "tags")) as [te|] eqn:Hq.
      * apply Hno. by apply find_in_descendants in Hq as [? _].
      * destruct (find m "tags") as [te|] eqn:Hp; [|done].
        apply Hno. by apply find_in_descendants in Hp as [? _].
    + destruct (find m "tags") as [te|] eqn:Hp; [|done].
      apply Hno. by apply find_in_descendants in Hp as [? _].
  - destruct (find_container root "testSuites") as [ts|] eqn:Hts; [|done].
    rewrite (plain_findall root) //.
    by apply descendants_in_iter, (find_container_in_descendants _ "testSuites").
Qed.

Lemma plain_document_plain : plain plain_document.
Proof.
  rewrite /plain /plain_document /=.
  repeat (constructor; [by intros name|]). constructor.
Qed.

(** X15 at a plain document with a title, a tag and a suite: the title is
    read, the tag and the suite are not. *)
Lemma plain_document_has_no_suites_witness :
  title (_parse_root_element plain_document) = "Checkout"
  /\ tags (_parse_root_element plain_document) = []
  /\ test_suites (_parse_root_element plain_document) = [].
Proof.
  split; [reflexivity|].
  apply (plain_document_has_no_suites plain_document). apply plain_document_plain.
Defined.

(** ** Texts with a default *)

Lemma get_element_text_not_empty parent tag_name dflt :
  dflt <> "" -> _get_element_text parent tag_name dflt <> "".
Proof.
  intros Hd. rewrite /_get_element_text.
  destruct parent as [p|]; [|done].
  destruct (match find p (qualified tag_name) with
            | Some element => Some element
            | None => find p tag_name
            end) as [el|]; [|done].
  destruct (text el) as [[|c t]|]; done.
Qed.

Lemma parse_each_elem {A} (parse : option Element -> option A) found a :
  a ∈ parse_each parse found -> exists e, e ∈ found /\ parse (Some e) = Some a.
Proof. rewrite /parse_each. intros (e & He & Ha)%list_elem_of_omap. eauto. Qed.

(** X16. A text that the parser reads with a non-empty default is never
    empty in the result, since an element with an empty text counts as a
    missing one: the title and the author of the configuration, the name of
    every suite, the name and the priority of every test case and the type
    of every selector are non-empty strings. *)
Theorem defaulted_texts_are_not_empty root :
  let config := _parse_root_element root in
  title config <> ""
  /\ author config <> ""
  /\ forall suite, suite ∈ test_suites config ->
       suite_name suite <> ""
       /\ forall case, case ∈ test_cases suite ->
            case_name case <> ""
            /\ priority case <> ""
            /\ forall selector, selector ∈ selectors case ->
                 exists ty, assoc_get selector "type" = Some ty /\ ty <> "".
Proof.
  rewrite /_parse_root_element /=.
  split; [by apply get_element_text_not_empty|].
  split; [by apply get_element_text_not_empty|].
  intros suite Hsuite.
  destruct (find_container root "testSuites") as [ts|]; [|by apply elem_of_nil in Hsuite].
  apply parse_each_elem in Hsuite as (se & _ & [= <-]).
  cbn [suite_name test_cases].
  split; [by apply (get_element_text_not_empty (Some se) "name" "Unnamed Suite")|].
  intros case Hcase.
  destruct (find_container se "testCases") as [tc|]; [|by apply elem_of_nil in Hcase].
  apply parse_each_elem in Hcase as (ce & _ & [= <-]).
  cbn [case_name priority selectors].
  split; [by apply (get_element_text_not_empty (Some ce) "name" "Unnamed Test Case")|].
  split; [by apply (get_element_text_not_empty (Some ce) "priority" "medium")|].
  intros selector Hsel.
  destruct (find_container ce "selectors") as [ss|]; [|by apply elem_of_nil in Hsel].
  apply parse_each_elem in Hsel as (sel & _ & [= <-]).
  exists (_get_element_text (Some sel) "type" "css").
  split; [reflexivity|].
  by apply (get_element_text_not_empty (Some sel) "type" "css").
Qed.

End XMLParserProps.

(** * Properties of the core validator *)

Module CoreValidatorProps.
Import CoreValidator.

(** ** Loading the configuration *)

Lemma load_rules_raises rules rule_data items :
  exists e, load_rules rules (rule_data :: items) = Raise e
            /\ (e = TypeError \/ e = AttributeError).
Proof.
  destruct rule_data as [| | | | |[|kv kwargs]]; simpl; eauto.
Qed.

(** X17. No rule is ever loaded from a configuration file.  The constructor
    returns when there is no file at the path, or when the file holds an
    object whose [rules] are missing or are an empty list, dict or string,
    and the validator then has no rule and no result; with any other file
    it raises [TypeError] or [AttributeError], since the call that should
    build a rule from an entry of the file cannot take arguments, and the
    rule it builds without arguments has no [id]. *)
Theorem no_rule_is_loaded_from_a_file config_path files :
  let path := effective_path config_path in
  match files path with
  | None => __init__ config_path files = Ok (fresh path)
  | Some config =>
      if without_rules config
      then __init__ config_path files = Ok (fresh path)
      else exists e, __init__ config_path files = Raise e
                     /\ (e = TypeError \/ e = AttributeError)
  end.
Proof.
  rewrite /__init__ /load_config /effective_path /=.
  set (path := match config_path with
               | Some path => if str_bool path then path else _
               | None => _
               end).
  destruct (files path) as [config|]; [|done].
  destruct config as [| | | | |d]; simpl; eauto.
  destruct (assoc_get d "rules") as [r|]; [|done].
  destruct r as [| | |s|l|l]; simpl; eauto.
  - destruct s as [|c s]; [done|]. simpl. eauto.
  - destruct l as [|rule_data items]; [done|].
    destruct (load_rules_raises [] rule_data items) as (e & -> & He). eauto.
  - destruct l as [|[k v] items]; [done|]. simpl. eauto.
Qed.

(** ** What the calls of a client leave *)

Lemma validate_rule_raises self rule_id status notes evidence validator now :
  validate_rule self rule_id status notes evidence validator now
  = Raise (if bool_decide (assoc_get (rules self) rule_id = None)
           then OtherError "ValueError" else TypeError).
Proof. rewrite /validate_rule. by case_bool_decide. Qed.

Lemma step_results self c : results (step self c) = results self.
Proof.
  destruct c as [rule|rule_id status notes evidence validator now]; simpl.
  - rewrite /add_rule. by destruct (id rule).
  - by rewrite validate_rule_raises.
Qed.

Lemma run_results calls self : results (run self calls) = results self.
Proof.
  revert self. induction calls as [|c calls IH]; intros self; [done|].
  rewrite /run /=. fold (run (step self c) calls). by rewrite IH step_results.
Qed.

Lemma filter_all {A} (P : A -> Prop) `{!forall x, Decision (P x)} (l : list A) :
  (forall x, x ∈ l -> P x) -> filter P l = l.
Proof.
  induction l as [|x l IH]; intros Hall; [done|].
  rewrite filter_cons decide_True; [apply Hall; by left|].
  rewrite IH //. intros y Hy. apply Hall. by right.
Qed.

(** X18. No result is ever recorded.  Whatever rules a client adds and
    whatever results it reports to a validator without results, every call
    of [validate_rule] raises ([ValueError] for a rule that is not
    registered, [TypeError] for one that is), the list of results stays
    empty, the summary is the one of no result, no validation has failed and
    every registered rule is pending. *)
Theorem no_result_is_ever_recorded self calls :
  results self = [] ->
  let self' := run self calls in
  results self' = []
  /\ get_validation_summary self' = Ok summary_of_nothing
  /\ get_failed_validations self' = Ok []
  /\ get_pending_validations self' = Ok (map fst (rules self'))
  /\ forall rule_id status notes evidence validator now,
       validate_rule self' rule_id status notes evidence validator now
       = Raise (if bool_decide (assoc_get (rules self') rule_id = None)
                then OtherError "ValueError" else TypeError).
Proof.
  intros Hempty self'.
  assert (results self' = []) as Hres by by rewrite /self' run_results.
  split; [done|].
  split; [by rewrite /get_validation_summary Hres|].
  split; [by rewrite /get_failed_validations Hres|].
  split; [|intros; apply validate_rule_raises].
  rewrite /get_pending_validations Hres /=. f_equal.
  apply filter_all. intros k _. apply not_elem_of_nil.
Qed.

(** X18 at a client that adds a rule and reports on it twice. *)
Lemma no_result_is_ever_recorded_witness :
  let self' :=
    run (fresh "validation_config.json")
        [AddRule (rule_with_id "R1");
         ValidateRule "R1" "pass" "" None "" 0%Q;
         ValidateRule "R2" "fail" "" None "" 0%Q] in
  results self' = []
  /\ get_pending_validations self' = Ok ["R1"].
Proof.
  pose proof (no_result_is_ever_recorded (fresh "validation_config.json")
                [AddRule (rule_with_id "R1");
                 ValidateRule "R1" "pass" "" None "" 0%Q;
                 ValidateRule "R2" "fail" "" None "" 0%Q] eq_refl) as H.
  split; [exact (proj1 H)|]. exact (proj1 (proj2 (proj2 (proj2 H)))).
Defined.

(** ** The registry of rules *)

Lemma assoc_set_keys {A} (l : list (string * A)) k v :
  map fst (assoc_set l k v)
  = if bool_decide (k ∈ map fst l) then map fst l else map fst l ++ [k].
Proof.
  induction l as [|[k' v'] l IH]; cbn [assoc_set map fst app].
  - case_bool_decide as Hin; [by apply elem_of_nil in Hin|done].
  - destruct (String.eqb_spec k' k) as [->|Hne]; cbn [map fst].
    + rewrite bool_decide_eq_true_2 //. by left.
    + rewrite IH. case_bool_decide as Hin.
      * rewrite bool_decide_eq_true_2 //. by right.
      * rewrite bool_decide_eq_false_2 //.
        rewrite elem_of_cons. intros [->|?]; done.
Qed.

Lemma assoc_get_elem {A} (l : list (string * A)) k :
  k ∈ map fst l <-> assoc_get l k <> None.
Proof.
  induction l as [|[k' v'] l IH]; simpl.
  - split; [by intros ?%elem_of_nil|done].
  - rewrite elem_of_cons. destruct (String.eqb_spec k' k) as [->|Hne].
    + split; [done|by left].
    + rewrite IH. split; [intros [?|?]; [congruence|done]|by right].
Qed.

Lemma run_snoc self calls c : run self (calls ++ [c]) = step (run self calls) c.
Proof. by rewrite /run foldl_app. Qed.

Lemma added_rules_snoc calls c :
  added_rules (calls ++ [c])
  = added_rules calls
    ++ match c with
       | AddRule rule => match id rule with Some k => [(k, rule)] | None => [] end
       | _ => []
       end.
Proof.
  rewrite /added_rules omap_app /=. f_equal.
  destruct c as [rule|]; [|done]. by destruct (id rule).
Qed.

Lemma first_occurrences_snoc (l : list string) k :
  rev (remove_dups (rev (l ++ [k])))
  = if bool_decide (k ∈ rev (remove_dups (rev l)))
    then rev (remove_dups (rev l))
    else rev (remove_dups (rev l)) ++ [k].
Proof.
  rewrite rev_app_distr /=.
  assert (k ∈ rev (remove_dups (rev l)) <-> k ∈ rev l) as Hin.
  { rewrite !list_elem_of_In -(in_rev (remove_dups (rev l))) -list_elem_of_In.
    rewrite elem_of_remove_dups. apply list_elem_of_In. }
  destruct (decide_rel elem_of k (rev l)) as [H|H].
  - rewrite bool_decide_eq_true_2 //. by apply Hin.
  - rewrite bool_decide_eq_false_2 //. by rewrite Hin.
Qed.

Lemma add_rule_outcome self rule :
  add_rule self rule
  = match id rule with
    | Some k => Ok (with_rules self (assoc_set (rules self) k rule))
    | None => Raise AttributeError
    end.
Proof. rewrite /add_rule. by destruct (id rule). Qed.

Lemma registry_after_calls self calls :
  rules self = [] ->
  let self' := run self calls in
  map fst (rules self') = rev (remove_dups (rev (map fst (added_rules calls))))
  /\ Forall (fun kr => id kr.2 = Some kr.1) (rules self')
  /\ forall k,
       assoc_get (rules self') k
       = last (map snd (filter (fun kr => kr.1 = k) (added_rules calls))).
Proof.
  intros Hempty. simpl.
  induction calls as [|c calls (IHkeys & IHid & IHget)] using rev_ind.
  { rewrite /run /= Hempty. by repeat split. }
  rewrite run_snoc added_rules_snoc.
  destruct c as [rule|rule_id status notes evidence validator now]; simpl.
  - rewrite /add_rule. destruct (id rule) as [k|] eqn:Hid; simpl.
    + split; [|split].
      * rewrite assoc_set_keys map_app /= first_occurrences_snoc IHkeys //.
      * clear IHkeys IHget. induction (rules (run self calls)) as [|[k' r'] l IHl]; simpl.
        { by repeat constructor. }
        apply Forall_cons in IHid as [Hhd Htl].
        destruct (String.eqb k' k); constructor; auto.
      * intros k'. rewrite filter_app map_app filter_cons /=.
        destruct (decide (k = k')) as [<-|Hne].
        { by rewrite assoc_get_set_eq /= last_snoc. }
        by rewrite assoc_get_set_ne // app_nil_r.
    + rewrite app_nil_r. by repeat split.
  - rewrite validate_rule_raises app_nil_r. by repeat split.
Qed.

(** X19. The registry of rules holds what [add_rule] was given, under the
    [id]s.  [add_rule] on a rule that has an [id] returns, with the rule put
    under its [id] (in the place of the rule that stood there, or else at
    the end); on a rule that has no [id] it raises [AttributeError].  After
    any calls on a validator without rules, the keys of the registry are
    the [id]s of the rules added, each once, in the order in which they
    first came; every rule stands under its own [id]; and the rule under an
    [id] is the last one added with it, so a rule added under an [id] that
    is taken replaces the earlier one in its place. *)
Theorem rules_are_keyed_by_id self calls :
  rules self = [] ->
  let self' := run self calls in
  (forall rule,
      add_rule self' rule
      = match id rule with
        | Some k => Ok (with_rules self' (assoc_set (rules self') k rule))
        | None => Raise AttributeError
        end)
  /\ map fst (rules self') = rev (remove_dups (rev (map fst (added_rules calls))))
  /\ Forall (fun kr => id kr.2 = Some kr.1) (rules self')
  /\ forall k,
       assoc_get (rules self') k
       = last (map snd (filter (fun kr => kr.1 = k) (added_rules calls))).
Proof.
  intros Hempty self'. split; [intros rule; apply add_rule_outcome|].
  by apply registry_after_calls.
Qed.

(** X19 at a client that adds three rules, two of them under one [id], and
    then a rule without [id]. *)
Lemma rules_are_keyed_by_id_witness :
  let self' := run (fresh "validation_config.json")
                   [AddRule (rule_with_id "R1"); AddRule (rule_with_id "R2");
                    AddRule (rule_with_id "R1")] in
  add_rule self' blank_rule = Raise AttributeError
  /\ map fst (rules self') = ["R1"; "R2"].
Proof.
  destruct (rules_are_keyed_by_id (fresh "validation_config.json")
              [AddRule (rule_with_id "R1"); AddRule (rule_with_id "R2");
               AddRule (rule_with_id "R1")] eq_refl) as (Hadd & Hkeys & _).
  split; [exact (Hadd blank_rule)|exact Hkeys].
Defined.

(** ** The summary of the results *)






End CoreValidatorProps.

(** * Properties of the DOM scraper *)

Module DOMScraperProps.
Import DOMScraper.

(** ** The attributes that are collected *)

Lemma assoc_get_app {A} (l1 l2 : list (string * A)) k :
  assoc_get (l1 ++ l2) k
  = match assoc_get l1 k with Some v => Some v | None => assoc_get l2 k end.
Proof.
  induction l1 as [|[k' v'] l1 IH]; [done|]. simpl.
  by destruct (String.eqb k' k).
Qed.

Lemma assoc_set_fresh {A} (l : list (string * A)) k v :
  assoc_get l k = None -> assoc_set l k v = l ++ [(k, v)].
Proof.
  induction l as [|[k' v'] l IH]; [done|]. simpl.
  destruct (String.eqb k' k); [done|]. intros H. by rewrite IH.
Qed.

Lemma assoc_get_keys {A} (l : list (string * A)) k :
  assoc_get l k = None <-> k ∉ map fst l.
Proof.
  induction l as [|[k' v'] l IH]; simpl.
  - split; [intros _; apply not_elem_of_nil|done].
  - rewrite not_elem_of_cons. destruct (String.eqb_spec k' k) as [->|Hne].
    + split; [done|]. by intros [? _].
    + rewrite IH. split; [by intros ?; split|by intros [_ ?]].
Qed.

Lemma collect_attributes element l : forall acc,
  NoDup l ->
  (forall k, k ∈ l -> assoc_get acc k = None) ->
  foldl (collect_attribute element) acc l = acc ++ omap (collected element) l.
Proof.
  induction l as [|a l IH]; intros acc Hnd Hfresh; simpl.
  { by rewrite app_nil_r. }
  apply NoDup_cons in Hnd as [Ha Hnd].
  rewrite /collect_attribute /collected.
  destruct (WebElement.get_attribute element a) as [v|] eqn:Hv;
    [destruct (str_bool v) eqn:Hb|].
  - rewrite assoc_set_fresh; [apply Hfresh; by left|].
    rewrite IH //.
    + intros k Hk. rewrite assoc_get_app Hfresh; [by right|]. simpl.
      destruct (String.eqb_spec a k) as [->|]; done.
    + by rewrite -app_assoc.
  - apply IH; [done|]. intros k Hk. apply Hfresh. by right.
  - apply IH; [done|]. intros k Hk. apply Hfresh. by right.
Qed.

Lemma common_attrs_NoDup : NoDup common_attrs.
Proof.
  apply (bool_decide_unpack _). by vm_compute.
Qed.

Lemma extracted_attributes element :
  attributes (_extract_element_info element) = omap (collected element) common_attrs.
Proof.
  rewrite /_extract_element_info. cbn [attributes].
  by rewrite collect_attributes; [apply common_attrs_NoDup| |].
Qed.

Lemma collected_keys element l :
  map fst (omap (collected element) l)
  = filter (fun k => is_Some (collected element k)) l.
Proof.
  induction l as [|a l IH]; [done|]. rewrite filter_cons. simpl.
  destruct (collected element a) as [[k v]|] eqn:E.
  - destruct (decide (is_Some (Some (k, v)))) as [_|Hn]; [|by destruct Hn].
    simpl. rewrite IH. f_equal.
    revert E. rewrite /collected.
    destruct (WebElement.get_attribute element a) as [x|]; [|done].
    destruct (str_bool x); [|done]. by intros [= <- _].
  - destruct (decide (is_Some (@None (string * string)))) as [[? ?]|_]; done.
Qed.

Lemma collected_lookup element l k :
  NoDup l ->
  assoc_get (omap (collected element) l) k
  = if bool_decide (k ∈ l) then snd <$> collected element k else None.
Proof.
  induction l as [|a l IH]; intros Hnd; [done|].
  apply NoDup_cons in Hnd as [Ha Hnd]. simpl.
  destruct (decide (a = k)) as [->|Hne].
  - rewrite bool_decide_eq_true_2; [by left|].
    destruct (collected element k) as [[k' v]|] eqn:E; simpl.
    + assert (k' = k) as ->.
      { revert E. rewrite /collected.
        destruct (WebElement.get_attribute element k) as [x|]; [|done].
        destruct (str_bool x); [|done]. by intros [= <- _]. }
      by rewrite String.eqb_refl.
    + rewrite IH // bool_decide_eq_false_2 //.
  - assert (bool_decide (k ∈ a :: l) = bool_decide (k ∈ l)) as ->.
    { apply bool_decide_ext. rewrite elem_of_cons.
      split; [intros [->|?]; [congruence|done]|by right]. }
    destruct (collected element a) as [[k' v]|] eqn:E; simpl; [|by apply IH].
    assert (k' = a) as ->.
    { revert E. rewrite /collected.
      destruct (WebElement.get_attribute element a) as [x|]; [|done].
      destruct (str_bool x); [|done]. by intros [= <- _]. }
    apply String.eqb_neq in Hne as ->. by apply IH.
Qed.

(** X21. The scraper keeps nine attributes of an element at most: id,
    class, name, type, value, href, src, alt and title, those of them that
    the element has with a non-empty value, in that order.  An attribute
    under another name (style, target, rel, loading, width, height,
    required, pattern, every aria attribute) is never in the record, and
    neither is an attribute whose value is the empty string. *)
Theorem nine_attributes_are_collected element :
  let info := _extract_element_info element in
  map fst (attributes info) `sublist_of` common_attrs
  /\ NoDup (map fst (attributes info))
  /\ forall k v,
       assoc_get (attributes info) k = Some v
       <-> k ∈ common_attrs /\ WebElement.get_attribute element k = Some v /\ v <> "".
Proof.
  cbn zeta. rewrite extracted_attributes. split; [|split].
  - rewrite collected_keys. apply sublist_filter.
  - rewrite collected_keys. apply NoDup_filter, common_attrs_NoDup.
  - intros k v. rewrite collected_lookup; [apply common_attrs_NoDup|].
    case_bool_decide as Hin; [|split; [done|tauto]].
    rewrite /collected.
    destruct (WebElement.get_attribute element k) as [x|]; simpl.
    + destruct x as [|c x]; simpl.
      * split; [done|]. by intros (_ & [= <-] & ?).
      * split; [by intros [= <-]|]. by intros (_ & [= <-] & _).
    + split; [done|]. by intros (_ & ? & _).
Qed.

(** ** The record that is exported *)

Section exported.
Variable info : ElementInfo.

Lemma exported_tag :
  default (VStr "") (dict_get (_element_to_dict info) "tag_name") = VStr (tag_name info).
Proof. reflexivity. Qed.

Lemma exported_attributes :
  default (VDict []) (dict_get (_element_to_dict info) "attributes")
  = str_dict (attributes info).
Proof. reflexivity. Qed.

Lemma exported_text :
  default (VStr "") (dict_get (_element_to_dict info) "text_content")
  = VStr (text_content info).
Proof. reflexivity. Qed.

Lemma exported_selector :
  default (VStr "unknown") (dict_get (_element_to_dict info) "css_selector")
  = VStr (css_selector info).
Proof. reflexivity. Qed.

Lemma str_dict_get (a : list (string * string)) k :
  dict_get (map (fun kv => (kv.1, VStr kv.2)) a) k = VStr <$> assoc_get a k.
Proof.
  rewrite /dict_get. induction a as [|[k' v'] a IH]; [done|]. simpl.
  by destruct (String.eqb k' k).
Qed.

Lemma num_dict_get (b : list (string * Z)) k :
  dict_get (map (fun kv => (kv.1, VNum kv.2)) b) k = VNum <$> assoc_get b k.
Proof.
  rewrite /dict_get. induction b as [|[k' v'] b IH]; [done|]. simpl.
  by destruct (String.eqb k' k).
Qed.

Lemma exported_shape : record_shape_ok (_element_to_dict info) = true.
Proof.
  rewrite /record_shape_ok /field_ok /=.
  rewrite !andb_true_iff. repeat split;
    try (rewrite /field_ok num_dict_get; by destruct (assoc_get (bounding_rect info) _)).
  induction (attributes info) as [|[k v] a IH]; done.
Qed.

End exported.

(** X22. The validator accepts every record that the scraper exports.  On
    the dict of any [ElementInfo], every registered rule returns, and
    [validate_element] returns a result that has performed every requested
    check that is registered (all nine by default), carries the CSS
    selector of the element, and names its tag, its id and its class
    attribute in the metadata. *)
Theorem exported_records_are_validated info cfg checks t :
  (forall name check,
      assoc_get (validation_rules (__init__ cfg)) name = Some check ->
      returns (check (_element_to_dict info)))
  /\ exists r,
       validate_element (__init__ cfg) (_element_to_dict info) checks t = Ok r
       /\ checks_performed r
          = filter (fun n => is_Some (assoc_get (validation_rules (__init__ cfg)) n))
                   (effective_checks (__init__ cfg) checks)
       /\ result_selector r = VStr (css_selector info)
       /\ metadata r
          = [ ("element_tag", VStr (tag_name info));
              ("element_id", default VNone (VStr <$> assoc_get (attributes info) "id"));
              ("element_classes",
                 default VNone (VStr <$> assoc_get (attributes info) "class")) ].
Proof.
  pose proof (exported_shape info) as Hshape.
  rewrite validation_rules_any_config. split.
  { intros name check. by apply registered_rule_returns. }
  destruct (validate_element_returns (__init__ cfg) (_element_to_dict info) checks t)
    as [r Hr]; [by apply record_shape_attributes|].
  exists r. split; [done|].
  pose proof Hr as (_ & _ & Hperf & _)%validate_element_Ok.
  split; [|split].
  - rewrite Hperf. apply list_filter_iff. intros n.
    rewrite /check_succeeds validation_rules_any_config.
    destruct (assoc_get _ n) as [check|] eqn:E.
    + destruct (registered_rule_returns _ _ _ _ Hshape E) as [found ->].
      split; eauto.
    + split; [done|]. by intros [? ?].
  - revert Hr. rewrite /validate_element.
    destruct (run_checks _ _ _) as [found performed].
    rewrite exported_attributes exported_selector /str_dict /py_get /=.
    by intros [= <-].
  - revert Hr. rewrite /validate_element.
    destruct (run_checks _ _ _) as [found performed].
    rewrite exported_attributes /str_dict /py_get /= !str_dict_get.
    by intros [= <-].
Qed.


(** ** What the rules find in a scraped record *)

Lemma common_attr_not_aria k :
  k ∈ common_attrs -> str_startswith k "aria-" = false.
Proof.
  rewrite /common_attrs !elem_of_cons elem_of_nil.
  intros H. repeat (destruct H as [->|H]; [done|]). done.
Qed.

Lemma aria_loop_common sel (a : list (string * string)) found :
  Forall (fun kv => kv.1 ∈ common_attrs) a ->
  aria_loop sel (map (fun kv => (kv.1, VStr kv.2)) a) found = Ok found.
Proof.
  induction 1 as [|[k v] a' Hk _ IH]; [done|].
  cbn [map aria_loop fst snd]. by rewrite (common_attr_not_aria k Hk).
Qed.

Lemma built_allowed sel kinds issue :
  Forall (fun kind => kind.1.1 ∉ unreachable_issue_types) kinds ->
  issue_built_for sel kinds issue -> allowed issue.
Proof.
  intros Hkinds (_ & _ & Hin). rewrite Forall_forall in Hkinds.
  apply (Hkinds _ Hin).
Qed.

Lemma extracted_keys element :
  Forall (fun kv => kv.1 ∈ common_attrs) (attributes (_extract_element_info element)).
Proof.
  apply Forall_forall. intros [k v] Hin.
  assert (k ∈ map fst (attributes (_extract_element_info element))) as Hk.
  { apply list_elem_of_fmap. by exists (k, v). }
  rewrite extracted_attributes collected_keys in Hk.
  by apply list_elem_of_filter in Hk as [_ Hk].
Qed.

Lemma extracted_text element :
  text_content (_extract_element_info element) = WebElement.text element.
Proof. cbn [_extract_element_info text_content]. by destruct (WebElement.text element). Qed.

Lemma extracted_title element :
  assoc_get (attributes (_extract_element_info element)) "title"
  = match WebElement.get_attribute element "title" with
    | Some value => if str_bool value then Some value else None
    | None => None
    end.
Proof.
  rewrite extracted_attributes collected_lookup; [apply common_attrs_NoDup|].
  rewrite /collected /=.
  destruct (WebElement.get_attribute element "title") as [v|]; [|done].
  by destruct (str_bool v).
Qed.

Section scraped.
Variables (cfg : dict) (info : ElementInfo).
Hypothesis Hkeys : Forall (fun kv => kv.1 ∈ common_attrs) (attributes info).

Lemma not_collected k :
  bool_decide (k ∈ common_attrs) = false -> assoc_get (attributes info) k = None.
Proof.
  intros Hk%bool_decide_eq_false. apply assoc_get_keys. intros Hin. apply Hk.
  apply list_elem_of_fmap in Hin as ([k' v] & -> & Hin).
  by apply (proj1 (Forall_forall _ _) Hkeys _ Hin).
Qed.

Ltac scraped_rule r :=
  rewrite /r; cbv zeta;
  rewrite ?exported_tag ?exported_attributes ?exported_text ?exported_selector;
  rewrite /str_dict /py_in /py_get /py_getitem /py_items ?str_dict_get;
  rewrite ?(not_collected "style" eq_refl) ?(not_collected "target" eq_refl)
    ?(not_collected "rel" eq_refl) ?(not_collected "required" eq_refl)
    ?(not_collected "aria-required" eq_refl) ?(not_collected "aria-label" eq_refl)
    ?(not_collected "pattern" eq_refl) ?(not_collected "loading" eq_refl)
    ?(not_collected "width" eq_refl) ?(not_collected "height" eq_refl).

Ltac scraped_cases :=
  repeat (simpl;
          match goal with
          | |- context [assoc_get ?a ?k] => destruct (assoc_get a k) eqn:?
          | |- context [if ?b then _ else _] => destruct b eqn:?
          end);
  simpl.

Ltac allowed_issues :=
  apply ensures_Ok; repeat constructor; by apply (bool_decide_unpack _).

Ltac allowed_kinds name :=
  intros found Hfound;
  eapply Forall_impl;
    [exact (registered_rule_built cfg (_element_to_dict info) name _ eq_refl found Hfound)|];
  intros issue; apply built_allowed;
  repeat constructor; by apply (bool_decide_unpack _).

Lemma aria_loop_scraped sel found :
  aria_loop sel (map (fun kv => (kv.1, VStr kv.2)) (attributes info)) found = Ok found.
Proof. by apply aria_loop_common. Qed.

Lemma links_scraped :
  ensures (Forall allowed) (_check_links cfg (_element_to_dict info)).
Proof. scraped_rule _check_links. scraped_cases; allowed_issues. Qed.

Lemma form_elements_scraped :
  ensures (Forall allowed) (_check_form_elements cfg (_element_to_dict info)).
Proof. scraped_rule _check_form_elements. scraped_cases; allowed_issues. Qed.

Lemma performance_scraped :
  ensures (Forall allowed) (_check_performance_indicators cfg (_element_to_dict info)).
Proof. scraped_rule _check_performance_indicators. scraped_cases; allowed_issues. Qed.

Lemma accessibility_advanced_scraped :
  ensures (Forall allowed) (_check_accessibility_advanced cfg (_element_to_dict info)).
Proof.
  scraped_rule _check_accessibility_advanced.
  cbn [py_lower mbind outcome_bind].
  scraped_cases; rewrite ?aria_loop_scraped; allowed_issues.
Qed.

Lemma registered_rule_scraped name check :
  assoc_get (_load_validation_rules cfg) name = Some check ->
  ensures (Forall allowed) (check (_element_to_dict info)).
Proof.
  revert name check.
  apply (named_rule_ind
           (fun _ check => ensures (Forall allowed) (check (_element_to_dict info)))).
  - allowed_kinds "accessibility_basic".
  - apply accessibility_advanced_scraped.
  - apply form_elements_scraped.
  - apply links_scraped.
  - allowed_kinds "image_validation".
  - allowed_kinds "interactive_elements".
  - allowed_kinds "text_content".
  - allowed_kinds "visual_layout".
  - apply performance_scraped.
Qed.

(** An image always lacks the loading attribute and the dimensions. *)
Lemma images_scraped :
  str_lower (tag_name info) = "img" ->
  exists found,
    _check_images cfg (_element_to_dict info) = Ok found
    /\ map issue_type found = ["missing_loading_attribute"; "missing_image_dimensions"].
Proof.
  intros Htag. scraped_rule _check_images.
  cbn [py_lower mbind outcome_bind]. rewrite Htag /=. eauto.
Qed.

(** A link without text has no accessible name. *)
Lemma empty_links_scraped :
  str_lower (tag_name info) = "a" ->
  str_strip (text_content info) = "" ->
  exists found issue,
    _check_links cfg (_element_to_dict info) = Ok found
    /\ issue ∈ found /\ issue_type issue = "empty_link" /\ severity issue = HIGH.
Proof.
  intros Htag Htext. scraped_rule _check_links.
  cbn [py_lower py_strip mbind outcome_bind]. rewrite Htag Htext /=.
  destruct (assoc_get (attributes info) "href") as [h|]; simpl;
    [destruct (str_startswith h "http")|]; simpl;
    eexists _, _; (split; [reflexivity|]); (split; [by left|done]).
Qed.

(** A button without text and without title has no accessible name. *)
Lemma empty_buttons_scraped :
  str_lower (tag_name info) = "button" ->
  str_strip (text_content info) = "" ->
  assoc_get (attributes info) "title" = None ->
  exists found issue,
    _check_accessibility_basic cfg (_element_to_dict info) = Ok found
    /\ issue ∈ found
    /\ issue_type issue = "button_no_accessible_name" /\ severity issue = HIGH.
Proof.
  intros Htag Htext Htitle. scraped_rule _check_accessibility_basic.
  cbn [py_lower py_strip mbind outcome_bind]. rewrite Htag Htext Htitle /=.
  eexists _, _. split; [reflexivity|]. split; [by left|done].
Qed.

End scraped.

Lemma scraped_issues element cfg checks t r :
  validate_element (__init__ cfg) (scraped_record element) checks t = Ok r ->
  Forall allowed (issues r).
Proof.
  intros (_ & -> & _)%validate_element_Ok.
  apply Forall_flat_map. intros name _.
  rewrite /check_issues validation_rules_any_config.
  destruct (assoc_get _ name) as [check|] eqn:E; [|constructor].
  pose proof (registered_rule_scraped _ _ (extracted_keys element) name check E) as H.
  destruct (check _) as [found|]; [by apply H|constructor].
Qed.

(** X23. Four of the sixteen issues are never reported for an element that
    comes from the scraper: empty_aria_attribute, missing_aria_required,
    external_link_security and inline_styles.  Each of them needs an
    attribute (an aria attribute, required, target, style) that the scraper
    does not collect, whatever the element has in the page. *)
Theorem scraped_records_never_get_four_issues element cfg checks t :
  exists r,
    validate_element (__init__ cfg) (scraped_record element) checks t = Ok r
    /\ forall issue, issue ∈ issues r -> issue_type issue ∉ unreachable_issue_types.
Proof.
  destruct (validate_element_returns (__init__ cfg) (scraped_record element) checks t)
    as [r Hr]; [by apply record_shape_attributes, exported_shape|].
  exists r. split; [done|].
  intros issue Hin. apply scraped_issues in Hr.
  rewrite Forall_forall in Hr. by apply Hr.
Qed.

Lemma issue_of_requested_check cfg e checks t r name check found issue :
  validate_element (__init__ cfg) e checks t = Ok r ->
  name ∈ effective_checks (__init__ cfg) checks ->
  assoc_get (_load_validation_rules _get_default_config) name = Some check ->
  check e = Ok found ->
  issue ∈ found ->
  issue ∈ issues r.
Proof.
  intros (_ & -> & _)%validate_element_Ok Hname Hcheck Hfound Hin.
  apply list_elem_of_In, in_flat_map. exists name.
  split; [by apply list_elem_of_In|]. apply list_elem_of_In.
  by rewrite /check_issues validation_rules_any_config Hcheck Hfound.
Qed.

Lemma failed_on_high_issue self e checks t r issue :
  validate_element self e checks t = Ok r ->
  issue ∈ issues r -> severity issue = HIGH -> passed r = false.
Proof.
  intros Hr Hin Hsev.
  apply passed_false_iff; [by eapply validate_element_passed_consistent|].
  exists issue. split; [done|]. by right.
Qed.

(** X24. What the rules always report for an element that comes from the
    scraper.  An image gets missing_loading_attribute and
    missing_image_dimensions whenever image_validation is run; a link whose
    text is blank gets empty_link and fails whenever link_validation is
    run, and a button whose text is blank and that has no title gets
    button_no_accessible_name and fails whenever accessibility_basic is
    run: the loading, width, height and aria-label attributes of the page
    do not reach the record. *)
Theorem scraped_images_links_and_buttons element cfg checks t :
  exists r,
    validate_element (__init__ cfg) (scraped_record element) checks t = Ok r
    /\ (str_lower (WebElement.tag_name element) = "img" ->
        "image_validation" ∈ effective_checks (__init__ cfg) checks ->
        emits "missing_loading_attribute" (issues r)
        /\ emits "missing_image_dimensions" (issues r))
    /\ (str_lower (WebElement.tag_name element) = "a" ->
        str_strip (WebElement.text element) = "" ->
        "link_validation" ∈ effective_checks (__init__ cfg) checks ->
        emits "empty_link" (issues r) /\ passed r = false)
    /\ (str_lower (WebElement.tag_name element) = "button" ->
        str_strip (WebElement.text element) = "" ->
        or_empty (WebElement.get_attribute element "title") = "" ->
        "accessibility_basic" ∈ effective_checks (__init__ cfg) checks ->
        emits "button_no_accessible_name" (issues r) /\ passed r = false).
Proof.
  destruct (validate_element_returns (__init__ cfg) (scraped_record element) checks t)
    as [r Hr]; [by apply record_shape_attributes, exported_shape|].
  pose proof (extracted_keys element) as Hkeys.
  exists r. split; [done|]. split; [|split].
  - intros Htag Hname.
    destruct (images_scraped _get_default_config _ Hkeys Htag) as (found & Hfound & Htypes).
    destruct found as [|i1 [|i2 [|? ?]]]; try done.
    injection Htypes as Ht1 Ht2.
    split; [exists i1|exists i2]; (split; [|done]);
      eapply (issue_of_requested_check _ _ _ _ _ "image_validation");
      try done; rewrite !elem_of_cons; auto.
  - intros Htag Htext Hname.
    rewrite -extracted_text in Htext.
    destruct (empty_links_scraped _get_default_config _ Hkeys Htag Htext)
      as (found & issue & Hfound & Hin & Hty & Hsev).
    assert (issue ∈ issues r) as Hissue.
    { by eapply (issue_of_requested_check _ _ _ _ _ "link_validation"). }
    split; [by exists issue|]. by eapply failed_on_high_issue.
  - intros Htag Htext Htitle Hname.
    rewrite -extracted_text in Htext.
    assert (assoc_get (attributes (_extract_element_info element)) "title" = None)
      as Hnone.
    { rewrite extracted_title. revert Htitle. rewrite /or_empty.
      destruct (WebElement.get_attribute element "title") as [v|]; [|done].
      by destruct v. }
    destruct (empty_buttons_scraped _get_default_config _ Hkeys Htag Htext Hnone)
      as (found & issue & Hfound & Hin & Hty & Hsev).
    assert (issue ∈ issues r) as Hissue.
    { by eapply (issue_of_requested_check _ _ _ _ _ "accessibility_basic"). }
    split; [by exists issue|]. by eapply failed_on_high_issue.
Qed.

(** X24 at a link without text that has an aria-label in the page. *)
Lemma scraped_images_links_and_buttons_witness :
  exists r,
    validate_element (__init__ None) (scraped_record labelled_link) None 0 = Ok r
    /\ emits "empty_link" (issues r) /\ passed r = false.
Proof.
  destruct (scraped_images_links_and_buttons labelled_link None None 0)
    as (r & Hr & _ & Hlink & _).
  exists r. split; [exact Hr|].
  apply Hlink; [reflexivity|reflexivity|].
  rewrite /effective_checks /= !elem_of_cons. auto 10.
Defined.

(** ** The inner HTML that is exported *)

Lemma length_append (s1 s2 : string) :
  String.length (s1 +:+ s2) = String.length s1 + String.length s2.
Proof. induction s1 as [|c s1 IH]; [done|]. by rewrite /= IH. Qed.

Lemma length_substring_0 n : forall s,
  n <= String.length s -> String.length (substring 0 n s) = n.
Proof.
  induction n as [|n IH]; intros s H.
  - by destruct s.
  - destruct s as [|c s]; simpl in *; [lia|]. rewrite IH; lia.
Qed.

Lemma substring_0_append n : forall s t,
  n <= String.length s -> substring 0 n (substring 0 n s +:+ t) = substring 0 n s.
Proof.
  induction n as [|n IH]; intros s t H.
  - by destruct s, t.
  - destruct s as [|c s]; simpl in *; [lia|]. f_equal. apply IH. lia.
Qed.

(** X25. The inner HTML of an exported record is at most 503 characters
    long: up to 500 characters it is exported as it is, and beyond that it
    is its first 500 characters followed by three dots, 503 characters in
    all.  Exporting is stable: the record of an element whose inner HTML is
    an exported one is exported without change. *)
Theorem exported_inner_html_is_cut info :
  exists h,
    dict_get (_element_to_dict info) "inner_html" = Some (VStr h)
    /\ String.length h <= 503
    /\ (String.length (inner_html info) <= 500 -> h = inner_html info)
    /\ (500 < String.length (inner_html info) ->
        h = substring 0 500 (inner_html info) +:+ "..."
        /\ String.length h = 503
        /\ substring 0 500 h = substring 0 500 (inner_html info))
    /\ _element_to_dict (with_inner_html info h) = _element_to_dict info.
Proof.
  eexists. split; [reflexivity|].
  destruct (Nat.ltb_spec 500 (String.length (inner_html info))) as [Hlong|Hshort].
  - assert (String.length (substring 0 500 (inner_html info) +:+ "...") = 503) as Hlen.
    { rewrite length_append length_substring_0; [lia|]. done. }
    split; [lia|]. split; [lia|]. split.
    + intros _. split; [done|]. split; [done|]. apply substring_0_append. lia.
    + rewrite /_element_to_dict /with_inner_html. cbn [inner_html tag_name attributes
        text_content xpath css_selector bounding_rect is_visible is_enabled
        parent_info children_count].
      rewrite Hlen. change (500 <? 503)%nat with true. cbv iota.
      rewrite substring_0_append; [lia|].
      by apply Nat.ltb_lt in Hlong as ->.
  - split; [lia|]. split; [done|]. split; [lia|].
    rewrite /_element_to_dict /with_inner_html. cbn [inner_html tag_name attributes
      text_content xpath css_selector bounding_rect is_visible is_enabled
      parent_info children_count].
    by apply Nat.ltb_ge in Hshort as ->.
Qed.

End DOMScraperProps.
